(** * dynamo.plot: a shallow embedding of the plotting routines

    Source files: [dynamo/plot/preprocess.py] ([show_fraction],
    [variance_explained], [feature_genes], [phase_portraits]) and
    [dynamo/plot/scatters.py] ([_red], [_green], [_blue],
    [_embed_datashader_in_an_axis], [_get_extent], [_select_font_color],
    [scatters]).

    Conventions of the embedding.
    - Python exceptions are values of [exn]; a function that may raise lives
      in the monad [M], which threads the Python-side world (the AnnData
      object passed by reference and the figure being drawn) and keeps the
      world reached at the point of the raise.
    - numpy floating point numbers are idealised as [fnum]: exact rationals
      extended with the two infinities and NaN, following the IEEE rules for
      the special values (no rounding, no signed zero).
    - calls into matplotlib and seaborn are recorded as [event]s appended to
      the figure; they are assumed to succeed except where noted.
    - [s is 'literal'] on strings is read as string equality (CPython interns
      identifier-like literals, which is how these functions are called). *)

From Stdlib Require Import ZArith QArith Qcanon Qround String Ascii List Bool Lia.
Import ListNotations.
Open Scope string_scope.
Open Scope Z_scope.

(** ** Pixel channel extractors (scatters.py, lines 37-49) *)

(** [numba.vectorize(["uint8(uint32)"])]: the argument is a 32-bit unsigned
    integer, the result is cast to 8 bits. *)
Definition uint32 (x : Z) : Prop := 0 <= x < 2 ^ 32.
Definition to_uint8 (x : Z) : Z := x mod 2 ^ 8.

(** [return (x & 0xFF0000) >> 16] *)
Definition _red (x : Z) : Z := to_uint8 (Z.shiftr (Z.land x 0xFF0000) 16).

(** [return (x & 0x00FF00) >> 8] *)
Definition _green (x : Z) : Z := to_uint8 (Z.shiftr (Z.land x 0x00FF00) 8).

(** [return x & 0x0000FF] *)
Definition _blue (x : Z) : Z := to_uint8 (Z.land x 0x0000FF).

(** ** Numbers *)

(** A numpy float64, idealised. *)
Inductive fnum : Type :=
| Fin (q : Qc)
| PInf
| NInf
| NaN.

Definition fzero : fnum := Fin 0%Qc.
Definition fone : fnum := Fin 1%Qc.
Definition ftwo : fnum := Fin (Q2Qc 2).
Definition fofZ (z : Z) : fnum := Fin (Q2Qc (inject_Z z)).

Definition Qc_ltb (a b : Qc) : bool :=
  match (a ?= b)%Qc with Lt => true | _ => false end.
Definition Qc_leb (a b : Qc) : bool :=
  match (a ?= b)%Qc with Gt => false | _ => true end.
Definition Qc_eqb (a b : Qc) : bool :=
  match (a ?= b)%Qc with Eq => true | _ => false end.

Definition is_nan (x : fnum) : bool :=
  match x with NaN => true | _ => false end.

Definition fneg (x : fnum) : fnum :=
  match x with
  | Fin q => Fin (- q)%Qc
  | PInf => NInf
  | NInf => PInf
  | NaN => NaN
  end.

Definition fadd (x y : fnum) : fnum :=
  match x, y with
  | NaN, _ | _, NaN => NaN
  | PInf, NInf | NInf, PInf => NaN
  | PInf, _ | _, PInf => PInf
  | NInf, _ | _, NInf => NInf
  | Fin a, Fin b => Fin (a + b)%Qc
  end.

Definition fsub (x y : fnum) : fnum := fadd x (fneg y).

(** Sign of a non-NaN number: [Lt] negative, [Eq] zero, [Gt] positive. *)
Definition fsign (x : fnum) : comparison :=
  match x with
  | Fin q => (q ?= 0)%Qc
  | PInf => Gt
  | NInf => Lt
  | NaN => Eq
  end.

Definition finf_of_sign (s : comparison) : fnum :=
  match s with Lt => NInf | Gt => PInf | Eq => NaN end.

Definition sign_mul (s t : comparison) : comparison :=
  match s, t with
  | Eq, _ | _, Eq => Eq
  | Lt, Lt | Gt, Gt => Gt
  | _, _ => Lt
  end.

Definition fmul (x y : fnum) : fnum :=
  match x, y with
  | NaN, _ | _, NaN => NaN
  | Fin a, Fin b => Fin (a * b)%Qc
  | _, _ => finf_of_sign (sign_mul (fsign x) (fsign y))
  end.

(** Division; a zero divisor is the positive zero. *)
Definition fdiv (x y : fnum) : fnum :=
  match x, y with
  | NaN, _ | _, NaN => NaN
  | Fin a, Fin b =>
      if Qc_eqb b 0 then finf_of_sign (a ?= 0)%Qc else Fin (a / b)%Qc
  | Fin _, _ => fzero
  | _, Fin b =>
      if Qc_eqb b 0 then x else finf_of_sign (sign_mul (fsign x) (fsign y))
  | _, _ => NaN
  end.

Definition fabs (x : fnum) : fnum :=
  match x with
  | Fin q => if Qc_ltb q 0 then Fin (- q)%Qc else Fin q
  | PInf | NInf => PInf
  | NaN => NaN
  end.

(** [x <= y]; false as soon as one side is NaN. *)
Definition fleb (x y : fnum) : bool :=
  match x, y with
  | NaN, _ | _, NaN => false
  | NInf, _ => true
  | _, PInf => true
  | Fin a, Fin b => Qc_leb a b
  | _, _ => false
  end.

Definition fltb (x y : fnum) : bool :=
  match x, y with
  | NaN, _ | _, NaN => false
  | _, _ => negb (fleb y x)
  end.

Definition vec := list fnum.

Definition vsum (v : vec) : fnum := fold_right fadd fzero v.

Fixpoint zipWith {A B C} (f : A -> B -> C) (xs : list A) (ys : list B) : list C :=
  match xs, ys with
  | x :: xs', y :: ys' => f x y :: zipWith f xs' ys'
  | _, _ => []
  end.

Definition vadd : vec -> vec -> vec := zipWith fadd.
Definition vdiv : vec -> vec -> vec := zipWith fdiv.

(** ** Exceptions and results *)

Inductive exn : Type :=
| Exception (msg : string)          (* [raise Exception(msg)] of the source *)
| ValueError (msg : string)
| AttributeError (msg : string)
| KeyError (key : string)
| IndexError (msg : string)
| TypeError (msg : string)
| NameError (name : string)
| ZeroDivisionError (msg : string)
| UnboundLocalError (name : string).

Inductive result (A : Type) : Type :=
| Ok (a : A)
| Raise (e : exn).
Arguments Ok {A} a.
Arguments Raise {A} e.

Definition rbind {A B} (r : result A) (k : A -> result B) : result B :=
  match r with
  | Ok a => k a
  | Raise e => Raise e
  end.

Definition rmap {A B} (f : A -> B) (r : result A) : result B :=
  rbind r (fun a => Ok (f a)).

Fixpoint rmapM {A B} (f : A -> result B) (l : list A) : result (list B) :=
  match l with
  | [] => Ok []
  | x :: l' => rbind (f x) (fun y => rbind (rmapM f l') (fun ys => Ok (y :: ys)))
  end.

(** ** Matrices and numpy values *)

(** A layer is a two-dimensional [numpy.ndarray] or a [scipy.sparse]
    matrix; the latter is kept as its stored entries, row by row, each a
    column index with a value. *)
Inductive matrix : Type :=
| Dense (rows : list vec)
| Sparse (ncols : nat) (rows : list (list (nat * fnum))).

Definition issparse (m : matrix) : bool :=
  match m with Sparse _ _ => true | Dense _ => false end.

(** The result of a reduction: a one-dimensional [ndarray] or a
    two-dimensional [numpy.matrix]. *)
Inductive ndarr : Type :=
| Arr1 (v : vec)
| NpMatrix (rows : list vec).

(** [np.sum(mat, 1)] and [mat.sum(1)]: numpy hands the call to the method of
    a sparse matrix, which answers with an n x 1 [numpy.matrix]; on an
    [ndarray] the result is one-dimensional. *)
Definition sum1 (m : matrix) : ndarr :=
  match m with
  | Dense rows => Arr1 (map vsum rows)
  | Sparse _ rows => NpMatrix (map (fun r => [vsum (map snd r)]) rows)
  end.

(** [.A1]: flattens a [numpy.matrix]; an [ndarray] has no such attribute. *)
Definition A1 (x : ndarr) : result ndarr :=
  match x with
  | NpMatrix rows => Ok (Arr1 (concat rows))
  | Arr1 _ => Raise (AttributeError "'numpy.ndarray' object has no attribute 'A1'")
  end.

(** The dense array holding the values of a sparse matrix ([.A],
    [.toarray()]); entries stored twice for one position add up. *)
Definition todense_row (ncols : nat) (r : list (nat * fnum)) : vec :=
  map (fun j => vsum (map snd (filter (fun e => Nat.eqb (fst e) j) r)))
      (seq 0 ncols).

Definition toarray (m : matrix) : matrix :=
  match m with
  | Dense rows => Dense rows
  | Sparse ncols rows => Dense (map (todense_row ncols) rows)
  end.

(** Broadcasting of a binary operation over two rows, then over two lists
    of rows. *)
Definition bcast_row (f : fnum -> fnum -> fnum) (u v : vec) : result vec :=
  if Nat.eqb (length u) (length v) then Ok (zipWith f u v)
  else match u, v with
       | [x], _ => Ok (map (f x) v)
       | _, [y] => Ok (map (fun x => f x y) u)
       | _, _ => Raise (ValueError "operands could not be broadcast together")
       end.

Definition bcast_rows (f : fnum -> fnum -> fnum) (a b : list vec)
  : result (list vec) :=
  if Nat.eqb (length a) (length b)
  then rmapM (fun uv => bcast_row f (fst uv) (snd uv)) (combine a b)
  else match a, b with
       | [u], _ => rmapM (fun v => bcast_row f u v) b
       | _, [v] => rmapM (fun u => bcast_row f u v) a
       | _, _ => Raise (ValueError "operands could not be broadcast together")
       end.

Definition np_binop (f : fnum -> fnum -> fnum) (x y : ndarr) : result ndarr :=
  match x, y with
  | Arr1 u, Arr1 v => rmap Arr1 (bcast_row f u v)
  | Arr1 u, NpMatrix b => rmap NpMatrix (bcast_rows f [u] b)
  | NpMatrix a, Arr1 v => rmap NpMatrix (bcast_rows f a [v])
  | NpMatrix a, NpMatrix b => rmap NpMatrix (bcast_rows f a b)
  end.

Definition np_add := np_binop fadd.
Definition np_div := np_binop fdiv.

(** ** Data frames *)

Inductive cell : Type :=
| CNum (x : fnum)
| CStr (s : string)
| CBool (b : bool)
| CInt (z : Z).

Record DataFrame : Type := mkDF {
  df_index : list cell;
  df_columns : list (string * list cell)
}.

Fixpoint lookup {A} (k : string) (d : list (string * A)) : option A :=
  match d with
  | [] => None
  | (k', v) :: d' => if String.eqb k k' then Some v else lookup k d'
  end.

Definition keys {A} (d : list (string * A)) : list string := map fst d.

Definition str_in (s : string) (l : list string) : bool :=
  existsb (String.eqb s) l.

(** [d[k]] on a dict or a frame. *)
Definition getitem {A} (d : list (string * A)) (k : string) : result A :=
  match lookup k d with
  | Some v => Ok v
  | None => Raise (KeyError k)
  end.

(** [pd.DataFrame({name: array, ...}, index=index)]: every array is
    one-dimensional and as long as the index. *)
Definition column_of (n : nat) (x : ndarr) : result (list cell) :=
  match x with
  | Arr1 v =>
      if Nat.eqb (length v) n then Ok (map CNum v)
      else Raise (ValueError "Length of values does not match length of index")
  | NpMatrix _ => Raise (Exception "Data must be 1-dimensional")
  end.

Definition DataFrame_of (cols : list (string * ndarr)) (index : list cell)
  : result DataFrame :=
  rmap (mkDF index)
       (rmapM (fun c => rmap (pair (fst c)) (column_of (length index) (snd c)))
              cols).

(** [df[name] = column], for a column on the same index. *)
Definition setitem (df : DataFrame) (name : string) (col : list cell)
  : DataFrame :=
  mkDF (df_index df)
       (if str_in name (keys (df_columns df))
        then map (fun c => if String.eqb (fst c) name then (name, col) else c)
                 (df_columns df)
        else df_columns df ++ [(name, col)]).

(** [df.melt(value_vars=..., id_vars=...)]: the identifier columns repeated
    once per value column, then [variable] and [value]. *)
Definition melt (df : DataFrame) (value_vars id_vars : list string)
  : result DataFrame :=
  rbind (rmapM (getitem (df_columns df)) id_vars) (fun ids =>
  rbind (rmapM (getitem (df_columns df)) value_vars) (fun vals =>
  let n := length (df_index df) in
  let k := length value_vars in
  Ok (mkDF (map (fun i => CInt (Z.of_nat i)) (seq 0 (n * k)))
        (combine id_vars (map (fun c => concat (repeat c k)) ids)
         ++ [("variable", concat (map (fun v => repeat (CStr v) n) value_vars));
             ("value", concat vals)])))).

(** ** The annotated data matrix *)

Inductive uns_entry : Type :=
| UArr (v : vec)
| UFunc (f : vec -> vec).

Inductive uns_value : Type :=
| UVec (v : vec)
| UDict (d : list (string * uns_entry)).

Record AnnData : Type := mkAnnData {
  X : matrix;
  obs : DataFrame;                    (* one row per cell *)
  var : DataFrame;                    (* one row per gene *)
  obsm : list (string * matrix);
  layers : list (string * matrix);
  uns : list (string * uns_value)
}.

(** ** The world of a call: the AnnData object and the figure *)

(** The [hue] argument of [sns.scatterplot]: a column name, a vector of
    values, or a list of names handed over as it is. *)
Inductive hue_arg : Type :=
| HueName (name : string)
| HueValues (values : list cell)
| HueNames (names : option (list string)).

(** Which call site of the source drew a scatter plot. *)
Inductive panel_kind : Type :=
| PhasePanel
| ExpressionPanel
| VelocityPanel
| ProteinPhasePanel
| ProteinExpressionPanel
| ProteinVelocityPanel
| EmbeddingPanel.

(** What reaches the charting libraries. *)
Inductive event : Type :=
| SetStyle (style : string)                               (* sns.set_style *)
| ViolinPlot (x y : string) (data : DataFrame)            (* sns.violinplot *)
| CatPlot (x y : string) (data : DataFrame) (col : string)  (* sns.catplot, kind='violin' *)
| SetLabels (xlabel ylabel : string)
| Figure (width height : fnum)                            (* plt.figure *)
| Subplot (ax : nat)                                      (* plt.subplot(gs[ax]) *)
| ScatterPlot (panel : panel_kind) (ax : nat) (xs ys : list cell)
              (hue : hue_arg) (palette : string)          (* sns.scatterplot *)
| LinePlot (ax : nat) (xs ys : vec)                       (* ax.plot / plt.plot *)
| PltScatter (xs ys : list cell) (color : string)         (* plt.scatter *)
| AxVLine (x : Z)                                         (* plt.axvline *)
| Title (ax : nat) (title : string)
| XLim (ax : nat) (lo hi : fnum)
| YLim (ax : nat) (lo hi : fnum)
| AxisLabels (ax : nat) (xlabel ylabel : string)
| AxisScale (xscale yscale : string)
| Despline (ax : nat)
| Legend (ax : nat)
| TightLayout
| PltShow.

Record World : Type := mkWorld {
  adata : AnnData;
  figure : list event
}.

Definition M (A : Type) : Type := World -> result A * World.

Definition ret {A} (a : A) : M A := fun w => (Ok a, w).

Definition bind {A B} (m : M A) (k : A -> M B) : M B :=
  fun w =>
    match m w with
    | (Ok a, w') => k a w'
    | (Raise e, w') => (Raise e, w')
    end.

Definition raise {A} (e : exn) : M A := fun w => (Raise e, w).

Definition lift {A} (r : result A) : M A := fun w => (r, w).

(** Reading through the reference [adata]. *)
Definition get_adata : M AnnData := fun w => (Ok (adata w), w).

(** Writing through the reference [adata]; no plotting function uses it. *)
Definition put_adata (a : AnnData) : M unit :=
  fun w => (Ok tt, mkWorld a (figure w)).

(** A call into a charting library. *)
Definition emit (e : event) : M unit :=
  fun w => (Ok tt, mkWorld (adata w) (figure w ++ [e])).

Declare Scope py_scope.
Delimit Scope py_scope with py.
Notation "x <- m ;; k" := (bind m (fun x => k))
  (at level 61, m at next level, right associativity) : py_scope.
Notation "m ;; k" := (bind m (fun _ => k))
  (at level 61, right associativity) : py_scope.
Notation "' pat <- m ;; k" := (bind m (fun x => match x with pat => k end))
  (at level 61, pat pattern, m at next level, right associativity) : py_scope.
Open Scope py_scope.

Fixpoint for_each {A} (l : list A) (body : A -> M unit) : M unit :=
  match l with
  | [] => ret tt
  | x :: l' => body x ;; for_each l' body
  end.

Definition all_in (ks : list string) (d : list string) : bool :=
  forallb (fun k => str_in k d) ks.

(** ** show_fraction (preprocess.py, lines 9-104) *)

Definition valid_modes : list string := ["labelling"; "splicing"; "full"].

Definition corrupted_msg : string :=
  "Your adata is corrupted. Make sure that your layer has keys new, total for the labelling mode, "
  ++ "spliced, (ambiguous, optional), unspliced for the splicing model and uu, ul, su, sl for the full mode".

(** Lines 33-36.  The right-hand side of the assignment is the 3-tuple
    [np.sum(new_mat, 1)],
    [np.sum(total_mat, 1) if not issparse(new_mat) else new_mat.sum(1).A1],
    [total_mat.sum(1).A1]; its components are evaluated in order and the
    unpacking into two names then raises.  Lines 38-46 are not reached. *)
Definition fractions_labelling (a : AnnData) : M DataFrame :=
  new_mat <- lift (getitem (layers a) "new") ;;
  total_mat <- lift (getitem (layers a) "total") ;;
  let e1 := sum1 new_mat in
  e2 <- lift (if negb (issparse new_mat) then Ok (sum1 total_mat)
              else A1 (sum1 new_mat)) ;;
  e3 <- lift (A1 (sum1 total_mat)) ;;
  raise (ValueError "too many values to unpack (expected 2)").

(** Lines 49-74. *)
Definition fractions_splicing (a : AnnData) (group : option string)
  : M DataFrame :=
  let has_ambiguous := str_in "ambiguous" (keys (layers a)) in
  ambiguous <-
    (if has_ambiguous then lift (getitem (layers a) "ambiguous")
     else u <- lift (getitem (layers a) "unspliced") ;;
          ret (if issparse u then Sparse 1 [[]] else Dense [[fzero]])) ;;
  unspliced_mat <- lift (getitem (layers a) "unspliced") ;;
  spliced_mat <- lift (getitem (layers a) "spliced") ;;
  let ambiguous_mat := ambiguous in
  '(un_cell_sum, sp_cell_sum) <-
    (if negb (issparse unspliced_mat)
     then ret (sum1 unspliced_mat, sum1 spliced_mat)
     else u <- lift (A1 (sum1 unspliced_mat)) ;;
          s <- lift (A1 (sum1 spliced_mat)) ;;
          ret (u, s)) ;;
  df <-
    (if has_ambiguous then
       am_cell_sum <- lift (if issparse unspliced_mat
                            then A1 (sum1 ambiguous_mat)
                            else Ok (sum1 ambiguous_mat)) ;;
       us <- lift (np_add un_cell_sum sp_cell_sum) ;;
       tot_cell_sum <- lift (np_add us am_cell_sum) ;;
       un_frac_cell <- lift (np_div un_cell_sum tot_cell_sum) ;;
       sp_frac_cell <- lift (np_div sp_cell_sum tot_cell_sum) ;;
       am_frac_cell <- lift (np_div am_cell_sum tot_cell_sum) ;;
       lift (DataFrame_of [("unspliced", un_frac_cell);
                           ("spliced", sp_frac_cell);
                           ("ambiguous", am_frac_cell)]
                          (df_index (obs a)))
     else
       tot_cell_sum <- lift (np_add un_cell_sum sp_cell_sum) ;;
       un_frac_cell <- lift (np_div un_cell_sum tot_cell_sum) ;;
       sp_frac_cell <- lift (np_div sp_cell_sum tot_cell_sum) ;;
       lift (DataFrame_of [("unspliced", un_frac_cell);
                           ("spliced", sp_frac_cell)]
                          (df_index (obs a)))) ;;
  let value_vars :=
    if has_ambiguous then ["unspliced"; "spliced"; "ambiguous"]
    else ["unspliced"; "spliced"] in
  match group with
  | Some g =>
      if str_in g (keys (df_columns (obs a))) then
        col <- lift (getitem (df_columns (obs a)) g) ;;
        lift (melt (setitem df "group" col) value_vars ["group"])
      else lift (melt df value_vars [])
  | None => lift (melt df value_vars [])
  end.

(** Lines 77-79.  The right-hand side is the 7-tuple [np.sum(uu, 1)],
    [np.sum(ul, 1)], [np.sum(su, 1)],
    [np.sum(sl, 1) if not issparse(uu) else uu.sum(1).A1], [ul.sum(1).A1],
    [su.sum(1).A1], [sl.sum(1).A1]; the unpacking into four names raises.
    Lines 81-89 are not reached. *)
Definition fractions_full (a : AnnData) : M DataFrame :=
  uu <- lift (getitem (layers a) "uu") ;;
  ul <- lift (getitem (layers a) "ul") ;;
  su <- lift (getitem (layers a) "su") ;;
  sl <- lift (getitem (layers a) "sl") ;;
  let e1 := sum1 uu in
  let e2 := sum1 ul in
  let e3 := sum1 su in
  e4 <- lift (if negb (issparse uu) then Ok (sum1 sl) else A1 (sum1 uu)) ;;
  e5 <- lift (A1 (sum1 ul)) ;;
  e6 <- lift (A1 (sum1 su)) ;;
  e7 <- lift (A1 (sum1 sl)) ;;
  raise (ValueError "too many values to unpack (expected 4)").

Definition show_fraction (mode : string) (group : option string) : M unit :=
  a <- get_adata ;;
  emit (SetStyle "ticks") ;;
  (if negb (str_in mode valid_modes)
   then raise (Exception "mode can be only one of the labelling, splicing or full")
   else ret tt) ;;
  res <-
    (if String.eqb mode "labelling" && all_in ["new"; "total"] (keys (layers a))
     then fractions_labelling a
     else if String.eqb mode "splicing"
             && all_in ["spliced"; "unspliced"] (keys (layers a))
     then fractions_splicing a group
     else if String.eqb mode "full"
             && all_in ["uu"; "ul"; "su"; "sl"] (keys (layers a))
     then fractions_full a
     else raise (Exception corrupted_msg)) ;;
  match group with
  | None =>
      emit (ViolinPlot "variable" "value" res) ;;
      emit (SetLabels "Category" "Fraction")
  | Some _ =>
      (* sns.catplot(..., col="group") looks the column up in [res] *)
      lift (getitem (df_columns res) "group") ;;
      emit (CatPlot "variable" "value" res "group") ;;
      emit (SetLabels "Category" "Fraction")
  end ;;
  emit PltShow.

(** ** numpy and pandas helpers shared by phase_portraits and scatters *)

Definition feqb (x y : fnum) : bool :=
  match x, y with
  | Fin a, Fin b => Qc_eqb a b
  | PInf, PInf | NInf, NInf | NaN, NaN => true
  | _, _ => false
  end.

Definition cell_eqb (c d : cell) : bool :=
  match c, d with
  | CNum x, CNum y => feqb x y
  | CStr s, CStr t => String.eqb s t
  | CBool a, CBool b => Bool.eqb a b
  | CInt a, CInt b => Z.eqb a b
  | _, _ => false
  end.

(** [Series.unique()]: first occurrences, in order; the NaNs count as one
    value. *)
Fixpoint unique (l : list cell) : list cell :=
  match l with
  | [] => []
  | c :: l' => c :: filter (fun d => negb (cell_eqb c d)) (unique l')
  end.

Definition num_of_cell (c : cell) : fnum :=
  match c with
  | CNum x => x
  | CInt z => fofZ z
  | CBool b => if b then fone else fzero
  | CStr _ => NaN
  end.

Definition fmax2 (x y : fnum) : fnum := if fleb x y then y else x.

(** [np.nanmax], [Series.max()], [np.max] of a series: the NaNs are skipped;
    NaN when nothing is left. *)
Definition nanmax (v : vec) : fnum :=
  match filter (fun x => negb (is_nan x)) v with
  | [] => NaN
  | x :: xs => fold_left fmax2 xs x
  end.

Fixpoint insert_sorted (x : fnum) (l : vec) : vec :=
  match l with
  | [] => [x]
  | y :: l' => if fleb x y then x :: l else y :: insert_sorted x l'
  end.

Definition sort_vec (v : vec) : vec := fold_right insert_sorted [] v.

(** The q-th percentile of sorted data, by linear interpolation between the
    two nearest ranks, as numpy computes it: both neighbours weighted. *)
Definition percentile_sorted (s : vec) (q : Qc) : fnum :=
  let n := length s in
  let pos := (q / Q2Qc 100 * Q2Qc (inject_Z (Z.of_nat (n - 1))))%Qc in
  let below := Z.to_nat (Qfloor pos) in
  let above := Nat.min (below + 1) (n - 1) in
  let w_above := (pos - Q2Qc (inject_Z (Z.of_nat below)))%Qc in
  let w_below := (1 - w_above)%Qc in
  fadd (fmul (nth below s NaN) (Fin w_below))
       (fmul (nth above s NaN) (Fin w_above)).

(** [np.nanpercentile(v, qs)] *)
Definition nanpercentile (v : vec) (qs : list Qc) : vec :=
  match sort_vec (filter (fun x => negb (is_nan x)) v) with
  | [] => map (fun _ => NaN) qs
  | s => map (percentile_sorted s) qs
  end.

(** [np.percentile(v, q)]: NaN as soon as the data hold one. *)
Definition percentile (v : vec) (q : Qc) : fnum :=
  if existsb is_nan v then NaN
  else match sort_vec v with
       | [] => NaN
       | s => percentile_sorted s q
       end.

(** [np.clip(x, lo, hi)] on a series: a NaN stays. *)
Definition clip (lo hi x : fnum) : fnum :=
  if is_nan x then NaN
  else if fltb x lo then lo
  else if fltb hi x then hi
  else x.

(** preprocess.py lines 357-361 and scatters.py lines 412-416:
    [limit = np.nanmax(np.abs(np.nanpercentile(V_vec, [1, 99])))],
    [V_vec = V_vec + limit], [V_vec = V_vec / (2 * limit)],
    [V_vec = np.clip(V_vec, 0, 1)]. *)
Definition velocity_limit (V_vec : vec) : fnum :=
  nanmax (map fabs (nanpercentile V_vec [Q2Qc 1; Q2Qc 99])).

Definition normalize_velocity (V_vec : vec) : vec :=
  let limit := velocity_limit V_vec in
  let V_vec := map (fun v => fadd v limit) V_vec in
  let V_vec := map (fun v => fdiv v (fmul ftwo limit)) V_vec in
  map (clip fzero fone) V_vec.

(** scatters.py lines 445 and 458:
    [np.clip(e / np.percentile(e, 99), 0, 1)]. *)
Definition normalize_expression (e : vec) : vec :=
  let p := percentile e (Q2Qc 99) in
  map (clip fzero fone) (map (fun v => fdiv v p) e).

(** [np.linspace(start, stop, num)] for [num > 1]: [num] samples
    [start + k * step], the last one [stop] itself; 50 samples by default. *)
Definition linspace (start stop : fnum) (num : nat) : vec :=
  let step := fdiv (fsub stop start) (fofZ (Z.of_nat (num - 1))) in
  (map (fun k => fadd (fmul (fofZ (Z.of_nat k)) step) start) (seq 0 (num - 1))
   ++ [stop])%list.

Definition linspace0 (stop : fnum) : vec := linspace fzero stop 50.

Definition tile {A} (l : list A) (n : nat) : list A := concat (repeat l n).

Definition repeat_each {A} (l : list A) (n : nat) : list A :=
  flat_map (fun x => repeat x n) l.

(** [m.flatten()]; a sparse matrix has no such method. *)
Definition flatten (m : matrix) : result vec :=
  match m with
  | Dense rows => Ok (concat rows)
  | Sparse _ _ => Raise (AttributeError "flatten not found")
  end.

(** [m.A]; an [ndarray] has no such attribute. *)
Definition dotA (m : matrix) : result matrix :=
  match m with
  | Sparse _ _ => Ok (toarray m)
  | Dense _ => Raise (AttributeError "'numpy.ndarray' object has no attribute 'A'")
  end.

Definition nrows (m : matrix) : nat :=
  match m with Dense rows => length rows | Sparse _ rows => length rows end.

Definition ncols (m : matrix) : nat :=
  match m with
  | Dense rows => match rows with r :: _ => length r | [] => 0 end
  | Sparse n _ => n
  end.

(** Positions of the genes of [names] in [adata.var.index], and their
    labels: [adata.var.index[adata.var.index.isin(genes)]]. *)
Definition is_named (names : list string) (c : cell) : bool :=
  match c with CStr s => str_in s names | _ => false end.

Fixpoint positions_from {A} (p : A -> bool) (l : list A) (i : nat) : list nat :=
  match l with
  | [] => []
  | x :: l' =>
      if p x then i :: positions_from p l' (S i) else positions_from p l' (S i)
  end.

Definition positions {A} (p : A -> bool) (l : list A) : list nat :=
  positions_from p l 0.

Definition label_string (c : cell) : string :=
  match c with CStr s => s | _ => "" end.

(** [adata[:, genes].layers[k]]: the columns of the genes, AnnData keeping
    every layer one column per row of [adata.var]. *)
Definition take_columns (idx : list nat) (m : matrix) : matrix :=
  match m with
  | Dense rows => Dense (map (fun r => map (fun j => nth j r NaN) idx) rows)
  | Sparse _ rows =>
      Sparse (length idx)
        (map (fun r =>
                flat_map (fun kj =>
                            map (fun e => (fst kj, snd e))
                                (filter (fun e => Nat.eqb (fst e) (snd kj)) r))
                         (combine (seq 0 (length idx)) idx))
             rows)
  end.

Definition range_index (n : nat) : list cell :=
  map (fun i => CInt (Z.of_nat i)) (seq 0 n).

(** A value of the dict handed to [pd.DataFrame]. *)
Inductive colspec : Type :=
| ColCells (l : list cell)
| ColArr (x : ndarr).

Definition cells_of (n : nat) (c : colspec) : result (list cell) :=
  match c with
  | ColCells l =>
      if Nat.eqb (length l) n then Ok l
      else Raise (ValueError "Length of values does not match length of index")
  | ColArr x => column_of n x
  end.

Definition DataFrame_of_columns (cols : list (string * colspec))
  (index : list cell) : result DataFrame :=
  rmap (mkDF index)
       (rmapM (fun c => rmap (pair (fst c)) (cells_of (length index) (snd c)))
              cols).

(** A Python index into an axis of length [n]. *)
Definition py_index (n : nat) (i : Z) : result nat :=
  if (0 <=? i) && (i <? Z.of_nat n) then Ok (Z.to_nat i)
  else if (- Z.of_nat n <=? i) && (i <? 0) then Ok (Z.to_nat (Z.of_nat n + i))
  else Raise (IndexError "index is out of bounds for axis 1").

(** Lines 229-231 of preprocess.py and 168-170 of scatters.py:
    [pd.DataFrame({basis + '_0': m[:, x], basis + '_1': m[:, y]})] with the
    columns renamed [dim_1], [dim_2].  Columns cut from a sparse matrix are
    no one-dimensional arrays, and the frame cannot be built. *)
Definition embedding_frame (m : matrix) (x y : Z) : result DataFrame :=
  rbind (py_index (ncols m) x) (fun jx =>
  rbind (py_index (ncols m) y) (fun jy =>
  match m with
  | Dense rows =>
      Ok (mkDF (range_index (length rows))
               [("dim_1", map (fun r => CNum (nth jx r NaN)) rows);
                ("dim_2", map (fun r => CNum (nth jy r NaN)) rows)])
  | Sparse _ _ =>
      Raise (ValueError "If using all scalar values, you must pass an index")
  end)).

(** A local name that may not have been assigned. *)
Definition bound {A} (name : string) (o : option A) : result A :=
  match o with
  | Some v => Ok v
  | None => Raise (UnboundLocalError name)
  end.

(** Lines 236-244 of preprocess.py and 182-190 of scatters.py. *)
Definition expression_matrix (a : AnnData) (idx : list nat) (ekey : string)
  : result (option matrix) :=
  let layers_ := (keys (layers a) ++ ["X"; "protein"; "X_protein"])%list in
  if str_in ekey layers_ then
    if String.eqb ekey "X" then Ok (Some (take_columns idx (X a)))
    else if str_in ekey ["protein"; "X_protein"]
    then rmap Some (getitem (obsm a) ekey)
    else rmap (fun m => Some (take_columns idx m)) (getitem (layers a) ekey)
  else Ok None.

(** [frame.name[genes].values]: attribute access to a column, then selection
    by label. *)
Definition attr_series (df : DataFrame) (name : string) : result (list cell) :=
  match lookup name (df_columns df) with
  | Some c => Ok c
  | None => Raise (AttributeError ("'DataFrame' object has no attribute '" ++ name ++ "'"))
  end.

Definition at_labels (index col : list cell) (names : list string)
  : result (list cell) :=
  rmap (@concat cell)
       (rmapM (fun g =>
                 match filter (fun ic => cell_eqb (fst ic) (CStr g))
                              (combine index col) with
                 | [] => Raise (KeyError g)
                 | l => Ok (map snd l)
                 end)
              names).

Definition var_values (a : AnnData) (name : string) (genes : list string)
  : result (list cell) :=
  rbind (attr_series (var a) name) (fun c =>
  at_labels (df_index (var a)) c genes).

(** [(m1 + m2 + ...).flatten()] on layers: an [ndarray] when all are dense,
    a sparse matrix (which has no [flatten]) when all are sparse, and a
    [numpy.matrix], that flattens to one row, when they are mixed. *)
Definition dense_rows (m : matrix) : list vec :=
  match toarray m with Dense rows => rows | Sparse _ _ => [] end.

Definition add_rows (ms : list matrix) : result (list vec) :=
  match ms with
  | [] => Ok []
  | m :: ms' =>
      fold_left (fun acc m' =>
                   rbind acc (fun s => bcast_rows fadd s (dense_rows m')))
                ms' (Ok (dense_rows m))
  end.

Definition add_flatten (ms : list matrix) : result ndarr :=
  if forallb issparse ms then Raise (AttributeError "flatten not found")
  else rbind (add_rows ms) (fun rows =>
       if forallb (fun m => negb (issparse m)) ms
       then Ok (Arr1 (concat rows))
       else Ok (NpMatrix [concat rows])).

Definition flat_col (m : matrix) : result colspec :=
  rmap (fun v => ColCells (map CNum v)) (flatten m).

(** [df.iloc[:, j]] and [df.loc[:, name]]. *)
Definition iloc_col (df : DataFrame) (j : nat) : result (list cell) :=
  match nth_error (df_columns df) j with
  | Some c => Ok (snd c)
  | None => Raise (IndexError "single positional indexer is out-of-bounds")
  end.

Definition loc_col (df : DataFrame) (name : string) : result (list cell) :=
  getitem (df_columns df) name.

(** [df.loc[df.gene == gn, :]] *)
Definition pick_rows {A} (keep : list bool) (l : list A) : list A :=
  map snd (filter fst (combine keep l)).

Definition rows_where (df : DataFrame) (name : string) (v : cell)
  : result DataFrame :=
  rbind (loc_col df name) (fun g =>
  let keep := map (cell_eqb v) g in
  Ok (mkDF (pick_rows keep (df_index df))
           (map (fun c => (fst c, pick_rows keep (snd c))) (df_columns df)))).

(** [pd.concat([a, b], axis=1)] of two frames on integer labels: the rows are
    aligned on the sorted union of the labels, a missing entry being NaN. *)
Definition label_Z (c : cell) : Z :=
  match c with CInt z => z | _ => 0 end.

Fixpoint insert_Z (z : Z) (l : list Z) : list Z :=
  match l with
  | [] => [z]
  | y :: l' =>
      if z <? y then z :: l
      else if z =? y then l
      else y :: insert_Z z l'
  end.

Definition union_index (a b : list cell) : list cell :=
  map CInt (fold_right insert_Z [] (map label_Z (a ++ b))).

Definition reindex (index new_index col : list cell) : list cell :=
  map (fun l =>
         match find (fun ic => cell_eqb (fst ic) l) (combine index col) with
         | Some ic => snd ic
         | None => CNum NaN
         end)
      new_index.

Definition concat_axis1 (a b : DataFrame) : DataFrame :=
  let idx := union_index (df_index a) (df_index b) in
  mkDF idx
       (map (fun c => (fst c, reindex (df_index a) idx (snd c))) (df_columns a)
        ++ map (fun c => (fst c, reindex (df_index b) idx (snd c))) (df_columns b)).

Definition nums (l : list cell) : vec := map num_of_cell l.

(** [if series.unique() != np.nan:] - the comparison is true of every single
    value, an empty array is false, and a longer one has no truth value. *)
Definition differs_from_nan (u : list cell) : result bool :=
  match u with
  | [] => Ok false
  | [_] => Ok true
  | _ => Raise (ValueError "The truth value of an array with more than one element is ambiguous")
  end.

(** [if series.unique() == np.nan:] - false of every single value. *)
Definition equals_nan (u : list cell) : result bool :=
  match u with
  | [] => Ok false
  | [_] => Ok false
  | _ => Raise (ValueError "The truth value of an array with more than one element is ambiguous")
  end.

(** preprocess.py lines 346-347 and scatters.py lines 387-388:
    [xnew = np.linspace(0, cur_pd.iloc[:, j].max())] and
    [xnew * cur_pd.loc[:, gamma].unique() + cur_pd.loc[:, offset].unique()]. *)
Definition fit_line (cur_pd : DataFrame) (j : nat) (gamma offset : string)
  : result (vec * vec) :=
  rbind (iloc_col cur_pd j) (fun xcol =>
  let xnew := linspace0 (nanmax (nums xcol)) in
  rbind (loc_col cur_pd gamma) (fun g =>
  rbind (loc_col cur_pd offset) (fun o =>
  rbind (bcast_row fmul xnew (nums (unique g))) (fun t =>
  rbind (bcast_row fadd t (nums (unique o))) (fun ynew =>
  Ok (xnew, ynew)))))).

(** [np.max(cur_pd.iloc[:, j]) * 1.02] *)
Definition axis_limit (cur_pd : DataFrame) (j : nat) : result fnum :=
  rbind (iloc_col cur_pd j) (fun c =>
  Ok (fmul (nanmax (nums c)) (Fin (Q2Qc (51 # 50))))).

(** ** phase_portraits (preprocess.py, lines 185-407) *)

Definition mode_msg : string :=
  "mode can be only one of the labelling, splicing or full".

Definition gamma_msg : string :=
  "adata does not seem to have velocity_gamma column. Velocity estimation is required before "
  ++ "running this function.".

Definition corrupted_msg' : string :=
  "Your adata is corrupted. Make sure that your layer has keys new, old for the labelling mode, "
  ++ "spliced, ambiguous, unspliced for the splicing model and uu, ul, su, sl for the full mode".

(** [adata[:, genes].layers[k]] *)
Definition gene_layer (a : AnnData) (idx : list nat) (k : string)
  : result matrix :=
  rmap (take_columns idx) (getitem (layers a) k).

(** Lines 252-261 (and scatters.py 210-219, which differ in the last word of
    the message).  [adata[:, genes].layer] is no attribute of an AnnData. *)
Definition velocity_matrices (a : AnnData) (idx : list nat) (vkey part : string)
  : result (matrix * option matrix) :=
  if String.eqb vkey "U" then
    rbind (gene_layer a idx "velocity_U") (fun V_vec =>
    if str_in "velocity_P" (keys (obsm a))
    then Raise (AttributeError "'AnnData' object has no attribute 'layer'")
    else Ok (V_vec, None))
  else if String.eqb vkey "S" then
    rbind (gene_layer a idx "velocity_S") (fun V_vec =>
    if str_in "velocity_P" (keys (obsm a))
    then rmap (fun P_vec => (V_vec, Some P_vec)) (gene_layer a idx "velocity_P")
    else Ok (V_vec, None))
  else Raise (Exception ("adata has no vkey " ++ vkey
                         ++ " in either the layers or the obsm " ++ part)).

(** Lines 263-264: [if issparse(E_vec): E_vec, V_vec = E_vec.A, V_vec.A] *)
Definition densify_pair (E_vec : option matrix) (V_vec : matrix)
  : result (matrix * matrix) :=
  rbind (bound "E_vec" E_vec) (fun E =>
  if issparse E
  then rbind (dotA E) (fun E' => rbind (dotA V_vec) (fun V' => Ok (E', V')))
  else Ok (E, V_vec)).

(** The frame of a mode with two layers (lines 275-280, 283-288). *)
Definition frame_two (a : AnnData) (idx : list nat) (genes : list string)
  (n_cells : nat) (k0 k1 c0 c1 : string) (gamma velocity_offset : list cell)
  (E_vec V_vec : matrix) (color_vec : list cell) : result DataFrame :=
  let n_genes := length genes in
  rbind (gene_layer a idx k0) (fun m0 =>
  rbind (gene_layer a idx k1) (fun m1 =>
  rbind (if issparse m0
         then rbind (dotA m0) (fun d0 => rbind (dotA m1) (fun d1 => Ok (d0, d1)))
         else Ok (m0, m1)) (fun m01 =>
  rbind (flat_col (fst m01)) (fun col0 =>
  rbind (flat_col (snd m01)) (fun col1 =>
  rbind (flat_col E_vec) (fun expression =>
  rbind (flat_col V_vec) (fun velocity =>
  DataFrame_of_columns
    [(c0, col0); (c1, col1);
     ("gene", ColCells (map CStr (tile genes n_cells)));
     ("gamma", ColCells (tile gamma n_cells));
     ("velocity_offset", ColCells (tile velocity_offset n_cells));
     ("expression", expression); ("velocity", velocity);
     ("color", ColCells (repeat_each color_vec n_genes))]
    (range_index (n_cells * n_genes))))))))).

(** The frame of the full mode (lines 291-318; scatters.py 249-276).  The
    probe [['X_protein'] in adata.obsm.keys()] asks for a list, which is no
    key: the protein matrix is always [obsm['protein']]. *)
Definition frame_full (a : AnnData) (idx : list nat) (genes : list string)
  (n_cells : nat) (eta gamma_P_name offset_P_name : string)
  (gamma velocity_offset : list cell)
  (E_vec V_vec : matrix) (P_vec : option matrix) (color_vec : list cell)
  : result DataFrame :=
  let n_genes := length genes in
  rbind (gene_layer a idx "X_uu") (fun uu =>
  rbind (gene_layer a idx "X_ul") (fun ul =>
  rbind (gene_layer a idx "X_su") (fun su =>
  rbind (gene_layer a idx "X_sl") (fun sl =>
  if str_in "protein" (keys (obsm a)) then
    rbind (if str_in eta (keys (df_columns (var a))) then
             rbind (var_values a gamma_P_name genes) (fun gamma_P =>
             rbind (if negb (str_in offset_P_name (keys (df_columns (var a))))
                    then Ok (repeat (CInt 0) n_cells)
                    else var_values a offset_P_name genes) (fun velocity_offset_P =>
             Ok (gamma_P, velocity_offset_P)))
           else Raise (Exception gamma_msg)) (fun gP =>
    rbind (getitem (obsm a) "protein") (fun P =>
    rbind (if issparse uu
           then rbind (rmapM dotA [uu; ul; su; sl; P]) (fun l =>
                match l with
                | [uu'; ul'; su'; sl'; P'] => Ok (uu', ul', su', sl', P')
                | _ => Ok (uu, ul, su, sl, P)
                end)
           else Ok (uu, ul, su, sl, P)) (fun '(uu, ul, su, sl, P) =>
    rbind (bound "P_vec" P_vec) (fun P_vec =>
    rbind (if issparse P_vec then dotA P_vec else Ok P_vec) (fun P_vec =>
    rbind (add_flatten [ul; sl]) (fun new =>
    rbind (add_flatten [uu; ul; sl; su]) (fun total =>
    rbind (add_flatten [sl; su]) (fun S =>
    rbind (flat_col P) (fun Pcol =>
    rbind (flat_col E_vec) (fun expression =>
    rbind (flat_col V_vec) (fun velocity =>
    rbind (flat_col P_vec) (fun velocity_protein =>
    DataFrame_of_columns
      [("new", ColArr new); ("total", ColArr total); ("S", ColArr S);
       ("P", Pcol);
       ("gene", ColCells (map CStr (tile genes n_cells)));
       ("gamma", ColCells (tile gamma n_cells));
       ("velocity_offset", ColCells (tile velocity_offset n_cells));
       ("gamma_P", ColCells (tile (fst gP) n_cells));
       ("velocity_offset_P", ColCells (tile (snd gP) n_cells));
       ("expression", expression); ("velocity", velocity);
       ("velocity_protein", velocity_protein);
       ("color", ColCells (repeat_each color_vec n_genes))]
      (range_index (n_cells * n_genes))))))))))))))
  else
    rbind (add_flatten [ul; sl]) (fun new =>
    rbind (add_flatten [uu; ul; sl; su]) (fun total =>
    rbind (flat_col E_vec) (fun expression =>
    rbind (flat_col V_vec) (fun velocity =>
    DataFrame_of_columns
      [("new", ColArr new); ("total", ColArr total);
       ("gene", ColCells (map CStr (tile genes n_cells)));
       ("gamma", ColCells (tile gamma n_cells));
       ("velocity_offset", ColCells (tile velocity_offset n_cells));
       ("expression", expression); ("velocity", velocity);
       ("color", ColCells (repeat_each color_vec n_genes))]
      (range_index (n_cells * n_genes)))))))))).

(** The genes of the call that [adata.var] knows, with their positions
    (line 223). *)
Definition known_genes (a : AnnData) (genes : list string) : list string :=
  map label_string (filter (is_named genes) (df_index (var a))).

Definition known_positions (a : AnnData) (genes : list string) : list nat :=
  positions (is_named genes) (df_index (var a)).

(** Lines 224-231. *)
Definition genes_and_embedding (a : AnnData) (genes : list string)
  (basis : string) (x y : Z) : result DataFrame :=
  if Nat.eqb (length (known_genes a genes)) 0
  then Raise (Exception "adata has no genes listed in your input gene vector: []")
  else if negb (str_in ("X_" ++ basis) (keys (obsm a)))
  then Raise (Exception (basis ++ " is not applied to adata."))
  else rbind (getitem (obsm a) ("X_" ++ basis)) (fun m => embedding_frame m x y).

(** Lines 266-272: the slope and the offset of every gene. *)
Definition kinetic_parameters (a : AnnData) (genes : list string)
  (gamma_name offset_name : string) (msg : string)
  : result (list cell * list cell) :=
  if str_in gamma_name (keys (df_columns (var a))) then
    rbind (var_values a gamma_name genes) (fun gamma =>
    rbind (if negb (str_in offset_name (keys (df_columns (var a))))
           then Ok (repeat (CInt 0) (length genes))
           else var_values a offset_name genes) (fun velocity_offset =>
    Ok (gamma, velocity_offset)))
  else Raise (Exception msg).

(** Lines 274-321. *)
Definition phase_frame (a : AnnData) (idx : list nat) (genes : list string)
  (n_cells : nat) (mode : string) (gamma velocity_offset : list cell)
  (E_vec V_vec : matrix) (P_vec : option matrix) (color_vec : list cell)
  : result DataFrame :=
  if String.eqb mode "labelling" && all_in ["new"; "total"] (keys (layers a))
  then frame_two a idx genes n_cells "new" "total" "new" "total"
                 gamma velocity_offset E_vec V_vec color_vec
  else if String.eqb mode "splicing"
          && all_in ["spliced"; "unspliced"] (keys (layers a))
  then frame_two a idx genes n_cells "X_unspliced" "X_spliced"
                 "unspliced" "spliced"
                 gamma velocity_offset E_vec V_vec color_vec
  else if String.eqb mode "full"
          && all_in ["uu"; "ul"; "su"; "sl"] (keys (layers a))
  then frame_full a idx genes n_cells "velocity_parameter_eta"
                  "velocity_parameter_eta" "velocity_offset_P"
                  gamma velocity_offset E_vec V_vec P_vec color_vec
  else Raise (Exception corrupted_msg').

(** The body of the loop over the genes (lines 330-404), gene number [i]
    named [gn]. *)
Definition phase_panels (a : AnnData) (df embedding : DataFrame)
  (mode vkey ekey basis : string) (color : option (list string))
  (n_columns : nat) (i : nat) (gn : string) : M unit :=
  let ax1 := (i * 3)%nat in
  let ax2 := (i * 3 + 1)%nat in
  let ax3 := (i * 3 + 2)%nat in
  for_each (map (fun k => (i * 3 + k)%nat) (seq 0 n_columns))
           (fun ax => emit (Subplot ax)) ;;
  cur_pd <- lift (rows_where df "gene" (CStr gn)) ;;
  xs <- lift (iloc_col cur_pd 1) ;;
  ys <- lift (iloc_col cur_pd 0) ;;
  colours <- lift (loc_col cur_pd "color") ;;
  coloured <- lift (differs_from_nan (unique colours)) ;;
  (if (coloured : bool)
   then emit (ScatterPlot PhasePanel ax1 xs ys (HueName "expression") "viridis")
   else emit (ScatterPlot PhasePanel ax1 xs ys (HueNames color) "Set2")) ;;
  emit (Title ax1 gn) ;;
  line <- lift (fit_line cur_pd 1 "gamma" "velocity_offset") ;;
  emit (LinePlot ax1 (fst line) (snd line)) ;;
  emit (Title ax1 gn) ;;
  xmax <- lift (axis_limit cur_pd 1) ;;
  emit (XLim ax1 fzero xmax) ;;
  ymax <- lift (axis_limit cur_pd 0) ;;
  emit (YLim ax1 fzero ymax) ;;
  emit (Despline ax1) ;;
  let df_embedding := concat_axis1 cur_pd embedding in
  V_vec <- lift (loc_col df_embedding "velocity") ;;
  let V_vec := normalize_velocity (nums V_vec) in
  dim_1 <- lift (iloc_col embedding 0) ;;
  dim_2 <- lift (iloc_col embedding 1) ;;
  expression <- lift (loc_col df_embedding "expression") ;;
  emit (ScatterPlot ExpressionPanel ax2 dim_1 dim_2 (HueValues expression) "RdBu_r") ;;
  emit (Title ax2 (gn ++ "(" ++ ekey ++ ")")) ;;
  emit (AxisLabels ax2 (basis ++ "_1") (basis ++ "_2")) ;;
  emit (ScatterPlot VelocityPanel ax3 dim_1 dim_2 (HueValues (map CNum V_vec)) "Greens") ;;
  emit (Title ax3 (gn ++ "(" ++ vkey ++ ")")) ;;
  emit (AxisLabels ax3 (basis ++ "_1") (basis ++ "_2")) ;;
  if str_in "protein" (keys (obsm a)) && String.eqb mode "full"
     && all_in ["uu"; "ul"; "su"; "sl"] (keys (layers a))
  then (* line 375 passes [hue=group], a name bound nowhere; lines 376-404
          are not reached *)
       xs4 <- lift (iloc_col cur_pd 3) ;;
       ys4 <- lift (iloc_col cur_pd 2) ;;
       raise (NameError "group")
  else ret tt.

Definition phase_portraits (genes_arg : list string) (x y : Z)
  (mode vkey ekey basis : string) (color : option (list string)) : M unit :=
  a <- get_adata ;;
  let idx := known_positions a genes_arg in
  let genes := known_genes a genes_arg in
  embedding <- lift (genes_and_embedding a genes_arg basis x y) ;;
  (if negb (str_in mode valid_modes)
   then raise (Exception mode_msg) else ret tt) ;;
  E_vec <- lift (expression_matrix a idx ekey) ;;
  let n_cells := length (df_index (obs a)) in
  let n_genes := length genes in
  let color_vec :=
    match color with
    | None => repeat (CNum NaN) n_cells
    | Some c => map CStr (filter (fun k => str_in k c) (keys (df_columns (obs a))))
    end in
  VP <- lift (velocity_matrices a idx vkey "slot") ;;
  EV <- lift (densify_pair E_vec (fst VP)) ;;
  gv <- lift (kinetic_parameters a genes "velocity_parameter_gamma"
                                 "velocity_offset" gamma_msg) ;;
  df <- lift (phase_frame a idx genes n_cells mode (fst gv) (snd gv)
                          (fst EV) (snd EV) (snd VP) color_vec) ;;
  let n_columns :=
    if str_in "protein" (keys (obsm a)) && String.eqb mode "full"
    then 6%nat else 3%nat in
  let nrow := Z.of_nat ((n_columns * n_genes + 5) / 6) in
  let ncol := 6 in
  emit (Figure (fofZ (ncol * 6)) (fofZ (nrow * 6))) ;;
  for_each (combine (seq 0 n_genes) genes)
           (fun ig => phase_panels a df embedding mode vkey ekey basis color
                                   n_columns (fst ig) (snd ig)) ;;
  emit TightLayout ;;
  emit PltShow.

(** ** scatters (scatters.py, lines 76-470) *)

(** [int(s)] in base 10, on the strings that reach it here. *)
Definition is_digit (c : ascii) : bool :=
  let n := nat_of_ascii c in (48 <=? n)%nat && (n <=? 57)%nat.

Definition py_int (s : string) : result Z :=
  let cs := list_ascii_of_string s in
  if negb (Nat.eqb (length cs) 0) && forallb is_digit cs
  then Ok (fold_left (fun acc c => acc * 10 + Z.of_nat (nat_of_ascii c - 48)) cs 0)
  else Raise (ValueError ("invalid literal for int() with base 10: '" ++ s ++ "'")).

(** Lines 76-91. *)
Definition _select_font_color (background : string) : result string :=
  if String.eqb background "black" then Ok "white"
  else if prefix "#" background then
    rbind (rmapM (fun c => py_int ("0x" ++ c))
                 [substring 1 2 background; substring 3 2 background;
                  substring 5 2 background]) (fun vals =>
    (* np.mean(vals) > 126 *)
    if 126 * Z.of_nat (length vals) <? fold_right Z.add 0 vals
    then Ok "black" else Ok "white")
  else Ok "black".

(** An entry of the table [_themes] of [dynamo/configuration.py]. *)
Record theme_entry : Type := mkTheme {
  cmap : string;
  color_key_cmap : string;
  background : string
}.

(** ['velocity_' not in velocity_key] *)
Definition contains (sub s : string) : bool :=
  match index 0 sub s with Some _ => true | None => false end.

(** [int(np.ceil(a / b))] for integers [a], [b]. *)
Definition ceil_div (a b : Z) : result Z :=
  if b =? 0 then Raise (ZeroDivisionError "division by zero")
  else Ok (- ((- a) / b)).

Definition scatters_mode_msg : string :=
  "your data should be in one of the proper mode: labelling (has X_new/X_total layers), splicing "
  ++ "(has X_spliced/X_unspliced layers) or full (has X_uu/X_ul/X_su/X_sl layers)".

Definition scatters_gamma_msg : string :=
  "adata does not seem to have gamma column. Velocity estimation is required before "
  ++ "running this function.".

(** Lines 172-180. *)
Definition layers_mode (a : AnnData) : result string :=
  if all_in ["X_new"; "X_total"] (keys (layers a)) then Ok "labeling"
  else if all_in ["X_spliced"; "X_unspliced"] (keys (layers a)) then Ok "splicing"
  else if all_in ["X_uu"; "X_ul"; "X_su"; "X_sl"] (keys (layers a)) then Ok "full"
  else Raise (Exception scatters_mode_msg).

(** What lines 192-202 leave in [color], [n_genes], [color_vec] and
    [full_color_vec].  The set [set(color) & obs.keys()] is listed in the
    order of [adata.obs]. *)
Record colouring : Type := mkColouring {
  col_color : option (list string);
  col_n_genes : nat;
  col_color_vec : list cell;
  col_full_color_vec : option (list cell)
}.

Definition colour_setup (a : AnnData) (genes : list string) (type : string)
  (color : option (list string)) : result colouring :=
  let n_cells := length (df_index (obs a)) in
  let n_genes := length genes in
  match color with
  | None => Ok (mkColouring None n_genes (repeat (CNum NaN) n_cells) None)
  | Some c =>
      let color := filter (fun k => str_in k c) (keys (df_columns (obs a))) in
      match color with
      | [] => Raise (IndexError "list index out of range")
      | c0 :: _ =>
          rbind (getitem (df_columns (obs a)) c0) (fun color_vec =>
          if negb (String.eqb type "embedding")
          then Ok (mkColouring (Some color) n_genes color_vec None)
          else
            rbind (rmapM (getitem (df_columns (obs a))) color) (fun cols =>
            let full :=
              flat_map (fun i => map (fun col => nth i col (CNum NaN)) cols)
                       (seq 0 n_cells) in
            Ok (mkColouring (Some color) (length color) color_vec (Some full))))
      end
  end.

(** Lines 232-279: [mode] is one of ['labeling'], ['splicing'], ['full']. *)
Definition scatters_frame (a : AnnData) (idx : list nat) (genes : list string)
  (n_cells : nat) (mode : string) (gamma velocity_offset : list cell)
  (E_vec V_vec : matrix) (P_vec : option matrix) (color_vec : list cell)
  : result DataFrame :=
  if String.eqb mode "labelling"
  then frame_two a idx genes n_cells "X_new" "X_total" "new" "total"
                 gamma velocity_offset E_vec V_vec color_vec
  else if String.eqb mode "splicing"
  then frame_two a idx genes n_cells "X_unspliced" "X_spliced"
                 "unspliced" "spliced"
                 gamma velocity_offset E_vec V_vec color_vec
  else if String.eqb mode "full"
  then frame_full a idx genes n_cells "eta" "delta" "delta_b"
                  gamma velocity_offset E_vec V_vec P_vec color_vec
  else Raise (Exception corrupted_msg').

(** Line 207-208: the frame of the embedding plots. *)
Definition embedding_plot_frame (embedding : DataFrame) (basis : string)
  (n_cells : nat) (c : colouring) : result DataFrame :=
  let n_genes := col_n_genes c in
  rbind (iloc_col embedding 0) (fun e0 =>
  rbind (iloc_col embedding 1) (fun e1 =>
  rbind (bound "full_color_vec" (col_full_color_vec c)) (fun full_color_vec =>
  let color := match col_color c with Some l => l | None => [] end in
  DataFrame_of_columns
    [(basis ++ "_0", ColCells (repeat_each e0 n_genes));
     (basis ++ "_1", ColCells (repeat_each e1 n_genes));
     ("color", ColCells full_color_vec);
     ("group", ColCells (map CStr (tile color n_cells)))]
    (repeat_each (df_index embedding) n_genes)))).

(** [len(color)] *)
Definition len_color (color : option (list string)) : result nat :=
  match color with
  | Some l => Ok (length l)
  | None => Raise (TypeError "object of type 'NoneType' has no len()")
  end.

Section Scatters.

(** The table [_themes], imported from [dynamo/configuration.py]. *)
Variable _themes : list (string * theme_entry).

(** Lines 281-315: the names [cmap], [color_key_cmap] and [background] are
    bound only when [type] is not ['embedding']; the tests of the other
    branch are then all false. *)
Definition theme_setup (type : string) (theme : option string)
  : result (option theme_entry) :=
  if negb (String.eqb type "embedding") then
    let theme := match theme with None => "blue" | Some t => t end in
    rmap Some (getitem _themes theme)
  else Ok None.

(** The body of the loop of lines 330-355, for colour number [i].  The
    right-hand side of line 336 reads [unique_labels] before anything was
    assigned to it; lines 337-355 are not reached. *)
Definition embedding_panels (df : DataFrame) (i : nat) (clr : string)
  : M unit :=
  emit (Subplot i) ;;
  cur_pd <- lift (rows_where df "group" (CStr clr)) ;;
  labels <- lift (loc_col cur_pd "color") ;;
  raise (UnboundLocalError "unique_labels").

(** The body of the loop of lines 368-466, for gene number [i] named [gn]. *)
Definition gene_panels (a : AnnData) (df embedding : DataFrame)
  (type mode ekey basis cmap : string) (vkey : option string)
  (color : option (list string))
  (plot_per_gene : nat) (i : nat) (gn : string) : M unit :=
  let ax1 := if Nat.eqb plot_per_gene 2 then (i * 2)%nat else i in
  let ax2 := (i * 2 + 1)%nat in
  emit (Subplot ax1) ;;
  (if Nat.eqb plot_per_gene 2 then emit (Subplot ax2) else ret tt) ;;
  cur_pd <- lift (rows_where df "gene" (CStr gn)) ;;
  let protein_full :=
    str_in "protein" (keys (obsm a)) && String.eqb mode "full"
    && all_in ["uu"; "ul"; "su"; "sl"] (keys (layers a)) in
  if String.eqb type "phase" then
    colours <- lift (loc_col cur_pd "color") ;;
    plain <- lift (equals_nan (unique colours)) ;;
    xs <- lift (iloc_col cur_pd 1) ;;
    ys <- lift (iloc_col cur_pd 0) ;;
    (if (plain : bool) then
       expression <- lift (loc_col cur_pd "expression") ;;
       emit (ScatterPlot PhasePanel ax1 xs ys (HueValues expression) cmap) ;;
       emit (Legend ax1)
     else
       emit (ScatterPlot PhasePanel ax1 xs ys (HueValues colours) cmap) ;;
       lift (len_color color) ;;
       emit (Legend ax1)) ;;
    emit (Title ax1 gn) ;;
    line <- lift (fit_line cur_pd 1 "gamma" "velocity_offset") ;;
    emit (LinePlot ax1 (fst line) (snd line)) ;;
    xmax <- lift (axis_limit cur_pd 1) ;;
    emit (XLim ax1 fzero xmax) ;;
    ymax <- lift (axis_limit cur_pd 0) ;;
    emit (YLim ax1 fzero ymax) ;;
    emit (Despline ax1) ;;
    if Nat.eqb plot_per_gene 2 && protein_full then
      xs2 <- lift (iloc_col cur_pd 3) ;;
      ys2 <- lift (iloc_col cur_pd 2) ;;
      emit (ScatterPlot ProteinPhasePanel ax2 xs2 ys2 (HueValues colours) "") ;;
      lift (len_color color) ;;
      emit (Legend ax2) ;;
      emit (Title ax2 gn) ;;
      line2 <- lift (fit_line cur_pd 3 "gamma_P" "velocity_offset_P") ;;
      emit (LinePlot ax2 (fst line2) (snd line2)) ;;
      ymax2 <- lift (axis_limit cur_pd 3) ;;
      emit (YLim ax2 fzero ymax2) ;;
      xmax2 <- lift (axis_limit cur_pd 2) ;;
      emit (XLim ax2 fzero xmax2) ;;
      emit (Despline ax2)
    else ret tt
  else if String.eqb type "velocity" then
    let df_embedding := concat_axis1 cur_pd embedding in
    V_vec <- lift (loc_col df_embedding "velocity") ;;
    let V_vec := normalize_velocity (nums V_vec) in
    dim_1 <- lift (iloc_col embedding 0) ;;
    dim_2 <- lift (iloc_col embedding 1) ;;
    emit (ScatterPlot VelocityPanel ax1 dim_1 dim_2 (HueValues (map CNum V_vec)) cmap) ;;
    lift (len_color color) ;;
    emit (Legend ax1) ;;
    emit (Title ax1 (gn ++ "(" ++ ekey ++ ")")) ;;
    emit (AxisLabels ax1 (basis ++ "_1") (basis ++ "_2")) ;;
    if Nat.eqb plot_per_gene 2 then
      V_vec <- lift (loc_col df_embedding "velocity_offset_P") ;;
      let V_vec := normalize_velocity (nums V_vec) in
      emit (ScatterPlot ProteinVelocityPanel ax2 dim_1 dim_2
                        (HueValues (map CNum V_vec)) cmap) ;;
      lift (len_color color) ;;
      emit (Legend ax2) ;;
      emit (Title ax2 (gn ++ "(" ++ ekey ++ ")")) ;;
      emit (AxisLabels ax2 (basis ++ "_1") (basis ++ "_2"))
    else ret tt
  else if String.eqb type "expression" then
    (* line 445 reads [df_embedding], which only the velocity branch binds *)
    df_embedding <- lift (bound "df_embedding" (@None DataFrame)) ;;
    e <- lift (loc_col df_embedding "expression") ;;
    let expression := normalize_expression (nums e) in
    dim_1 <- lift (iloc_col embedding 0) ;;
    dim_2 <- lift (iloc_col embedding 1) ;;
    emit (ScatterPlot ExpressionPanel ax1 dim_1 dim_2
                      (HueValues (map CNum expression)) cmap) ;;
    lift (len_color color) ;;
    emit (Legend ax1) ;;
    vkey <- lift (bound "vkey" vkey) ;;
    emit (Title ax1 (gn ++ "(" ++ vkey ++ ")")) ;;
    emit (AxisLabels ax1 (basis ++ "_1") (basis ++ "_2")) ;;
    if protein_full then
      (* line 455 stacks [embedding] on the column P; the frame that results
         has no column [expression] for line 458 *)
      lift (loc_col cur_pd "P") ;;
      raise (KeyError "expression")
    else ret tt
  else ret tt.

(** Lines 204-279: the frame [df].  [vkey] is assigned only when
    [velocity_key] does not hold ['velocity_'] already. *)
Definition scatters_df (a : AnnData) (idx : list nat) (genes : list string)
  (embedding : DataFrame) (type mode ekey basis : string)
  (vkey : option string) (E_vec : option matrix) (c : colouring)
  : result DataFrame :=
  let n_cells := length (df_index (obs a)) in
  if String.eqb type "embedding"
  then embedding_plot_frame embedding basis n_cells c
  else
    rbind (bound "vkey" vkey) (fun vkey =>
    rbind (velocity_matrices a idx vkey "attribute") (fun VP =>
    rbind (densify_pair E_vec (fst VP)) (fun EV =>
    rbind (kinetic_parameters a genes "gamma" "gamma_b" scatters_gamma_msg)
          (fun gv =>
    scatters_frame a idx genes n_cells mode (fst gv) (snd gv)
                   (fst EV) (snd EV) (snd VP) (col_color_vec c))))).

Definition figure_size (figsize : option (fnum * fnum)) (ncol nrow : Z)
  : fnum * fnum :=
  match figsize with
  | None => (fofZ (3 * ncol), fofZ (3 * nrow))
  | Some wh => (fmul (fst wh) (fofZ ncol), fmul (snd wh) (fofZ nrow))
  end.

Definition scatters (genes_arg : list string) (x y : Z) (theme : option string)
  (type velocity_key ekey basis : string) (n_columns : Z)
  (color : option (list string)) (figsize : option (fnum * fnum))
  (legend : string) : M unit :=
  a <- get_adata ;;
  let idx := known_positions a genes_arg in
  let genes := known_genes a genes_arg in
  embedding <- lift (genes_and_embedding a genes_arg basis x y) ;;
  mode <- lift (layers_mode a) ;;
  E_vec <- lift (expression_matrix a idx ekey) ;;
  c <- lift (colour_setup a genes type color) ;;
  let color := col_color c in
  let n_genes := col_n_genes c in
  let vkey :=
    if negb (contains "velocity_" velocity_key)
    then Some ("velocity_" ++ velocity_key) else None in
  df <- lift (scatters_df a idx genes embedding type mode ekey basis vkey E_vec c) ;;
  th <- lift (theme_setup type theme) ;;
  background_ <- lift (bound "background" (option_map background th)) ;;
  font_color <- lift (_select_font_color background_) ;;
  cmap_ <- lift (bound "cmap" (option_map cmap th)) ;;
  (if String.eqb type "embedding" then
     len <- lift (len_color color) ;;
     nrow <- lift (ceil_div (Z.of_nat len) n_columns) ;;
     let ncol := n_columns in
     let wh := figure_size figsize ncol nrow in
     emit (Figure (fst wh) (snd wh)) ;;
     for_each (combine (seq 0 len) (match color with Some l => l | None => [] end))
              (fun ic => embedding_panels df (fst ic) (snd ic))
   else
     let protein := str_in "protein" (keys (obsm a)) && String.eqb mode "full" in
     let n_columns := if protein then 2 * n_columns else n_columns in
     let plot_per_gene := if protein then 2%nat else 1%nat in
     nrow <- lift (ceil_div (Z.of_nat (plot_per_gene * n_genes)) n_columns) ;;
     let ncol := n_columns in
     let wh := figure_size figsize ncol nrow in
     emit (Figure (fst wh) (snd wh)) ;;
     for_each (combine (seq 0 (length genes)) genes)
              (fun ig => gene_panels a df embedding type mode ekey basis cmap_
                                     vkey color plot_per_gene (fst ig) (snd ig))) ;;
  emit TightLayout ;;
  emit PltShow.

End Scatters.

(** ** variance_explained (preprocess.py, lines 107-134) *)

Fixpoint cumsum_from (acc : fnum) (v : vec) : vec :=
  match v with
  | [] => []
  | x :: v' => fadd acc x :: cumsum_from (fadd acc x) v'
  end.

(** [np.cumsum(v)] *)
Definition cumsum (v : vec) : vec :=
  match v with
  | [] => []
  | x :: v' => x :: cumsum_from x v'
  end.

(** [np.diff(v)] on numbers and on booleans. *)
Fixpoint diff (v : vec) : vec :=
  match v with
  | x :: ((y :: _) as v') => fsub y x :: diff v'
  | _ => []
  end.

Fixpoint diff_bool (v : list bool) : list bool :=
  match v with
  | x :: ((y :: _) as v') => xorb y x :: diff_bool v'
  | _ => []
  end.

Definition variance_explained (threshold : fnum) (n_pcs : option Z) : M unit :=
  a <- get_adata ;;
  u <- lift (getitem (uns a) "explained_variance_ratio_") ;;
  var_ <- (match u with
           | UVec v => ret v
           | UDict _ => raise (TypeError "unsupported operand type(s) for +: 'dict' and 'dict'")
           end) ;;
  let c := cumsum var_ in
  emit (LinePlot 0 (map (fun k => fofZ (Z.of_nat k)) (seq 0 (length c))) c) ;;
  let tmp := diff_bool (map (fun d => fltb threshold d) (diff c)) in
  let n_comps :=
    match n_pcs with
    | Some n => n
    | None =>
        match positions (fun b : bool => b) tmp with
        | k :: _ => Z.of_nat k
        | [] => 20
        end
    end in
  emit (AxVLine n_comps) ;;
  emit (SetLabels "PCs" "Cumulative variance") ;;
  emit PltShow.

(** ** feature_genes (preprocess.py, lines 137-182) *)

(** [np.min] of a series. *)
Definition fmin2 (x y : fnum) : fnum := if fleb x y then x else y.

Definition nanmin (v : vec) : fnum :=
  match filter (fun x => negb (is_nan x)) v with
  | [] => NaN
  | x :: xs => fold_left fmin2 xs x
  end.

Definition cell_true (c : cell) : bool :=
  match c with CBool b => b | _ => false end.

Section FeatureGenes.

(** [topTable] of [dynamo/preprocessing/preprocess.py], called with the
    AnnData object and the layer. *)
Variable topTable : string -> M DataFrame.

Definition feature_genes (layer : string) : M unit :=
  disp_table <- topTable layer ;;
  a <- get_adata ;;
  let ordering_genes := lookup "use_for_dynamo" (df_columns (var a)) in
  let layer_keys := (keys (layers a) ++ ["X"])%list in
  (* set(layer_keys).intersection(layer) meets the keys with the characters
     of [layer]; listed here in the order of the keys *)
  let chars := map (fun c => String c EmptyString) (list_ascii_of_string layer) in
  layer <- (match filter (fun k => str_in k chars) layer_keys with
            | l :: _ => ret l
            | [] => raise (IndexError "list index out of range")
            end) ;;
  let key := if str_in layer ["raw"; "X"] then "dispFitInfo"
             else layer ++ "_dispFitInfo" in
  mean_expression <- lift (getitem (df_columns disp_table) "mean_expression") ;;
  let mu_linspace :=
    linspace (nanmin (nums mean_expression)) (nanmax (nums mean_expression)) 1000 in
  info <- lift (getitem (uns a) "dispFitInfo") ;;
  disp_func <- (match info with
                | UDict d => lift (getitem d "disp_func")
                | UVec _ => raise (IndexError "only integers, slices (`:`), ellipsis (`...`), numpy.newaxis (`None`) and integer or boolean arrays are valid indices")
                end) ;;
  disp_fit <- (match disp_func with
               | UFunc f => ret (f mu_linspace)
               | UArr _ => raise (TypeError "'numpy.ndarray' object is not callable")
               end) ;;
  emit (LinePlot 0 mu_linspace disp_fit) ;;
  valid_ind <-
    (match ordering_genes with
     | Some og =>
         gene_id <- lift (attr_series disp_table "gene_id") ;;
         let chosen := pick_rows (map cell_true og) (df_index (var a)) in
         ret (map (fun g => existsb (cell_eqb g) chosen) gene_id)
     | None => ret (repeat true (length (df_index disp_table)))
     end) ;;
  let scatter_rows (keep : list bool) (colour : string) : M unit :=
    let t := mkDF (pick_rows keep (df_index disp_table))
                  (map (fun c => (fst c, pick_rows keep (snd c)))
                       (df_columns disp_table)) in
    xs <- lift (getitem (df_columns t) "mean_expression") ;;
    ys <- lift (getitem (df_columns t) "dispersion_empirical") ;;
    emit (PltScatter xs ys colour) in
  scatter_rows valid_ind "tab:red" ;;
  scatter_rows (map negb valid_ind) "tab:blue" ;;
  emit (AxisScale "log" "log") ;;
  emit (SetLabels "Mean" "Dispersion") ;;
  emit PltShow.

End FeatureGenes.

(** ** Properties of runs *)

(** What a run of [m] from [w] returns, draws and leaves of the AnnData. *)
Definition outcome {A} (m : M A) (w : World) : result A := fst (m w).
Definition drawn {A} (m : M A) (w : World) : list event := figure (snd (m w)).
Definition adata_after {A} (m : M A) (w : World) : AnnData := adata (snd (m w)).

(** [m] leaves the AnnData object as it found it and only adds to the figure
    events that satisfy [P], whether it returns or raises. *)
Definition emits {A} (P : event -> Prop) (m : M A) : Prop :=
  forall w,
    adata_after m w = adata w
    /\ exists evs, drawn m w = (figure w ++ evs)%list /\ Forall P evs.

(** A number of the closed interval from 0 to 1, or NaN. *)
Definition in_unit_interval (x : fnum) : Prop :=
  x = NaN \/ (fleb fzero x = true /\ fleb x fone = true).

(** The colours of a velocity panel lie in the unit interval. *)
Definition velocity_colours_ok (e : event) : Prop :=
  match e with
  | ScatterPlot VelocityPanel _ _ _ hue _
  | ScatterPlot ProteinVelocityPanel _ _ _ hue _ =>
      exists V_vec, hue = HueValues (map CNum (normalize_velocity V_vec))
  | _ => True
  end.

(** A line drawn over a panel is a fit through the rows of one gene. *)
Definition line_is_fit (e : event) : Prop :=
  match e with
  | LinePlot _ xs ys =>
      exists cur_pd j gamma offset,
        fit_line cur_pd j gamma offset = Ok (xs, ys)
  | _ => True
  end.

(** The layers a mode of [show_fraction] asks for. *)
Definition required_layers (mode : string) : list string :=
  if String.eqb mode "labelling" then ["new"; "total"]
  else if String.eqb mode "splicing" then ["spliced"; "unspliced"]
  else ["uu"; "ul"; "su"; "sl"].

(** A sparse matrix whose stored entries all lie inside its columns. *)
Definition sparse_wf (m : matrix) : Prop :=
  match m with
  | Sparse n rows => Forall (Forall (fun e => (fst e < n)%nat)) rows
  | Dense _ => False
  end.

(** The same AnnData with every layer stored dense. *)
Definition with_layers (a : AnnData) (l : list (string * matrix)) : AnnData :=
  mkAnnData (X a) (obs a) (var a) (obsm a) l (uns a).

Definition densified (a : AnnData) : AnnData :=
  with_layers a (map (fun kv => (fst kv, toarray (snd kv))) (layers a)).

(** Both conditions on an event. *)
Definition panel_ok (e : event) : Prop :=
  velocity_colours_ok e /\ line_is_fit e.

(** The world [w] with other layers in its AnnData. *)
Definition world_with_layers (w : World) (l : list (string * matrix)) : World :=
  mkWorld (with_layers (adata w) l) (figure w).

(** ** Example data *)

Definition num (n : Z) : fnum := fofZ n.

(** Two cells, two genes. *)
Definition ex_obs : DataFrame :=
  mkDF [CStr "cell1"; CStr "cell2"] [("cluster", [CStr "a"; CStr "b"])].

Definition ex_var : DataFrame :=
  mkDF [CStr "g1"; CStr "g2"]
       [("velocity_parameter_gamma", [CNum (num 2); CNum (num 3)]);
        ("gamma", [CNum (num 2); CNum (num 3)])].

Definition ex_dense_a : matrix := Dense [[num 1; num 2]; [num 0; num 3]].
Definition ex_dense_b : matrix := Dense [[num 1; num 1]; [num 4; num 0]].
Definition ex_dense_v : matrix := Dense [[num (-1); num 1]; [num 4; num 0]].

Definition ex_sparse_a : matrix :=
  Sparse 2 [[(0%nat, num 1); (1%nat, num 2)]; [(1%nat, num 3)]].
Definition ex_sparse_b : matrix :=
  Sparse 2 [[(0%nat, num 1); (1%nat, num 1)]; [(0%nat, num 4)]].

Definition ex_adata (l : list (string * matrix)) : AnnData :=
  mkAnnData ex_dense_a ex_obs ex_var [("X_umap", ex_dense_b)] l [].

Definition ex_world (l : list (string * matrix)) : World :=
  mkWorld (ex_adata l) [].

Definition ex_layers_dense : list (string * matrix) :=
  [("new", ex_dense_a); ("total", ex_dense_b);
   ("spliced", ex_dense_a); ("unspliced", ex_dense_b);
   ("X_spliced", ex_dense_a); ("X_unspliced", ex_dense_b);
   ("velocity_S", ex_dense_v)].

Definition ex_layers_sparse : list (string * matrix) :=
  [("new", ex_sparse_a); ("total", ex_sparse_b);
   ("spliced", ex_sparse_a); ("unspliced", ex_sparse_b)].

Definition ex_layers_full : list (string * matrix) :=
  [("uu", ex_sparse_a); ("ul", ex_sparse_b);
   ("su", ex_sparse_a); ("sl", ex_sparse_b)].

Definition ex_topTable (layer : string) : M DataFrame :=
  ret (mkDF [CInt 0; CInt 1]
            [("gene_id", [CStr "g1"; CStr "g2"]);
             ("mean_expression", [CNum (num 1); CNum (num 2)]);
             ("dispersion_empirical", [CNum (num 3); CNum (num 4)])]).

Definition ex_themes : list (string * theme_entry) :=
  [("fire", mkTheme "fire" "rainbow" "black");
   ("blue", mkTheme "Blues" "tab20" "white")].

(** The exceptions of the per-cell sums of [show_fraction]. *)
Definition unpack2_error : exn :=
  ValueError "too many values to unpack (expected 2)".

Definition unpack4_error : exn :=
  ValueError "too many values to unpack (expected 4)".

Definition A1_error : exn :=
  AttributeError "'numpy.ndarray' object has no attribute 'A1'".

(** Every layer is sparse, with its entries inside its columns. *)
Definition all_sparse (a : AnnData) : Prop :=
  Forall (fun kv => sparse_wf (snd kv)) (layers a).

Definition densified_world (w : World) : World :=
  mkWorld (densified (adata w)) (figure w).

(** The exception of lines 218-219 of scatters.py for a velocity key. *)
Definition no_vkey_error (velocity_key : string) : exn :=
  Exception ("adata has no vkey velocity_" ++ velocity_key
             ++ " in either the layers or the obsm attribute").

(** A frame whose rows list the genes cell after cell, with the slope and
    the offset of each gene beside it, as preprocess.py lines 278-280 and
    scatters.py lines 236-238 build it. *)
Definition gene_frame (df : DataFrame) (genes : list string)
  (gamma offset : list cell) (n_cells : nat) : Prop :=
  lookup "gene" (df_columns df) = Some (map CStr (tile genes n_cells))
  /\ lookup "gamma" (df_columns df) = Some (tile gamma n_cells)
  /\ lookup "velocity_offset" (df_columns df) = Some (tile offset n_cells).

(** The normalisation of a velocity vector, entry by entry. *)
Definition normalized_entry (limit v : fnum) : fnum :=
  clip fzero fone (fdiv (fadd v limit) (fmul ftwo limit)).


(** ** The fractions of splicing mode, stated on their own *)

(** The per-cell sums of a layer. *)
Definition cell_sums (m : matrix) : vec :=
  match m with
  | Dense rows => map vsum rows
  | Sparse _ rows => map (fun r => vsum (map snd r)) rows
  end.

(** Each category's share of the per-cell total, the ambiguous layer being
    counted when it is there. *)
Definition splicing_fractions (un sp : matrix) (am : option matrix)
  : list (string * vec) :=
  let u := cell_sums un in
  let s := cell_sums sp in
  match am with
  | Some a =>
      let t := vadd (vadd u s) (cell_sums a) in
      [("unspliced", vdiv u t); ("spliced", vdiv s t);
       ("ambiguous", vdiv (cell_sums a) t)]
  | None =>
      let t := vadd u s in
      [("unspliced", vdiv u t); ("spliced", vdiv s t)]
  end.

Definition splicing_totals (un sp : matrix) (am : option matrix) : vec :=
  match am with
  | Some a => vadd (vadd (cell_sums un) (cell_sums sp)) (cell_sums a)
  | None => vadd (cell_sums un) (cell_sums sp)
  end.


(** The frame of the fractions and its long form. *)
Definition fractions_frame (index : list cell) (fr : list (string * vec))
  : DataFrame :=
  mkDF index (map (fun c => (fst c, map CNum (snd c))) fr).

(** The layers of a splicing data set are stored alike and have one row per
    cell. *)
Definition splicing_layers (a : AnnData) (un sp : matrix) (am : option matrix)
  : Prop :=
  lookup "unspliced" (layers a) = Some un
  /\ lookup "spliced" (layers a) = Some sp
  /\ lookup "ambiguous" (layers a) = am
  /\ issparse sp = issparse un
  /\ nrows un = length (df_index (obs a))
  /\ nrows sp = length (df_index (obs a))
  /\ match am with
     | Some m => issparse m = issparse un
                 /\ nrows m = length (df_index (obs a))
     | None => True
     end.

From Stdlib Require Import Permutation Lqa.

(** ** More example data *)

(** An AnnData with a protein velocity in [obsm]. *)
Definition ex_adata_protein_velocity : AnnData :=
  mkAnnData ex_dense_a ex_obs ex_var
            [("X_umap", ex_dense_b); ("velocity_P", ex_dense_v)]
            [("velocity_U", ex_dense_v)] [].

(** The frame of the embedding of the example data. *)
Definition ex_embedding : DataFrame :=
  mkDF [CInt 0; CInt 1]
       [("dim_1", [CNum (num 1); CNum (num 4)]);
        ("dim_2", [CNum (num 1); CNum (num 0)])].

(** Layers that pass the check of splicing mode, without the normalised
    layers the mode reads. *)
Definition ex_layers_raw : list (string * matrix) :=
  [("spliced", ex_dense_a); ("unspliced", ex_dense_b);
   ("velocity_S", ex_dense_v)].

(** [m] raises, from whatever world it starts. *)
Definition raises {A} (m : M A) : Prop :=
  forall w, exists e, outcome m w = Raise e.

(** An AnnData in full mode with a protein matrix. *)
Definition ex_adata_protein : AnnData :=
  mkAnnData ex_dense_a ex_obs ex_var
            [("X_umap", ex_dense_b); ("protein", ex_dense_a)]
            [("uu", ex_dense_a); ("ul", ex_dense_b);
             ("su", ex_dense_a); ("sl", ex_dense_b);
             ("X_uu", ex_dense_a); ("X_ul", ex_dense_b);
             ("X_su", ex_dense_a); ("X_sl", ex_dense_b);
             ("velocity_S", ex_dense_v)] [].

(** ** Words for the properties of variance_explained *)






(** ** Words and examples for feature_genes *)

(** The single characters of a string, as [set.intersection] sees it. *)
Definition chars_of (s : string) : list string :=
  map (fun c => String c EmptyString) (list_ascii_of_string s).





(** ** Examples for the velocity colours *)

Definition ex_velocities : vec := [num (-4); num 0; num 2; num 4].

(** ** Examples for show_fraction *)

Definition ex_layers_mixed : list (string * matrix) :=
  [("spliced", ex_dense_a); ("unspliced", ex_sparse_b)].

(** The layers that splicing mode adds up. *)
Definition splicing_matrices (un sp : matrix) (am : option matrix) : list matrix :=
  un :: sp :: match am with Some a => [a] | None => [] end.

(** ** The datashader helpers of scatters.py (lines 52-73) *)

(** A [numba.vectorize]d function on a two-dimensional array. *)
Definition vectorize (f : Z -> Z) (img : list (list Z)) : list (list Z) :=
  map (map f) img.

Fixpoint zipWith3 {A B C D} (f : A -> B -> C -> D)
  (xs : list A) (ys : list B) (zs : list C) : list D :=
  match xs, ys, zs with
  | x :: xs', y :: ys', z :: zs' => f x y z :: zipWith3 f xs' ys' zs'
  | _, _, _ => []
  end.

(** [np.dstack([a, b, c])] of three arrays of one shape: the entries are
    stacked along a third axis. *)
Definition dstack (a b c : list (list Z)) : list (list (list Z)) :=
  zipWith3 (zipWith3 (fun x y z => [x; y; z])) a b c.

(** [_embed_datashader_in_an_axis]: the array handed to [ax.imshow], from
    the pixels [datashader_image.data]. *)
Definition _embed_datashader_in_an_axis (data : list (list Z))
  : list (list (list Z)) :=
  let img_rev := rev data in
  dstack (vectorize _blue img_rev) (vectorize _green img_rev)
         (vectorize _red img_rev).

(** The 24-bit colour that three stacked bytes stand for, read in the order
    in which [_embed_datashader_in_an_axis] stacks them. *)
Definition pixel_of_bytes (p : list Z) : Z :=
  match p with
  | [b; g; r] => r * 65536 + g * 256 + b
  | _ => 0
  end.

(** A two-dimensional [ndarray] with its number of columns. *)
Record ndarray2 : Type := mkArray2 {
  arr_ncols : nat;
  arr_rows : list vec
}.

(** [points[:, j]] *)
Definition column (points : ndarray2) (j : nat) : result vec :=
  if (j <? arr_ncols points)%nat
  then Ok (map (fun r => nth j r NaN) (arr_rows points))
  else Raise (IndexError "index is out of bounds for axis 1").

(** [np.min] and [np.max] of an array: a NaN wins, and an empty array has
    no minimum. *)
Definition fmin_np (x y : fnum) : fnum :=
  if is_nan x || is_nan y then NaN else if fleb x y then x else y.

Definition fmax_np (x y : fnum) : fnum :=
  if is_nan x || is_nan y then NaN else if fleb x y then y else x.

Definition np_min (v : vec) : result fnum :=
  match v with
  | [] => Raise (ValueError "zero-size array to reduction operation minimum which has no identity")
  | x :: xs => Ok (fold_left fmin_np xs x)
  end.

Definition np_max (v : vec) : result fnum :=
  match v with
  | [] => Raise (ValueError "zero-size array to reduction operation maximum which has no identity")
  | x :: xs => Ok (fold_left fmax_np xs x)
  end.

(** [np.round]: to the nearest integer, a tie to the even one. *)
Definition round_half_even (q : Q) : Z :=
  let f := Qfloor q in
  match (q - inject_Z f ?= 1 # 2)%Q with
  | Lt => f
  | Eq => if Z.even f then f else f + 1
  | Gt => f + 1
  end.

Definition np_round (x : fnum) : fnum :=
  match x with
  | Fin q => fofZ (round_half_even q)
  | _ => x
  end.

(** [_get_extent], lines 59-73. *)
Definition _get_extent (points : ndarray2)
  : result (fnum * fnum * fnum * fnum) :=
  rbind (column points 0) (fun c => rbind (np_min c) (fun min_x =>
  rbind (column points 0) (fun c => rbind (np_max c) (fun max_x =>
  rbind (column points 1) (fun c => rbind (np_min c) (fun min_y =>
  rbind (column points 1) (fun c => rbind (np_max c) (fun max_y =>
  let pad := Fin (Q2Qc (5 # 100)) in
  Ok (np_round (fsub min_x (fmul pad (fsub max_x min_x))),
      np_round (fadd max_x (fmul pad (fsub max_x min_x))),
      np_round (fsub min_y (fmul pad (fsub max_y min_y))),
      np_round (fadd max_y (fmul pad (fsub max_y min_y)))))))))))).

(** The rows of [points] begin with the finite coordinates [pts]. *)
Definition points_at (points : ndarray2) (pts : list (Qc * Qc)) : Prop :=
  (2 <= arr_ncols points)%nat
  /\ Forall2 (fun r ab => nth_error r 0 = Some (Fin (fst ab))
                          /\ nth_error r 1 = Some (Fin (snd ab)))
             (arr_rows points) pts.

Definition ex_points : ndarray2 :=
  mkArray2 2 [[Fin (Q2Qc (6 # 10)); num 0];
              [Fin (Q2Qc (7 # 10)); num 10]].

Definition ex_image : list (list Z) :=
  [[0x12345678; 0xFF0000FF]; [0x00FF00; 1]].

(** * Theorems *)

(** ** The pixel channels *)

Lemma red_div_mod (x : Z) : _red x = (x / 65536) mod 256.
Proof.
  unfold _red, to_uint8.
  change 0xFF0000 with (Z.shiftl (Z.ones 8) 16).
  rewrite Z.shiftr_land, Z.shiftr_shiftl_l by lia.
  simpl (16 - 16). rewrite Z.shiftl_0_r, Z.land_ones, Z.shiftr_div_pow2 by lia.
  change (2 ^ 16) with 65536. change (2 ^ 8) with 256.
  rewrite Z.mod_mod by lia. reflexivity.
Qed.

Lemma green_div_mod (x : Z) : _green x = (x / 256) mod 256.
Proof.
  unfold _green, to_uint8.
  change 0x00FF00 with (Z.shiftl (Z.ones 8) 8).
  rewrite Z.shiftr_land, Z.shiftr_shiftl_l by lia.
  simpl (8 - 8). rewrite Z.shiftl_0_r, Z.land_ones, Z.shiftr_div_pow2 by lia.
  change (2 ^ 8) with 256.
  rewrite Z.mod_mod by lia. reflexivity.
Qed.

Lemma blue_mod (x : Z) : _blue x = x mod 256.
Proof.
  unfold _blue, to_uint8.
  change 0x0000FF with (Z.ones 8).
  rewrite Z.land_ones by lia. change (2 ^ 8) with 256.
  rewrite Z.mod_mod by lia. reflexivity.
Qed.

(** C10: the three channels of a 32-bit pixel put its low 24 bits back
    together, and each channel is a byte. *)
Theorem channels_recompose (x : Z) (H : uint32 x) :
  _red x * 65536 + _green x * 256 + _blue x = Z.land x 0xFFFFFF
  /\ 0 <= _red x <= 255 /\ 0 <= _green x <= 255 /\ 0 <= _blue x <= 255.
Proof.
  rewrite red_div_mod, green_div_mod, blue_mod.
  change 0xFFFFFF with (Z.ones 24). rewrite Z.land_ones by lia.
  change (2 ^ 24) with 16777216.
  pose proof (Z.mod_pos_bound (x / 65536) 256).
  pose proof (Z.mod_pos_bound (x / 256) 256).
  pose proof (Z.mod_pos_bound x 256).
  repeat split; try lia.
  Z.div_mod_to_equations. lia.
Qed.

Lemma channels_recompose_witness :
  uint32 0x12345678
  /\ (_red 0x12345678 * 65536 + _green 0x12345678 * 256 + _blue 0x12345678
      = Z.land 0x12345678 0xFFFFFF
      /\ 0 <= _red 0x12345678 <= 255 /\ 0 <= _green 0x12345678 <= 255
      /\ 0 <= _blue 0x12345678 <= 255).
Proof.
  assert (H : uint32 0x12345678) by (unfold uint32; lia).
  split; [exact H | exact (channels_recompose 0x12345678 H)].
Defined.

(** ** Runs that only draw *)

Section Emits.

Context (P : event -> Prop).

Lemma emits_ret {A} (a : A) : emits P (ret a).
Proof.
  intro w. split; [reflexivity|]. exists []. split; [|constructor].
  unfold drawn, ret; simpl. now rewrite app_nil_r.
Qed.

Lemma emits_raise {A} (e : exn) : emits P (@raise A e).
Proof.
  intro w. split; [reflexivity|]. exists []. split; [|constructor].
  unfold drawn, raise; simpl. now rewrite app_nil_r.
Qed.

Lemma emits_lift {A} (r : result A) : emits P (lift r).
Proof.
  intro w. split; [reflexivity|]. exists []. split; [|constructor].
  unfold drawn, lift; simpl. now rewrite app_nil_r.
Qed.

Lemma emits_get_adata : emits P get_adata.
Proof.
  intro w. split; [reflexivity|]. exists []. split; [|constructor].
  unfold drawn, get_adata; simpl. now rewrite app_nil_r.
Qed.

Lemma emits_emit (e : event) : P e -> emits P (emit e).
Proof.
  intros He w. split; [reflexivity|]. exists [e]. split; [reflexivity|].
  now constructor.
Qed.

Lemma emits_bind {A B} (m : M A) (k : A -> M B) :
  emits P m -> (forall a, emits P (k a)) -> emits P (bind m k).
Proof.
  intros Hm Hk w. destruct (Hm w) as [Ha [evs [Hf Hp]]].
  unfold adata_after, drawn, bind in *.
  destruct (m w) as [[a|e] w'] eqn:E; simpl in *.
  - destruct (Hk a w') as [Ha' [evs' [Hf' Hp']]].
    unfold adata_after, drawn in *. split; [congruence|].
    exists (evs ++ evs')%list. split.
    + rewrite Hf', Hf. now rewrite app_assoc.
    + now apply Forall_app.
  - split; [assumption|]. now exists evs.
Qed.

Lemma emits_bind_lift {A B} (r : result A) (k : A -> M B) :
  (forall a, r = Ok a -> emits P (k a)) -> emits P (bind (lift r) k).
Proof.
  intros Hk. destruct r as [a|e].
  - intro w. destruct (Hk a eq_refl w) as [Ha H]. split; assumption.
  - intro w. split; [reflexivity|]. exists []. split; [|constructor].
    unfold drawn, bind, lift. simpl. now rewrite app_nil_r.
Qed.

Lemma emits_for_each {A} (l : list A) (body : A -> M unit) :
  (forall x, emits P (body x)) -> emits P (for_each l body).
Proof.
  intro Hb. induction l as [|x l IH]; simpl.
  - apply emits_ret.
  - apply emits_bind; [apply Hb | intros _; exact IH].
Qed.

End Emits.

Lemma emits_weaken {A} (P Q : event -> Prop) (m : M A) :
  (forall e, P e -> Q e) -> emits P m -> emits Q m.
Proof.
  intros HPQ Hm w. destruct (Hm w) as [Ha [evs [Hf Hp]]].
  split; [assumption|]. exists evs. split; [assumption|].
  eapply Forall_impl; eauto.
Qed.

(** One step through a program of [M]. *)
Ltac emits_step :=
  lazymatch goal with
  | |- emits _ (bind (lift _) _) => apply emits_bind_lift; intros ? ?
  | |- emits _ (bind _ _) => apply emits_bind; [ | intros ? ]
  | |- emits _ (ret _) => apply emits_ret
  | |- emits _ (raise _) => apply emits_raise
  | |- emits _ (lift _) => apply emits_lift
  | |- emits _ get_adata => apply emits_get_adata
  | |- emits _ (emit _) => apply emits_emit
  | |- emits _ (for_each _ _) => apply emits_for_each; intros ?
  | |- emits _ (if ?b then _ else _) => destruct b
  | |- emits _ (match ?x with _ => _ end) => destruct x
  | |- emits _ (let _ := _ in _) => cbv zeta
  end.

Ltac emits_run := repeat emits_step.

(** ** What the plotting functions draw *)

Ltac panel_solve :=
  first [ split; exact I
        | split; [exact I | simpl; do 4 eexists;
                            rewrite <- surjective_pairing; eassumption]
        | split; [simpl; eexists; reflexivity | exact I] ].

Lemma show_fraction_emits mode group : emits (fun _ => True) (show_fraction mode group).
Proof.
  unfold show_fraction, fractions_labelling, fractions_splicing, fractions_full.
  emits_run; exact I.
Qed.

Lemma variance_explained_emits threshold n_pcs :
  emits (fun _ => True) (variance_explained threshold n_pcs).
Proof.
  unfold variance_explained. emits_run; exact I.
Qed.

Lemma phase_panels_emits a df embedding mode vkey ekey basis color n i gn :
  emits panel_ok (phase_panels a df embedding mode vkey ekey basis color n i gn).
Proof.
  unfold phase_panels. emits_run; panel_solve.
Qed.

Lemma phase_portraits_emits genes x y mode vkey ekey basis color :
  emits panel_ok (phase_portraits genes x y mode vkey ekey basis color).
Proof.
  unfold phase_portraits. emits_run; try panel_solve.
  apply phase_panels_emits.
Qed.

Lemma gene_panels_emits a df embedding type mode ekey basis cm vkey color n i gn :
  emits panel_ok (gene_panels a df embedding type mode ekey basis cm vkey color n i gn).
Proof.
  unfold gene_panels. emits_run; panel_solve.
Qed.

Lemma scatters_emits themes genes x y theme type velocity_key ekey basis
      n_columns color figsize legend :
  emits panel_ok (scatters themes genes x y theme type velocity_key ekey basis
                           n_columns color figsize legend).
Proof.
  unfold scatters, embedding_panels. emits_run; try panel_solve.
  apply gene_panels_emits.
Qed.

(** ** The AnnData object is only read *)

Lemma emits_reads_only {A} (P : event -> Prop) (m : M A) :
  emits P m -> forall w, adata_after m w = adata w.
Proof. intros H w. exact (proj1 (H w)). Qed.

Lemma reads_only_bind {A B} (m : M A) (k : A -> M B) :
  (forall w, adata_after m w = adata w) ->
  (forall a w, adata_after (k a) w = adata w) ->
  forall w, adata_after (bind m k) w = adata w.
Proof.
  intros Hm Hk w. specialize (Hm w). unfold adata_after, bind in *.
  destruct (m w) as [[a|e] w']; simpl in *.
  - rewrite <- Hm. apply Hk.
  - assumption.
Qed.

(** C9: no plotting function changes the AnnData object it is given,
    whether it returns or raises; [topTable], which [feature_genes] calls
    and whose code is elsewhere, is taken to read it only. *)
Theorem adata_is_only_read
  (topTable : string -> M DataFrame)
  (Htop : forall layer w, adata_after (topTable layer) w = adata w)
  (w : World) :
  (forall mode group, adata_after (show_fraction mode group) w = adata w)
  /\ (forall threshold n_pcs,
        adata_after (variance_explained threshold n_pcs) w = adata w)
  /\ (forall layer, adata_after (feature_genes topTable layer) w = adata w)
  /\ (forall genes x y mode vkey ekey basis color,
        adata_after (phase_portraits genes x y mode vkey ekey basis color) w
        = adata w)
  /\ (forall themes genes x y theme type velocity_key ekey basis n_columns
             color figsize legend,
        adata_after (scatters themes genes x y theme type velocity_key ekey
                              basis n_columns color figsize legend) w
        = adata w).
Proof.
  repeat split; intros.
  - eapply emits_reads_only, show_fraction_emits.
  - eapply emits_reads_only, variance_explained_emits.
  - unfold feature_genes. apply reads_only_bind; [apply Htop|].
    intros disp_table w'.
    apply emits_reads_only with (P := fun _ => True).
    emits_run; exact I.
  - eapply emits_reads_only, phase_portraits_emits.
  - eapply emits_reads_only, scatters_emits.
Qed.

Lemma adata_is_only_read_witness :
  (forall layer w, adata_after (ex_topTable layer) w = adata w)
  /\ ((forall mode group,
         adata_after (show_fraction mode group) (ex_world ex_layers_dense)
         = adata (ex_world ex_layers_dense))
      /\ (forall threshold n_pcs,
            adata_after (variance_explained threshold n_pcs) (ex_world ex_layers_dense)
            = adata (ex_world ex_layers_dense))
      /\ (forall layer,
            adata_after (feature_genes ex_topTable layer) (ex_world ex_layers_dense)
            = adata (ex_world ex_layers_dense))
      /\ (forall genes x y mode vkey ekey basis color,
            adata_after (phase_portraits genes x y mode vkey ekey basis color)
                        (ex_world ex_layers_dense)
            = adata (ex_world ex_layers_dense))
      /\ (forall themes genes x y theme type velocity_key ekey basis n_columns
                 color figsize legend,
            adata_after (scatters themes genes x y theme type velocity_key ekey
                                  basis n_columns color figsize legend)
                        (ex_world ex_layers_dense)
            = adata (ex_world ex_layers_dense))).
Proof.
  assert (H : forall layer w, adata_after (ex_topTable layer) w = adata w)
    by reflexivity.
  split; [exact H | exact (adata_is_only_read ex_topTable H (ex_world ex_layers_dense))].
Defined.

(** ** show_fraction: the checks on the mode and on the layers *)

Lemma str_in_In (s : string) (l : list string) : str_in s l = true <-> In s l.
Proof.
  unfold str_in. rewrite existsb_exists. split.
  - intros [x [Hin Heq]]. apply String.eqb_eq in Heq. now subst.
  - intro Hin. exists s. split; [assumption | apply String.eqb_refl].
Qed.

Lemma str_in_false (s : string) (l : list string) :
  ~ In s l -> str_in s l = false.
Proof.
  intro H. destruct (str_in s l) eqn:E; [|reflexivity].
  apply str_in_In in E. contradiction.
Qed.

(** C5: with a known mode whose layers are not all there, [show_fraction]
    raises the exception that starts with "Your adata is corrupted." and
    draws nothing. *)
Theorem show_fraction_corrupted (mode : string) (group : option string)
  (w : World)
  (Hmode : In mode valid_modes)
  (Hmiss : all_in (required_layers mode) (keys (layers (adata w))) = false) :
  outcome (show_fraction mode group) w = Raise (Exception corrupted_msg)
  /\ prefix "Your adata is corrupted." corrupted_msg = true
  /\ drawn (show_fraction mode group) w = (figure w ++ [SetStyle "ticks"])%list.
Proof.
  assert (Hp : prefix "Your adata is corrupted." corrupted_msg = true)
    by reflexivity.
  unfold valid_modes in Hmode. simpl in Hmode.
  destruct Hmode as [<-|[<-|[<-|[]]]];
    unfold required_layers in Hmiss; cbn -[all_in] in Hmiss;
    unfold outcome, drawn, show_fraction, bind, get_adata, emit, ret, raise;
    cbn -[all_in corrupted_msg]; rewrite Hmiss; cbn -[corrupted_msg];
    repeat split; try reflexivity; exact Hp.
Qed.

Lemma show_fraction_corrupted_witness :
  In "splicing" valid_modes
  /\ all_in (required_layers "splicing")
            (keys (layers (adata (ex_world ex_layers_full)))) = false
  /\ (outcome (show_fraction "splicing" None) (ex_world ex_layers_full)
      = Raise (Exception corrupted_msg)
      /\ prefix "Your adata is corrupted." corrupted_msg = true
      /\ drawn (show_fraction "splicing" None) (ex_world ex_layers_full)
         = (figure (ex_world ex_layers_full) ++ [SetStyle "ticks"])%list).
Proof.
  assert (H1 : In "splicing" valid_modes) by (simpl; tauto).
  assert (H2 : all_in (required_layers "splicing")
                 (keys (layers (adata (ex_world ex_layers_full)))) = false)
    by reflexivity.
  split; [exact H1 | split; [exact H2 |
    exact (show_fraction_corrupted "splicing" None (ex_world ex_layers_full) H1 H2)]].
Defined.

(** The mode is checked first in [show_fraction]. *)
Lemma show_fraction_invalid_mode (mode : string) (group : option string)
  (w : World) :
  ~ In mode valid_modes ->
  outcome (show_fraction mode group) w = Raise (Exception mode_msg)
  /\ drawn (show_fraction mode group) w = (figure w ++ [SetStyle "ticks"])%list.
Proof.
  intro H. apply str_in_false in H.
  unfold outcome, drawn, show_fraction, bind, get_adata, emit, ret, raise.
  cbn -[str_in valid_modes]. rewrite H. split; reflexivity.
Qed.

(** In [phase_portraits] the genes and the embedding come first. *)
Lemma phase_portraits_invalid_mode (mode : string) (w : World)
  genes x y vkey ekey basis color emb :
  ~ In mode valid_modes ->
  genes_and_embedding (adata w) genes basis x y = Ok emb ->
  outcome (phase_portraits genes x y mode vkey ekey basis color) w
  = Raise (Exception mode_msg)
  /\ drawn (phase_portraits genes x y mode vkey ekey basis color) w = figure w.
Proof.
  intros H He. apply str_in_false in H.
  unfold outcome, drawn, phase_portraits, bind, get_adata, lift, ret, raise.
  cbn -[str_in valid_modes genes_and_embedding]. rewrite He.
  cbn -[str_in valid_modes]. rewrite H. split; reflexivity.
Qed.

(** C4, as the code has it: a mode outside the three known ones makes
    [show_fraction] raise the mode exception at once, and [phase_portraits]
    once the genes and the embedding of the call were found; whatever the
    layers of the AnnData are, and with nothing drawn. *)
Theorem invalid_mode_raises (mode : string) (w : World)
  (l : list (string * matrix))
  (Hmode : ~ In mode valid_modes) :
  (forall group,
      outcome (show_fraction mode group) (world_with_layers w l)
      = Raise (Exception mode_msg)
      /\ drawn (show_fraction mode group) (world_with_layers w l)
         = (figure w ++ [SetStyle "ticks"])%list)
  /\ (forall genes x y vkey ekey basis color emb,
         genes_and_embedding (adata w) genes basis x y = Ok emb ->
         outcome (phase_portraits genes x y mode vkey ekey basis color)
                 (world_with_layers w l)
         = Raise (Exception mode_msg)
         /\ drawn (phase_portraits genes x y mode vkey ekey basis color)
                  (world_with_layers w l)
            = figure w).
Proof.
  split; intros.
  - apply (show_fraction_invalid_mode mode group (world_with_layers w l) Hmode).
  - apply (phase_portraits_invalid_mode mode (world_with_layers w l)
             genes x y vkey ekey basis color emb Hmode).
    exact H.
Qed.

Lemma invalid_mode_raises_witness :
  ~ In "spliced" valid_modes
  /\ ((forall group,
          outcome (show_fraction "spliced" group)
                  (world_with_layers (ex_world ex_layers_dense) [])
          = Raise (Exception mode_msg)
          /\ drawn (show_fraction "spliced" group)
                   (world_with_layers (ex_world ex_layers_dense) [])
             = (figure (ex_world ex_layers_dense) ++ [SetStyle "ticks"])%list)
      /\ (forall genes x y vkey ekey basis color emb,
             genes_and_embedding (adata (ex_world ex_layers_dense)) genes basis x y
             = Ok emb ->
             outcome (phase_portraits genes x y "spliced" vkey ekey basis color)
                     (world_with_layers (ex_world ex_layers_dense) [])
             = Raise (Exception mode_msg)
             /\ drawn (phase_portraits genes x y "spliced" vkey ekey basis color)
                      (world_with_layers (ex_world ex_layers_dense) [])
                = figure (ex_world ex_layers_dense))).
Proof.
  assert (H : ~ In "spliced" valid_modes).
  { simpl. intros [H|[H|[H|[]]]]; discriminate H. }
  split; [exact H | exact (invalid_mode_raises "spliced" (ex_world ex_layers_dense) [] H)].
Defined.

(** C4 as stated fails: with an unknown mode and no gene of the call in
    [adata.var], [phase_portraits] raises the exception about the genes. *)
Lemma invalid_mode_counterexample :
  ~ In "spliced" valid_modes
  /\ outcome (phase_portraits [] 0 1 "spliced" "S" "X" "umap" None)
             (ex_world ex_layers_dense)
     = Raise (Exception "adata has no genes listed in your input gene vector: []")
  /\ outcome (phase_portraits [] 0 1 "spliced" "S" "X" "umap" None)
             (ex_world ex_layers_dense)
     <> Raise (Exception mode_msg).
Proof.
  split; [|split].
  - simpl. intros [H|[H|[H|[]]]]; discriminate H.
  - reflexivity.
  - vm_compute. discriminate.
Qed.

(** ** show_fraction: the labelling and the full mode *)

Lemma all_in_cons (k : string) (ks d : list string) :
  all_in (k :: ks) d = str_in k d && all_in ks d.
Proof. reflexivity. Qed.

Lemma str_in_keys_lookup {A} (k : string) (d : list (string * A)) :
  str_in k (keys d) = true -> exists v, lookup k d = Some v.
Proof.
  induction d as [|[k' v] d IH]; simpl.
  - discriminate.
  - destruct (String.eqb k k') eqn:E; simpl.
    + intros _. now exists v.
    + exact IH.
Qed.

(** C3, as the code has it: in labelling mode with both layers there,
    [show_fraction] always raises before any fraction is computed and
    before anything is plotted; the exception is the [ValueError] of the
    unpacking when the total layer is sparse, and the [AttributeError] of
    [.A1] when it is a dense array. *)
Theorem show_fraction_labelling_raises (group : option string) (w : World)
  (Hkeys : all_in ["new"; "total"] (keys (layers (adata w))) = true) :
  exists total,
    lookup "total" (layers (adata w)) = Some total
    /\ outcome (show_fraction "labelling" group) w
       = Raise (if issparse total then unpack2_error else A1_error)
    /\ drawn (show_fraction "labelling" group) w
       = (figure w ++ [SetStyle "ticks"])%list.
Proof.
  pose proof Hkeys as Hk.
  rewrite !all_in_cons in Hk. apply andb_prop in Hk as [Hn Ht].
  apply andb_prop in Ht as [Ht _].
  apply str_in_keys_lookup in Hn as [new Hn].
  apply str_in_keys_lookup in Ht as [total Ht].
  exists total. split; [assumption|].
  unfold outcome, drawn, show_fraction, fractions_labelling, bind, get_adata,
    emit, ret, raise, lift, getitem.
  cbn -[all_in lookup sum1]. rewrite Hkeys, Hn, Ht.
  destruct new, total; cbn; split; reflexivity.
Qed.

Lemma show_fraction_labelling_raises_witness :
  all_in ["new"; "total"] (keys (layers (adata (ex_world ex_layers_sparse)))) = true
  /\ exists total,
      lookup "total" (layers (adata (ex_world ex_layers_sparse))) = Some total
      /\ outcome (show_fraction "labelling" None) (ex_world ex_layers_sparse)
         = Raise (if issparse total then unpack2_error else A1_error)
      /\ drawn (show_fraction "labelling" None) (ex_world ex_layers_sparse)
         = (figure (ex_world ex_layers_sparse) ++ [SetStyle "ticks"])%list.
Proof.
  assert (H : all_in ["new"; "total"]
                (keys (layers (adata (ex_world ex_layers_sparse)))) = true)
    by reflexivity.
  split; [exact H |
          exact (show_fraction_labelling_raises None (ex_world ex_layers_sparse) H)].
Defined.

(** C3 as stated fails: with dense layers the exception is no
    [ValueError]. *)
Lemma show_fraction_labelling_counterexample :
  all_in ["new"; "total"] (keys (layers (adata (ex_world ex_layers_dense)))) = true
  /\ outcome (show_fraction "labelling" None) (ex_world ex_layers_dense)
     = Raise A1_error
  /\ forall msg,
      outcome (show_fraction "labelling" None) (ex_world ex_layers_dense)
      <> Raise (ValueError msg).
Proof.
  split; [reflexivity | split; [reflexivity|]].
  intro msg. vm_compute. discriminate.
Qed.

(** In full mode with the four layers there, the per-cell sums raise too. *)
Lemma show_fraction_full_raises (group : option string) (w : World) :
  all_in ["uu"; "ul"; "su"; "sl"] (keys (layers (adata w))) = true ->
  exists e,
    outcome (show_fraction "full" group) w = Raise e
    /\ (e = unpack4_error \/ e = A1_error)
    /\ drawn (show_fraction "full" group) w
       = (figure w ++ [SetStyle "ticks"])%list.
Proof.
  intro Hkeys. pose proof Hkeys as Hk.
  rewrite !all_in_cons in Hk.
  apply andb_prop in Hk as [H1 Hk]. apply andb_prop in Hk as [H2 Hk].
  apply andb_prop in Hk as [H3 Hk]. apply andb_prop in Hk as [H4 _].
  apply str_in_keys_lookup in H1 as [uu H1].
  apply str_in_keys_lookup in H2 as [ul H2].
  apply str_in_keys_lookup in H3 as [su H3].
  apply str_in_keys_lookup in H4 as [sl H4].
  unfold outcome, drawn, show_fraction, fractions_full, bind, get_adata,
    emit, ret, raise, lift, getitem.
  cbn -[all_in lookup sum1]. rewrite Hkeys, H1, H2, H3, H4.
  destruct uu, ul, su, sl; cbn; eexists; (split; [reflexivity|]);
    (split; [|reflexivity]); auto.
Qed.

(** Two runs with all the layers of the mode: labelling and full mode
    raise at the per-cell sums; no fraction is computed and nothing is
    plotted. *)
Lemma show_fraction_no_fractions :
  outcome (show_fraction "labelling" None) (ex_world ex_layers_sparse)
  = Raise unpack2_error
  /\ drawn (show_fraction "labelling" None) (ex_world ex_layers_sparse)
     = [SetStyle "ticks"]
  /\ outcome (show_fraction "full" None) (ex_world ex_layers_full)
     = Raise unpack4_error
  /\ drawn (show_fraction "full" None) (ex_world ex_layers_full)
     = [SetStyle "ticks"].
Proof. repeat split; reflexivity. Qed.

(** ** Arithmetic of the idealised floats *)

Lemma fadd_comm (x y : fnum) : fadd x y = fadd y x.
Proof. destruct x, y; simpl; try reflexivity. f_equal. ring. Qed.

Lemma fadd_assoc (x y z : fnum) : fadd x (fadd y z) = fadd (fadd x y) z.
Proof. destruct x, y, z; simpl; try reflexivity. f_equal. ring. Qed.

Lemma fadd_zero_l (x : fnum) : fadd fzero x = x.
Proof. destruct x; simpl; try reflexivity. f_equal. ring. Qed.

Lemma fadd_zero_r (x : fnum) : fadd x fzero = x.
Proof. rewrite fadd_comm. apply fadd_zero_l. Qed.

Lemma Qc_eqb_eq (a b : Qc) : Qc_eqb a b = true <-> a = b.
Proof.
  unfold Qc_eqb. split.
  - destruct (a ?= b)%Qc eqn:E; try discriminate. intros _.
    now apply Qceq_alt.
  - intros ->. assert (H : (b ?= b)%Qc = Eq) by now apply Qceq_alt.
    now rewrite H.
Qed.

Lemma Qc_eqb_neq (a b : Qc) : a <> b -> Qc_eqb a b = false.
Proof.
  intro H. destruct (Qc_eqb a b) eqn:E; [|reflexivity].
  apply Qc_eqb_eq in E. contradiction.
Qed.

(** ** Sparse and dense per-cell sums *)

Lemma vsum_cons (x : fnum) (v : vec) : vsum (x :: v) = fadd x (vsum v).
Proof. reflexivity. Qed.


(** Adding [v] at one position of a row adds [v] to its sum. *)
Lemma vsum_add_at (c : nat) (v : fnum) (g : nat -> fnum) (n s : nat) :
  (s <= c < s + n)%nat ->
  vsum (map (fun j => if Nat.eqb c j then fadd v (g j) else g j) (seq s n))
  = fadd v (vsum (map g (seq s n))).
Proof.
  revert s. induction n as [|n IH]; intros s H; [lia|].
  rewrite <- !cons_seq, !map_cons, !vsum_cons.
  destruct (Nat.eqb c s) eqn:E.
  - apply Nat.eqb_eq in E. subst s.
    rewrite <- fadd_assoc. f_equal. f_equal. f_equal.
    apply map_ext_in. intros j Hj. apply in_seq in Hj.
    destruct (Nat.eqb c j) eqn:E'; [apply Nat.eqb_eq in E'; lia | reflexivity].
  - apply Nat.eqb_neq in E.
    rewrite IH by lia.
    rewrite !fadd_assoc. f_equal. apply fadd_comm.
Qed.

Lemma vsum_zeros (n s : nat) : vsum (map (fun _ => fzero) (seq s n)) = fzero.
Proof.
  revert s. induction n as [|n IH]; intro s; [reflexivity|].
  rewrite <- cons_seq, map_cons, vsum_cons, IH. apply fadd_zero_l.
Qed.

(** The sum of the dense row is the sum of the stored entries. *)
Lemma vsum_todense_row (n : nat) (r : list (nat * fnum)) :
  Forall (fun e => (fst e < n)%nat) r ->
  vsum (todense_row n r) = vsum (map snd r).
Proof.
  unfold todense_row. induction 1 as [|[c v] r Hc Hr IH].
  - apply vsum_zeros.
  - simpl in Hc. rewrite map_cons, vsum_cons. simpl snd.
    rewrite <- IH.
    rewrite <- (vsum_add_at c v
                  (fun j => vsum (map snd (filter (fun e => Nat.eqb (fst e) j) r)))
                  n 0) by lia.
    f_equal. apply map_ext. intro j. simpl.
    destruct (Nat.eqb c j); reflexivity.
Qed.

Lemma concat_map_singleton {A B} (f : A -> B) (l : list A) :
  concat (map (fun r => [f r]) l) = map f l.
Proof. induction l; simpl; congruence. Qed.

Lemma row_sums_dense (n : nat) (rows : list (list (nat * fnum))) :
  Forall (Forall (fun e => (fst e < n)%nat)) rows ->
  map vsum (map (todense_row n) rows) = map (fun r => vsum (map snd r)) rows.
Proof.
  intro H. rewrite map_map. apply map_ext_in. intros r Hr.
  apply vsum_todense_row. rewrite Forall_forall in H. now apply H.
Qed.

(** [mat.sum(1).A1] on a sparse matrix is [np.sum(mat, 1)] on the dense
    matrix of the same values. *)
Lemma sum1_sparse_dense (m : matrix) :
  sparse_wf m -> A1 (sum1 m) = Ok (sum1 (toarray m)).
Proof.
  destruct m as [rows|n rows]; simpl; [contradiction|].
  intro H. rewrite concat_map_singleton, row_sums_dense by assumption.
  reflexivity.
Qed.

Lemma keys_densified (a : AnnData) :
  keys (layers (densified a)) = keys (layers a).
Proof.
  unfold densified, with_layers, keys. simpl. rewrite map_map. reflexivity.
Qed.

Lemma lookup_densified (a : AnnData) (k : string) :
  lookup k (layers (densified a)) = option_map toarray (lookup k (layers a)).
Proof.
  unfold densified, with_layers. simpl.
  induction (layers a) as [|[k' m] l IH]; simpl; [reflexivity|].
  destruct (String.eqb k k'); [reflexivity | exact IH].
Qed.

Lemma lookup_sparse (a : AnnData) (k : string) (m : matrix) :
  all_sparse a -> lookup k (layers a) = Some m ->
  exists n rows, m = Sparse n rows
                 /\ Forall (Forall (fun e => (fst e < n)%nat)) rows.
Proof.
  unfold all_sparse. induction (layers a) as [|[k' m'] l IH]; simpl.
  - discriminate.
  - intros H. inversion H as [|? ? Hm Hl]; subst. simpl in Hm.
    destruct (String.eqb k k').
    + intros [= <-]. destruct m' as [|n rows]; [contradiction|].
      now exists n, rows.
    + now apply IH.
Qed.

(** The fractions of splicing mode do not depend on the storage. *)
Lemma fractions_splicing_densified (a : AnnData) (group : option string)
  (w1 w2 : World) :
  all_sparse a ->
  all_in ["spliced"; "unspliced"] (keys (layers a)) = true ->
  fst (fractions_splicing (densified a) group w1)
  = fst (fractions_splicing a group w2)
  /\ snd (fractions_splicing (densified a) group w1) = w1
  /\ snd (fractions_splicing a group w2) = w2.
Proof.
  intros Hs Hk. rewrite !all_in_cons in Hk.
  apply andb_prop in Hk as [H1 Hk]. apply andb_prop in Hk as [H2 _].
  apply str_in_keys_lookup in H1 as [ms H1].
  apply str_in_keys_lookup in H2 as [mu H2].
  destruct (lookup_sparse a _ _ Hs H1) as [ns [rs [-> Hrs]]].
  destruct (lookup_sparse a _ _ Hs H2) as [nu [ru [-> Hru]]].
  unfold fractions_splicing, bind, lift, ret, getitem.
  rewrite keys_densified, !lookup_densified, H1, H2.
  destruct (str_in "ambiguous" (keys (layers a))) eqn:Ha.
  - apply str_in_keys_lookup in Ha as [ma Ha].
    destruct (lookup_sparse a _ _ Hs Ha) as [na [ra [-> Hra]]].
    rewrite Ha. cbn -[np_add np_div DataFrame_of melt].
    rewrite !concat_map_singleton, !row_sums_dense by assumption.
    repeat match goal with
           | |- context [match ?r with Ok _ => _ | Raise _ => _ end] =>
               destruct r; cbn -[np_add np_div DataFrame_of melt]
           | |- context [match group with Some _ => _ | None => _ end] =>
               destruct group; cbn -[np_add np_div DataFrame_of melt]
           | |- context [if ?b then _ else _] =>
               destruct b; cbn -[np_add np_div DataFrame_of melt]
           end; repeat split; reflexivity.
  - cbn -[np_add np_div DataFrame_of melt].
    rewrite !concat_map_singleton, !row_sums_dense by assumption.
    repeat match goal with
           | |- context [match ?r with Ok _ => _ | Raise _ => _ end] =>
               destruct r; cbn -[np_add np_div DataFrame_of melt]
           | |- context [match group with Some _ => _ | None => _ end] =>
               destruct group; cbn -[np_add np_div DataFrame_of melt]
           | |- context [if ?b then _ else _] =>
               destruct b; cbn -[np_add np_div DataFrame_of melt]
           end; repeat split; reflexivity.
Qed.

Lemma fractions_labelling_run (a : AnnData) (w : World) :
  exists e, fractions_labelling a w = (Raise e, w).
Proof.
  unfold fractions_labelling, bind, lift, raise, getitem.
  destruct (lookup "new" (layers a)) as [new|]; [|eexists; reflexivity].
  destruct (lookup "total" (layers a)) as [total|]; [|eexists; reflexivity].
  destruct new, total; cbn; eexists; reflexivity.
Qed.

Lemma fractions_full_run (a : AnnData) (w : World) :
  exists e, fractions_full a w = (Raise e, w).
Proof.
  unfold fractions_full, bind, lift, raise, getitem.
  destruct (lookup "uu" (layers a)) as [uu|]; [|eexists; reflexivity].
  destruct (lookup "ul" (layers a)) as [ul|]; [|eexists; reflexivity].
  destruct (lookup "su" (layers a)) as [su|]; [|eexists; reflexivity].
  destruct (lookup "sl" (layers a)) as [sl|]; [|eexists; reflexivity].
  destruct uu, ul, su, sl; cbn; eexists; reflexivity.
Qed.

(** C7: on an AnnData whose layers are all sparse, the per-cell sum of
    every layer is the sum of the dense matrix of the same values, and
    [show_fraction] plots the same on the sparse layers and on their dense
    copies; in splicing mode, where fractions are plotted, the two runs end
    alike as well. *)
Theorem sparse_dense_same_fractions (mode : string) (group : option string)
  (w : World) (Hs : all_sparse (adata w)) :
  (forall k m, lookup k (layers (adata w)) = Some m ->
               A1 (sum1 m) = Ok (sum1 (toarray m)))
  /\ drawn (show_fraction mode group) (densified_world w)
     = drawn (show_fraction mode group) w
  /\ (mode = "splicing" ->
      outcome (show_fraction mode group) (densified_world w)
      = outcome (show_fraction mode group) w).
Proof.
  split.
  { intros k m Hk. apply sum1_sparse_dense.
    destruct (lookup_sparse _ _ _ Hs Hk) as [n [rows [-> H]]]. exact H. }
  destruct w as [a f]. simpl in Hs.
  unfold drawn, outcome, densified_world, show_fraction, bind, get_adata,
    emit, ret, raise.
  cbn [fst snd adata figure]. rewrite keys_densified.
  destruct (negb (str_in mode valid_modes)); [split; reflexivity|].
  destruct (String.eqb mode "labelling"
            && all_in ["new"; "total"] (keys (layers a))) eqn:E0.
  { destruct (fractions_labelling_run (densified a)
                (mkWorld (densified a) (f ++ [SetStyle "ticks"]))) as [e1 ->].
    destruct (fractions_labelling_run a
                (mkWorld a (f ++ [SetStyle "ticks"]))) as [e2 ->].
    split; [reflexivity|]. intros ->. discriminate E0. }
  destruct (String.eqb mode "splicing"
            && all_in ["spliced"; "unspliced"] (keys (layers a))) eqn:E.
  { apply andb_prop in E as [_ E].
    destruct (fractions_splicing_densified a group
                (mkWorld (densified a) (f ++ [SetStyle "ticks"]))
                (mkWorld a (f ++ [SetStyle "ticks"])) Hs E) as [H1 [H2 H3]].
    destruct (fractions_splicing (densified a) group
                (mkWorld (densified a) (f ++ [SetStyle "ticks"])))
      as [r1 w1] eqn:E1.
    destruct (fractions_splicing a group (mkWorld a (f ++ [SetStyle "ticks"])))
      as [r2 w2] eqn:E2.
    simpl in H1, H2, H3. subst r2 w1 w2.
    destruct r1 as [res|e]; [|split; reflexivity].
    destruct group as [g|]; unfold lift; cbn [fst snd adata figure].
    - destruct (getitem (df_columns res) "group"); split; reflexivity.
    - split; reflexivity. }
  destruct (String.eqb mode "full"
            && all_in ["uu"; "ul"; "su"; "sl"] (keys (layers a))) eqn:E'.
  { destruct (fractions_full_run (densified a)
                (mkWorld (densified a) (f ++ [SetStyle "ticks"]))) as [e1 ->].
    destruct (fractions_full_run a
                (mkWorld a (f ++ [SetStyle "ticks"]))) as [e2 ->].
    split; [reflexivity|]. intros ->. discriminate E'. }
  split; reflexivity.
Qed.

Lemma sparse_dense_same_fractions_witness :
  all_sparse (adata (ex_world ex_layers_sparse))
  /\ ((forall k m, lookup k (layers (adata (ex_world ex_layers_sparse))) = Some m ->
                   A1 (sum1 m) = Ok (sum1 (toarray m)))
      /\ drawn (show_fraction "splicing" None)
               (densified_world (ex_world ex_layers_sparse))
         = drawn (show_fraction "splicing" None) (ex_world ex_layers_sparse)
      /\ ("splicing" = "splicing" ->
          outcome (show_fraction "splicing" None)
                  (densified_world (ex_world ex_layers_sparse))
          = outcome (show_fraction "splicing" None) (ex_world ex_layers_sparse))).
Proof.
  assert (H : all_sparse (adata (ex_world ex_layers_sparse))).
  { unfold all_sparse. simpl. repeat constructor; simpl; lia. }
  split; [exact H |
          exact (sparse_dense_same_fractions "splicing" None
                   (ex_world ex_layers_sparse) H)].
Defined.

(** ** scatters: the velocity key *)

(** A key that starts with "velocity_" is neither "U" nor "S". *)
Lemma velocity_matrices_prefixed (a : AnnData) (idx : list nat)
  (velocity_key part : string) :
  velocity_matrices a idx ("velocity_" ++ velocity_key) part
  = Raise (Exception ("adata has no vkey velocity_" ++ velocity_key
                      ++ " in either the layers or the obsm " ++ part)).
Proof. reflexivity. Qed.

(** C2, as the code has it: a call of [scatters] with a type other than
    'embedding' that found its genes, embedding, mode, expression matrix and
    colours raises at the velocity key and draws nothing: the exception
    "adata has no vkey velocity_... " when [velocity_key] does not hold
    "velocity_" (as for 'S' and 'U'), and the error of the unassigned
    [vkey] when it does. *)
Theorem scatters_vkey_raises
  (themes : list (string * theme_entry)) (genes : list string) (x y : Z)
  (theme : option string) (type velocity_key ekey basis : string)
  (n_columns : Z) (color : option (list string))
  (figsize : option (fnum * fnum)) (legend : string) (w : World)
  (emb : DataFrame) (mode : string) (E : option matrix) (c : colouring)
  (Htype : type <> "embedding")
  (Hemb : genes_and_embedding (adata w) genes basis x y = Ok emb)
  (Hmode : layers_mode (adata w) = Ok mode)
  (HE : expression_matrix (adata w) (known_positions (adata w) genes) ekey = Ok E)
  (Hc : colour_setup (adata w) (known_genes (adata w) genes) type color = Ok c) :
  outcome (scatters themes genes x y theme type velocity_key ekey basis
                    n_columns color figsize legend) w
  = Raise (if contains "velocity_" velocity_key
           then UnboundLocalError "vkey"
           else no_vkey_error velocity_key)
  /\ drawn (scatters themes genes x y theme type velocity_key ekey basis
                     n_columns color figsize legend) w
     = figure w.
Proof.
  apply String.eqb_neq in Htype.
  unfold outcome, drawn, scatters, bind, get_adata, lift.
  cbn [fst snd]. rewrite Hemb, Hmode, HE, Hc.
  unfold scatters_df. rewrite Htype.
  destruct (contains "velocity_" velocity_key); cbn [negb bound rbind].
  - split; reflexivity.
  - rewrite velocity_matrices_prefixed. split; reflexivity.
Qed.

Lemma scatters_vkey_raises_witness :
  "velocity" <> "embedding"
  /\ genes_and_embedding (adata (ex_world ex_layers_dense)) ["g1"] "umap" 0 1
     = Ok (mkDF [CInt 0; CInt 1]
                [("dim_1", [CNum (num 1); CNum (num 4)]);
                 ("dim_2", [CNum (num 1); CNum (num 0)])])
  /\ layers_mode (adata (ex_world ex_layers_dense)) = Ok "splicing"
  /\ expression_matrix (adata (ex_world ex_layers_dense))
       (known_positions (adata (ex_world ex_layers_dense)) ["g1"]) "X"
     = Ok (Some (Dense [[num 1]; [num 0]]))
  /\ colour_setup (adata (ex_world ex_layers_dense))
       (known_genes (adata (ex_world ex_layers_dense)) ["g1"]) "velocity" None
     = Ok (mkColouring None 1 [CNum NaN; CNum NaN] None)
  /\ outcome (scatters ex_themes ["g1"] 0 1 (Some "fire") "velocity" "S" "X"
                       "umap" 1 None None "on data")
             (ex_world ex_layers_dense)
     = Raise (if contains "velocity_" "S"
              then UnboundLocalError "vkey"
              else no_vkey_error "S")
  /\ drawn (scatters ex_themes ["g1"] 0 1 (Some "fire") "velocity" "S" "X"
                     "umap" 1 None None "on data")
           (ex_world ex_layers_dense)
     = figure (ex_world ex_layers_dense).
Proof.
  assert (H1 : "velocity" <> "embedding") by discriminate.
  assert (H2 : genes_and_embedding (adata (ex_world ex_layers_dense)) ["g1"] "umap" 0 1
               = Ok (mkDF [CInt 0; CInt 1]
                          [("dim_1", [CNum (num 1); CNum (num 4)]);
                           ("dim_2", [CNum (num 1); CNum (num 0)])]))
    by reflexivity.
  assert (H3 : layers_mode (adata (ex_world ex_layers_dense)) = Ok "splicing")
    by reflexivity.
  assert (H4 : expression_matrix (adata (ex_world ex_layers_dense))
                 (known_positions (adata (ex_world ex_layers_dense)) ["g1"]) "X"
               = Ok (Some (Dense [[num 1]; [num 0]])))
    by reflexivity.
  assert (H5 : colour_setup (adata (ex_world ex_layers_dense))
                 (known_genes (adata (ex_world ex_layers_dense)) ["g1"])
                 "velocity" None
               = Ok (mkColouring None 1 [CNum NaN; CNum NaN] None))
    by reflexivity.
  repeat (split; [assumption|]).
  exact (scatters_vkey_raises ex_themes ["g1"] 0 1 (Some "fire") "velocity" "S"
           "X" "umap" 1 None None "on data" (ex_world ex_layers_dense)
           _ _ _ _ H1 H2 H3 H4 H5).
Defined.

(** C2 as stated fails: when the key holds "velocity_" already, [vkey] is
    never assigned, and the exception is not the one about the missing
    key. *)
Lemma scatters_vkey_counterexample :
  "velocity" <> "embedding"
  /\ outcome (scatters ex_themes ["g1"] 0 1 (Some "fire") "velocity"
                       "velocity_S" "X" "umap" 1 None None "on data")
             (ex_world ex_layers_dense)
     = Raise (UnboundLocalError "vkey")
  /\ forall msg,
      outcome (scatters ex_themes ["g1"] 0 1 (Some "fire") "velocity"
                        "velocity_S" "X" "umap" 1 None None "on data")
              (ex_world ex_layers_dense)
      <> Raise (Exception msg).
Proof.
  split; [discriminate | split; [reflexivity|]].
  intro msg. vm_compute. discriminate.
Qed.

(** ** The colours of the velocity panels *)

Lemma clip_unit (x : fnum) : in_unit_interval (clip fzero fone x).
Proof.
  unfold clip, in_unit_interval.
  destruct (is_nan x) eqn:En; [now left|].
  destruct (fltb x fzero) eqn:E0; [right; split; reflexivity|].
  destruct (fltb fone x) eqn:E1; [right; split; reflexivity|].
  right. destruct x; try discriminate; simpl in *.
  split.
  - now destruct (Qc_leb 0 q).
  - now destruct (Qc_leb q 1).
Qed.

Lemma normalize_velocity_entries (V_vec : vec) :
  normalize_velocity V_vec
  = map (normalized_entry (velocity_limit V_vec)) V_vec.
Proof.
  unfold normalize_velocity, normalized_entry. rewrite !map_map. reflexivity.
Qed.

Lemma normalize_velocity_unit (V_vec : vec) :
  Forall in_unit_interval (normalize_velocity V_vec).
Proof.
  unfold normalize_velocity. apply Forall_forall. intros x Hx.
  apply in_map_iff in Hx as [y [<- _]]. apply clip_unit.
Qed.

Lemma normalize_expression_unit (e : vec) :
  Forall in_unit_interval (normalize_expression e).
Proof.
  unfold normalize_expression. apply Forall_forall. intros x Hx.
  apply in_map_iff in Hx as [y [<- _]]. apply clip_unit.
Qed.

Lemma panel_ok_velocity (e : event) : panel_ok e -> velocity_colours_ok e.
Proof. now intros [H _]. Qed.


(** C6: the colours of a velocity panel are [(v + limit) / (2 * limit)]
    clipped to the unit interval, [limit] being the larger absolute value
    of the 1st and the 99th percentile; every entry is NaN or lies between
    0 and 1; and the velocity panels of [phase_portraits] and [scatters]
    are drawn with such colours only. *)
Theorem velocity_colours_normalized :
  (forall V_vec,
      velocity_limit V_vec
      = nanmax (map fabs (nanpercentile V_vec [Q2Qc 1; Q2Qc 99]))
      /\ normalize_velocity V_vec
         = map (normalized_entry (velocity_limit V_vec)) V_vec
      /\ Forall in_unit_interval (normalize_velocity V_vec))
  /\ (forall e, Forall in_unit_interval (normalize_expression e))
  /\ (forall genes x y mode vkey ekey basis color,
         emits velocity_colours_ok
               (phase_portraits genes x y mode vkey ekey basis color))
  /\ (forall themes genes x y theme type velocity_key ekey basis n_columns
             color figsize legend,
         emits velocity_colours_ok
               (scatters themes genes x y theme type velocity_key ekey basis
                         n_columns color figsize legend)).
Proof.
  split; [|split; [|split]].
  - intro V_vec. split; [reflexivity|]. split.
    + apply normalize_velocity_entries.
    + apply normalize_velocity_unit.
  - apply normalize_expression_unit.
  - intros. eapply emits_weaken; [apply panel_ok_velocity|].
    apply phase_portraits_emits.
  - intros. eapply emits_weaken; [apply panel_ok_velocity|].
    apply scatters_emits.
Qed.

(** ** The line of the phase portrait *)









Lemma length_linspace0 (stop : fnum) : length (linspace0 stop) = 50%nat.
Proof.
  unfold linspace0, linspace. now rewrite length_app, length_map, length_seq.
Qed.



Lemma rmapM_Ok_cons {A B} (f : A -> result B) (x : A) (l : list A)
  (ys : list B) :
  rmapM f (x :: l) = Ok ys ->
  exists y ys', f x = Ok y /\ rmapM f l = Ok ys' /\ ys = y :: ys'.
Proof.
  simpl. destruct (f x) as [y|e]; [|discriminate]. simpl.
  destruct (rmapM f l) as [ys'|e]; [|discriminate]. simpl.
  intros [= <-]. now exists y, ys'.
Qed.

(** A column given as cells is found again in the frame. *)
Lemma DataFrame_of_columns_lookup (cols : list (string * colspec))
  (index : list cell) (df : DataFrame) (k : string) (l : list cell) :
  DataFrame_of_columns cols index = Ok df ->
  lookup k cols = Some (ColCells l) ->
  lookup k (df_columns df) = Some l.
Proof.
  unfold DataFrame_of_columns, rmap.
  destruct (rmapM _ cols) as [cs|e] eqn:E; [|discriminate].
  simpl. intros [= <-]. simpl. revert cs E.
  induction cols as [|[k' c] cols IH]; intros cs E; [discriminate|].
  apply rmapM_Ok_cons in E as [y [ys [Hy [Hys ->]]]].
  simpl in Hy. unfold rmap in Hy.
  destruct (cells_of (length index) c) as [cl|e] eqn:Ec; [|discriminate].
  simpl in Hy. injection Hy as <-. simpl.
  destruct (String.eqb k k').
  - intros [= ->]. simpl in Ec.
    destruct (Nat.eqb (length l) (length index)); [|discriminate].
    now injection Ec as ->.
  - now apply IH.
Qed.

Ltac open_rbind H :=
  repeat match type of H with
         | rbind ?r _ = Ok _ =>
             let E := fresh "E" in
             destruct r eqn:E; cbn [rbind] in H; [|discriminate H]
         | (if ?b then _ else _) = Ok _ => destruct b
         | (let '(_, _) := ?p in _) = Ok _ => destruct p
         | Raise _ = Ok _ => discriminate H
         end.

Lemma frame_two_gene_frame a idx genes n_cells k0 k1 c0 c1 gamma offset
      E_vec V_vec color_vec df :
  str_in c0 ["gene"; "gamma"; "velocity_offset"] = false ->
  str_in c1 ["gene"; "gamma"; "velocity_offset"] = false ->
  frame_two a idx genes n_cells k0 k1 c0 c1 gamma offset E_vec V_vec color_vec
  = Ok df ->
  gene_frame df genes gamma offset n_cells.
Proof.
  intros H0 H1 H. unfold frame_two in H. open_rbind H.
  all: unfold str_in in H0, H1; simpl in H0, H1;
    rewrite !orb_false_r in H0, H1;
    apply orb_false_elim in H0 as [Ha0 H0]; apply orb_false_elim in H0 as [Hb0 Hc0];
    apply orb_false_elim in H1 as [Ha1 H1]; apply orb_false_elim in H1 as [Hb1 Hc1];
    rewrite String.eqb_sym in Ha0, Hb0, Hc0, Ha1, Hb1, Hc1;
    repeat split;
    (eapply DataFrame_of_columns_lookup; [exact H|]);
    cbn [lookup]; rewrite ?Ha0, ?Hb0, ?Hc0, ?Ha1, ?Hb1, ?Hc1; reflexivity.
Qed.

Lemma frame_full_gene_frame a idx genes n_cells eta gP oP gamma offset
      E_vec V_vec P_vec color_vec df :
  frame_full a idx genes n_cells eta gP oP gamma offset E_vec V_vec P_vec
             color_vec = Ok df ->
  gene_frame df genes gamma offset n_cells.
Proof.
  intros H. unfold frame_full in H. open_rbind H.
  all: repeat split;
    (eapply DataFrame_of_columns_lookup; [exact H|]); reflexivity.
Qed.

(** The frames of [phase_portraits] and of [scatters] are gene frames. *)
Lemma phase_frame_gene_frame a idx genes n_cells mode gamma offset
      E_vec V_vec P_vec color_vec df :
  phase_frame a idx genes n_cells mode gamma offset E_vec V_vec P_vec color_vec
  = Ok df ->
  gene_frame df genes gamma offset n_cells.
Proof.
  unfold phase_frame. intro H.
  repeat match type of H with
         | (if ?b then _ else _) = Ok _ => destruct b
         end.
  - eapply frame_two_gene_frame; [| |exact H]; reflexivity.
  - eapply frame_two_gene_frame; [| |exact H]; reflexivity.
  - eapply frame_full_gene_frame; exact H.
  - discriminate.
Qed.

Lemma scatters_frame_gene_frame a idx genes n_cells mode gamma offset
      E_vec V_vec P_vec color_vec df :
  scatters_frame a idx genes n_cells mode gamma offset E_vec V_vec P_vec
                 color_vec = Ok df ->
  gene_frame df genes gamma offset n_cells.
Proof.
  unfold scatters_frame. intro H.
  repeat match type of H with
         | (if ?b then _ else _) = Ok _ => destruct b
         end.
  - eapply frame_two_gene_frame; [| |exact H]; reflexivity.
  - eapply frame_two_gene_frame; [| |exact H]; reflexivity.
  - eapply frame_full_gene_frame; exact H.
  - discriminate.
Qed.




(** ** scatters never returns *)

(** Whatever its arguments, [scatters] raises and draws nothing: a type
    other than 'embedding' stops at the velocity key at the latest, and
    'embedding' at the background colour, which only the other types
    bind. *)
Lemma scatters_always_raises
  themes genes x y theme type velocity_key ekey basis n_columns color
  figsize legend (w : World) :
  exists e,
    outcome (scatters themes genes x y theme type velocity_key ekey basis
                      n_columns color figsize legend) w = Raise e
    /\ drawn (scatters themes genes x y theme type velocity_key ekey basis
                       n_columns color figsize legend) w = figure w.
Proof.
  unfold outcome, drawn, scatters, bind, get_adata, lift. cbn [fst snd].
  destruct (genes_and_embedding _ _ _ _ _); [|eexists; split; reflexivity].
  destruct (layers_mode _); [|eexists; split; reflexivity].
  destruct (expression_matrix _ _ _); [|eexists; split; reflexivity].
  destruct (colour_setup _ _ _ _); [|eexists; split; reflexivity].
  unfold scatters_df, theme_setup.
  destruct (String.eqb type "embedding").
  - destruct (embedding_plot_frame _ _ _ _); eexists; split; reflexivity.
  - destruct (contains "velocity_" velocity_key); cbn [negb bound rbind].
    + eexists; split; reflexivity.
    + rewrite velocity_matrices_prefixed. eexists; split; reflexivity.
Qed.

(** ** show_fraction: the fractions of splicing mode *)

Lemma lookup_str_in {A} (k : string) (d : list (string * A)) :
  str_in k (keys d) = match lookup k d with Some _ => true | None => false end.
Proof.
  induction d as [|[k' v] d IH]; simpl; [reflexivity|].
  destruct (String.eqb k k'); simpl; [reflexivity | exact IH].
Qed.

Lemma length_zipWith {A B C} (f : A -> B -> C) (u : list A) (v : list B) :
  length u = length v -> length (zipWith f u v) = length u.
Proof.
  revert v. induction u as [|x u IH]; intros [|y v] H; try discriminate.
  - reflexivity.
  - simpl in *. injection H as H. now rewrite IH.
Qed.

Lemma np_binop_same_length (f : fnum -> fnum -> fnum) (u v : vec) :
  length u = length v ->
  np_binop f (Arr1 u) (Arr1 v) = Ok (Arr1 (zipWith f u v)).
Proof.
  intro H. unfold np_binop, bcast_row. rewrite H, Nat.eqb_refl. reflexivity.
Qed.

Lemma length_cell_sums (m : matrix) : length (cell_sums m) = nrows m.
Proof. destruct m; simpl; now rewrite length_map. Qed.

Lemma dense_sum (m : matrix) :
  issparse m = false -> sum1 m = Arr1 (cell_sums m).
Proof. destruct m; [reflexivity | discriminate]. Qed.

Lemma sparse_sum (m : matrix) :
  issparse m = true -> A1 (sum1 m) = Ok (Arr1 (cell_sums m)).
Proof.
  destruct m; [discriminate|]. intros _. simpl.
  now rewrite concat_map_singleton.
Qed.

Lemma column_of_Arr1 (n : nat) (v : vec) :
  length v = n -> column_of n (Arr1 v) = Ok (map CNum v).
Proof. intros <-. simpl. now rewrite Nat.eqb_refl. Qed.

(** What the long frame of the fractions looks like. *)
Lemma melt_fractions (index : list cell) (fr : list (string * vec)) :
  NoDup (map fst fr) ->
  exists res,
    melt (fractions_frame index fr) (map fst fr) [] = Ok res
    /\ lookup "value" (df_columns res)
       = Some (concat (map (fun c => map CNum (snd c)) fr)).
Proof.
  intro Hnd. unfold melt, fractions_frame. cbn [df_columns df_index rmapM rbind].
  assert (H : rmapM (getitem (map (fun c => (fst c, map CNum (snd c))) fr))
                    (map fst fr)
              = Ok (map (fun c => map CNum (snd c)) fr)).
  { induction fr as [|[k v] fr IH]; [reflexivity|].
    inversion Hnd as [|? ? Hnotin Hnd']; subst.
    cbn [map fst snd rmapM]. unfold getitem at 1. cbn [lookup].
    rewrite String.eqb_refl. cbn [rbind].
    assert (Hext : rmapM (getitem ((k, map CNum v)
                     :: map (fun c => (fst c, map CNum (snd c))) fr))
                         (map fst fr)
                   = rmapM (getitem (map (fun c => (fst c, map CNum (snd c))) fr))
                           (map fst fr)).
    { clear IH Hnd Hnd'. revert Hnotin.
      generalize (map (fun c : string * vec => (fst c, map CNum (snd c))) fr).
      generalize (map fst fr). intros ks d Hnotin.
      induction ks as [|k' ks IHk]; [reflexivity|].
      cbn [rmapM]. unfold getitem at 1 3. cbn [lookup].
      destruct (String.eqb k' k) eqn:E.
      - apply String.eqb_eq in E. subst. exfalso. apply Hnotin. now left.
      - rewrite IHk; [reflexivity|]. intro H. apply Hnotin. now right. }
    rewrite Hext, (IH Hnd'). reflexivity. }
  rewrite H. cbn [rbind]. eexists. split; [reflexivity|].
  cbn [df_columns combine app lookup]. reflexivity.
Qed.

(** With its layers stored alike, one row per cell, splicing mode plots the
    fractions [splicing_fractions] in a violin plot. *)
Lemma show_fraction_splicing_run (w : World) (un sp : matrix)
  (am : option matrix) :
  splicing_layers (adata w) un sp am ->
  exists res,
    melt (fractions_frame (df_index (obs (adata w)))
                          (splicing_fractions un sp am))
         (map fst (splicing_fractions un sp am)) [] = Ok res
    /\ outcome (show_fraction "splicing" None) w = Ok tt
    /\ drawn (show_fraction "splicing" None) w
       = (figure w ++ [SetStyle "ticks"; ViolinPlot "variable" "value" res;
                       SetLabels "Category" "Fraction"; PltShow])%list.
Proof.
  intros [Hun [Hsp [Ham [Hst [Hru [Hrs Hm]]]]]].
  assert (Hnd : NoDup (map fst (splicing_fractions un sp am))).
  { destruct am; simpl; repeat constructor; simpl; intuition discriminate. }
  destruct (melt_fractions (df_index (obs (adata w)))
              (splicing_fractions un sp am) Hnd) as [res [Hres _]].
  exists res. split; [exact Hres|].
  unfold outcome, drawn, show_fraction, bind, get_adata, emit, ret, raise.
  cbn [fst snd adata figure negb str_in valid_modes existsb String.eqb
       Ascii.eqb Bool.eqb orb andb].
  rewrite !all_in_cons, !lookup_str_in, Hun, Hsp. cbn [andb all_in forallb].
  unfold fractions_splicing, bind, lift, ret, getitem.
  rewrite lookup_str_in, Hun, Hsp, Ham.
  assert (Hlu : length (cell_sums un) = length (df_index (obs (adata w))))
    by now rewrite length_cell_sums.
  assert (Hls : length (cell_sums sp) = length (df_index (obs (adata w))))
    by now rewrite length_cell_sums.
  assert (Hsum : forall m : matrix,
             issparse m = issparse un ->
             (if issparse un then A1 (sum1 m) else Ok (sum1 m))
             = Ok (Arr1 (cell_sums m))).
  { intros m Hm'. destruct (issparse un) eqn:Eu.
    - now apply sparse_sum.
    - f_equal. now apply dense_sum. }
  pose proof (Hsum un eq_refl) as Hsu. pose proof (Hsum sp Hst) as Hss.
  destruct am as [a|].
  - destruct Hm as [Hsa Hra].
    assert (Hla : length (cell_sums a) = length (df_index (obs (adata w))))
      by now rewrite length_cell_sums.
    pose proof (Hsum a Hsa) as Hsm.
    destruct (issparse un); cbn [negb fst snd] in *;
      rewrite ?Hsu, ?Hss, ?Hsm;
      first [ injection Hsu as Hsu; injection Hss as Hss;
              injection Hsm as Hsm
            | idtac ];
      rewrite ?Hsu, ?Hss, ?Hsm; cbn [fst snd];
      unfold np_add, np_div;
      rewrite !np_binop_same_length
        by (rewrite ?length_zipWith; rewrite ?length_zipWith; congruence);
      unfold DataFrame_of; cbn [rmapM rbind rmap fst snd];
      rewrite !column_of_Arr1
        by (rewrite ?length_zipWith; rewrite ?length_zipWith;
            rewrite ?length_zipWith; congruence);
      cbn [rbind rmap];
      unfold splicing_fractions, fractions_frame, vadd, vdiv in Hres;
      cbn [map fst snd] in Hres; rewrite Hres; cbn [fst snd adata figure];
      (split; [reflexivity|]); rewrite <- !app_assoc; reflexivity.
  - destruct (issparse un); cbn [negb fst snd] in *;
      rewrite ?Hsu, ?Hss;
      first [ injection Hsu as Hsu; injection Hss as Hss | idtac ];
      rewrite ?Hsu, ?Hss; cbn [fst snd];
      unfold np_add, np_div;
      rewrite !np_binop_same_length
        by (rewrite ?length_zipWith; rewrite ?length_zipWith; congruence);
      unfold DataFrame_of; cbn [rmapM rbind rmap fst snd];
      rewrite !column_of_Arr1
        by (rewrite ?length_zipWith; rewrite ?length_zipWith;
            rewrite ?length_zipWith; congruence);
      cbn [rbind rmap];
      unfold splicing_fractions, fractions_frame, vadd, vdiv in Hres;
      cbn [map fst snd] in Hres; rewrite Hres; cbn [fst snd adata figure];
      (split; [reflexivity|]); rewrite <- !app_assoc; reflexivity.
Qed.

Lemma nth_error_zipWith {A B C} (f : A -> B -> C) (u : list A) (v : list B)
  (i : nat) (z : C) :
  nth_error (zipWith f u v) i = Some z ->
  exists x y, nth_error u i = Some x /\ nth_error v i = Some y /\ z = f x y.
Proof.
  revert v i. induction u as [|a u IH]; intros [|b v] [|i] H;
    try discriminate.
  - simpl in H. injection H as <-. now exists a, b.
  - simpl in H. apply IH in H. exact H.
Qed.


Lemma fadd_Fin_inv (x y : fnum) (t : Qc) :
  fadd x y = Fin t -> exists a b, x = Fin a /\ y = Fin b /\ t = (a + b)%Qc.
Proof.
  destruct x, y; simpl; try discriminate.
  intros [= <-]. now exists q, q0.
Qed.



Lemma Qc_eqb_false_neq (a b : Qc) : Qc_eqb a b = false -> a <> b.
Proof.
  intros H ->. assert (E : Qc_eqb b b = true) by now apply Qc_eqb_eq.
  congruence.
Qed.



(** ** A run of phase_portraits *)

(** On the example data, [phase_portraits] returns, with a phase portrait,
    its line, and the two embedding panels of the gene. *)
Lemma phase_portraits_example :
  outcome (phase_portraits ["g1"] 0 1 "splicing" "S" "X" "umap" None)
          (ex_world ex_layers_dense) = Ok tt
  /\ exists xs ys hue,
      In (LinePlot 0 xs ys)
         (drawn (phase_portraits ["g1"] 0 1 "splicing" "S" "X" "umap" None)
                (ex_world ex_layers_dense))
      /\ In (ScatterPlot VelocityPanel 2
                         [CNum (num 1); CNum (num 4)] [CNum (num 1); CNum (num 0)]
                         (HueValues hue) "Greens")
            (drawn (phase_portraits ["g1"] 0 1 "splicing" "S" "X" "umap" None)
                   (ex_world ex_layers_dense)).
Proof.
  split; [vm_compute; reflexivity|].
  do 3 eexists. split.
  - unfold drawn. vm_compute. do 6 right. left. reflexivity.
  - unfold drawn. vm_compute. do 14 right. left. reflexivity.
Qed.

(** * Further properties of the plotting code *)

(** ** _select_font_color (scatters.py, lines 76-91) *)

Lemma py_int_hex_prefix (c : string) :
  py_int ("0x" ++ c)
  = Raise (ValueError ("invalid literal for int() with base 10: '0x" ++ c ++ "'")).
Proof. reflexivity. Qed.

(** X1: the font colour is white on "black" and black on every other
    named colour; a background given as "#rrggbb" never gets one: [int] is
    called without a base on "0x..", and raises. *)
Theorem select_font_color_cases (background : string) :
  _select_font_color background
  = if String.eqb background "black" then Ok "white"
    else if prefix "#" background
    then Raise (ValueError ("invalid literal for int() with base 10: '0x"
                            ++ substring 1 2 background ++ "'"))
    else Ok "black".
Proof.
  unfold _select_font_color.
  destruct (String.eqb background "black"); [reflexivity|].
  destruct (prefix "#" background); [|reflexivity].
  cbn [rmapM rbind]. rewrite py_int_hex_prefix. reflexivity.
Qed.

(** ** show_fraction in full mode (preprocess.py, lines 76-79) *)

(** X2: in full mode with the four layers there, [show_fraction] raises at
    the per-cell sums and plots nothing: the [AttributeError] of [.A1] as
    soon as one of the layers ul, su, sl is a dense array, and else the
    [ValueError] of unpacking seven values into four names. *)
Theorem show_fraction_full_exception (group : option string) (w : World)
  (uu ul su sl : matrix)
  (Huu : lookup "uu" (layers (adata w)) = Some uu)
  (Hul : lookup "ul" (layers (adata w)) = Some ul)
  (Hsu : lookup "su" (layers (adata w)) = Some su)
  (Hsl : lookup "sl" (layers (adata w)) = Some sl) :
  outcome (show_fraction "full" group) w
  = Raise (if issparse ul && issparse su && issparse sl
           then unpack4_error else A1_error)
  /\ drawn (show_fraction "full" group) w
     = (figure w ++ [SetStyle "ticks"])%list.
Proof.
  unfold outcome, drawn, show_fraction, fractions_full, bind, get_adata,
    emit, ret, raise, lift, getitem.
  cbn -[all_in lookup sum1].
  rewrite !all_in_cons, !lookup_str_in, Huu, Hul, Hsu, Hsl.
  cbn [andb all_in forallb].
  destruct uu, ul, su, sl; cbn; split; reflexivity.
Qed.

Lemma show_fraction_full_exception_witness :
  lookup "uu" (layers (adata (ex_world ex_layers_full))) = Some ex_sparse_a
  /\ lookup "ul" (layers (adata (ex_world ex_layers_full))) = Some ex_sparse_b
  /\ lookup "su" (layers (adata (ex_world ex_layers_full))) = Some ex_sparse_a
  /\ lookup "sl" (layers (adata (ex_world ex_layers_full))) = Some ex_sparse_b
  /\ outcome (show_fraction "full" None) (ex_world ex_layers_full)
     = Raise (if issparse ex_sparse_b && issparse ex_sparse_a && issparse ex_sparse_b
              then unpack4_error else A1_error)
  /\ drawn (show_fraction "full" None) (ex_world ex_layers_full)
     = (figure (ex_world ex_layers_full) ++ [SetStyle "ticks"])%list.
Proof.
  do 4 (split; [reflexivity|]).
  exact (show_fraction_full_exception None (ex_world ex_layers_full)
           ex_sparse_a ex_sparse_b ex_sparse_a ex_sparse_b
           eq_refl eq_refl eq_refl eq_refl).
Defined.

(** ** scatters: colours, mode and embedding plots *)

Lemma filter_none {A} (p : A -> bool) (l : list A) :
  (forall x, In x l -> p x = false) -> filter p l = [].
Proof.
  induction l as [|x l IH]; intro H; [reflexivity|].
  simpl. rewrite (H x) by now left. apply IH. intros y Hy. apply H. now right.
Qed.

(** X3: a [color] argument none of whose names is a column of [adata.obs]
    leaves an empty list, and [color[0]] raises an [IndexError]: the call
    of [scatters] ends there, whatever its type, once genes, embedding,
    mode and expression matrix were found. *)
Theorem scatters_unknown_color
  (themes : list (string * theme_entry)) (genes : list string) (x y : Z)
  (theme : option string) (type velocity_key ekey basis : string)
  (n_columns : Z) (color : list string)
  (figsize : option (fnum * fnum)) (legend : string) (w : World)
  (emb : DataFrame) (mode : string) (E : option matrix)
  (Hemb : genes_and_embedding (adata w) genes basis x y = Ok emb)
  (Hmode : layers_mode (adata w) = Ok mode)
  (HE : expression_matrix (adata w) (known_positions (adata w) genes) ekey = Ok E)
  (Hcolor : forall k, In k (keys (df_columns (obs (adata w)))) -> ~ In k color) :
  outcome (scatters themes genes x y theme type velocity_key ekey basis
                    n_columns (Some color) figsize legend) w
  = Raise (IndexError "list index out of range")
  /\ drawn (scatters themes genes x y theme type velocity_key ekey basis
                     n_columns (Some color) figsize legend) w
     = figure w.
Proof.
  unfold outcome, drawn, scatters, bind, get_adata, lift.
  cbn [fst snd]. rewrite Hemb, Hmode, HE.
  unfold colour_setup. rewrite filter_none.
  - split; reflexivity.
  - intros k Hk. apply str_in_false. now apply Hcolor.
Qed.

Lemma scatters_unknown_color_witness :
  genes_and_embedding (adata (ex_world ex_layers_dense)) ["g1"] "umap" 0 1
  = Ok (mkDF [CInt 0; CInt 1]
             [("dim_1", [CNum (num 1); CNum (num 4)]);
              ("dim_2", [CNum (num 1); CNum (num 0)])])
  /\ layers_mode (adata (ex_world ex_layers_dense)) = Ok "splicing"
  /\ expression_matrix (adata (ex_world ex_layers_dense))
       (known_positions (adata (ex_world ex_layers_dense)) ["g1"]) "X"
     = Ok (Some (Dense [[num 1]; [num 0]]))
  /\ (forall k, In k (keys (df_columns (obs (adata (ex_world ex_layers_dense))))) ->
                ~ In k ["batch"])
  /\ outcome (scatters ex_themes ["g1"] 0 1 (Some "fire") "embedding" "S" "X"
                       "umap" 1 (Some ["batch"]) None "on data")
             (ex_world ex_layers_dense)
     = Raise (IndexError "list index out of range")
  /\ drawn (scatters ex_themes ["g1"] 0 1 (Some "fire") "embedding" "S" "X"
                     "umap" 1 (Some ["batch"]) None "on data")
           (ex_world ex_layers_dense)
     = figure (ex_world ex_layers_dense).
Proof.
  assert (H1 : genes_and_embedding (adata (ex_world ex_layers_dense)) ["g1"] "umap" 0 1
               = Ok (mkDF [CInt 0; CInt 1]
                          [("dim_1", [CNum (num 1); CNum (num 4)]);
                           ("dim_2", [CNum (num 1); CNum (num 0)])]))
    by reflexivity.
  assert (H2 : layers_mode (adata (ex_world ex_layers_dense)) = Ok "splicing")
    by reflexivity.
  assert (H3 : expression_matrix (adata (ex_world ex_layers_dense))
                 (known_positions (adata (ex_world ex_layers_dense)) ["g1"]) "X"
               = Ok (Some (Dense [[num 1]; [num 0]])))
    by reflexivity.
  assert (H4 : forall k,
             In k (keys (df_columns (obs (adata (ex_world ex_layers_dense))))) ->
             ~ In k ["batch"]).
  { simpl. intros k [<-|[]] [H|[]]. discriminate H. }
  do 4 (split; [assumption|]).
  exact (scatters_unknown_color ex_themes ["g1"] 0 1 (Some "fire") "embedding"
           "S" "X" "umap" 1 ["batch"] None "on data" (ex_world ex_layers_dense)
           _ _ _ H1 H2 H3 H4).
Defined.

(** X4: the mode that lines 172-177 of scatters.py read off the layers is
    spelled 'labeling' for data with X_new and X_total, whatever other
    layers there are; lines 232-279 know 'labelling' only and reject it as
    corrupted data. *)
Theorem scatters_labeling_mode_rejected (a : AnnData) (idx : list nat)
  (genes : list string) (n_cells : nat) (gamma velocity_offset : list cell)
  (E_vec V_vec : matrix) (P_vec : option matrix) (color_vec : list cell)
  (Hkeys : all_in ["X_new"; "X_total"] (keys (layers a)) = true) :
  exists mode,
    layers_mode a = Ok mode
    /\ mode = "labeling"
    /\ scatters_frame a idx genes n_cells mode gamma velocity_offset
                      E_vec V_vec P_vec color_vec
       = Raise (Exception corrupted_msg').
Proof.
  exists "labeling". unfold layers_mode. rewrite Hkeys.
  repeat split; reflexivity.
Qed.

Lemma scatters_labeling_mode_rejected_witness :
  all_in ["X_new"; "X_total"]
         (keys (layers (ex_adata [("X_new", ex_dense_a); ("X_total", ex_dense_b);
                                  ("X_spliced", ex_dense_a);
                                  ("X_unspliced", ex_dense_b)]))) = true
  /\ exists mode,
      layers_mode (ex_adata [("X_new", ex_dense_a); ("X_total", ex_dense_b);
                             ("X_spliced", ex_dense_a);
                             ("X_unspliced", ex_dense_b)]) = Ok mode
      /\ mode = "labeling"
      /\ scatters_frame (ex_adata [("X_new", ex_dense_a); ("X_total", ex_dense_b);
                                   ("X_spliced", ex_dense_a);
                                   ("X_unspliced", ex_dense_b)])
                        [0%nat] ["g1"] 2 mode [CNum (num 2)] [CInt 0]
                        ex_dense_a ex_dense_v None [CNum NaN; CNum NaN]
         = Raise (Exception corrupted_msg').
Proof.
  assert (H : all_in ["X_new"; "X_total"]
                (keys (layers (ex_adata [("X_new", ex_dense_a); ("X_total", ex_dense_b);
                                         ("X_spliced", ex_dense_a);
                                         ("X_unspliced", ex_dense_b)]))) = true)
    by reflexivity.
  split; [exact H|].
  exact (scatters_labeling_mode_rejected _ [0%nat] ["g1"] 2 [CNum (num 2)]
           [CInt 0] ex_dense_a ex_dense_v None [CNum NaN; CNum NaN] H).
Defined.

(** The frame of the embedding has the two columns dim_1 and dim_2. *)
Lemma genes_and_embedding_columns (a : AnnData) (genes : list string)
  (basis : string) (x y : Z) (emb : DataFrame) :
  genes_and_embedding a genes basis x y = Ok emb ->
  exists idx c0 c1, emb = mkDF idx [("dim_1", c0); ("dim_2", c1)].
Proof.
  unfold genes_and_embedding, embedding_frame. intro H.
  repeat match type of H with
         | (if ?b then _ else _) = Ok _ => destruct b; [discriminate H|]
         | rbind ?r _ = Ok _ =>
             destruct r; cbn [rbind] in H; [|discriminate H]
         | match ?m with Dense _ => _ | Sparse _ _ => _ end = Ok _ =>
             destruct m; [|discriminate H]
         end.
  injection H as <-. now eexists _, _, _.
Qed.

(** X5: with type 'embedding' and no [color], [scatters] raises the error
    of the unassigned [full_color_vec] when it builds its frame (lines
    207-208), once genes, embedding, mode and expression matrix were found;
    nothing is drawn. *)
Theorem scatters_embedding_without_color
  (themes : list (string * theme_entry)) (genes : list string) (x y : Z)
  (theme : option string) (velocity_key ekey basis : string)
  (n_columns : Z) (figsize : option (fnum * fnum)) (legend : string)
  (w : World) (emb : DataFrame) (mode : string) (E : option matrix)
  (Hemb : genes_and_embedding (adata w) genes basis x y = Ok emb)
  (Hmode : layers_mode (adata w) = Ok mode)
  (HE : expression_matrix (adata w) (known_positions (adata w) genes) ekey = Ok E) :
  outcome (scatters themes genes x y theme "embedding" velocity_key ekey basis
                    n_columns None figsize legend) w
  = Raise (UnboundLocalError "full_color_vec")
  /\ drawn (scatters themes genes x y theme "embedding" velocity_key ekey basis
                     n_columns None figsize legend) w
     = figure w.
Proof.
  destruct (genes_and_embedding_columns _ _ _ _ _ _ Hemb) as [idx [c0 [c1 ->]]].
  unfold outcome, drawn, scatters, bind, get_adata, lift.
  cbn [fst snd]. rewrite Hemb, Hmode, HE.
  split; reflexivity.
Qed.

Lemma scatters_embedding_without_color_witness :
  genes_and_embedding (adata (ex_world ex_layers_dense)) ["g1"] "umap" 0 1
  = Ok (mkDF [CInt 0; CInt 1]
             [("dim_1", [CNum (num 1); CNum (num 4)]);
              ("dim_2", [CNum (num 1); CNum (num 0)])])
  /\ layers_mode (adata (ex_world ex_layers_dense)) = Ok "splicing"
  /\ expression_matrix (adata (ex_world ex_layers_dense))
       (known_positions (adata (ex_world ex_layers_dense)) ["g1"]) "X"
     = Ok (Some (Dense [[num 1]; [num 0]]))
  /\ outcome (scatters ex_themes ["g1"] 0 1 None "embedding" "S" "X" "umap" 1
                       None None "on data") (ex_world ex_layers_dense)
     = Raise (UnboundLocalError "full_color_vec")
  /\ drawn (scatters ex_themes ["g1"] 0 1 None "embedding" "S" "X" "umap" 1
                     None None "on data") (ex_world ex_layers_dense)
     = figure (ex_world ex_layers_dense).
Proof.
  assert (H1 : genes_and_embedding (adata (ex_world ex_layers_dense)) ["g1"] "umap" 0 1
               = Ok (mkDF [CInt 0; CInt 1]
                          [("dim_1", [CNum (num 1); CNum (num 4)]);
                           ("dim_2", [CNum (num 1); CNum (num 0)])]))
    by reflexivity.
  assert (H2 : layers_mode (adata (ex_world ex_layers_dense)) = Ok "splicing")
    by reflexivity.
  assert (H3 : expression_matrix (adata (ex_world ex_layers_dense))
                 (known_positions (adata (ex_world ex_layers_dense)) ["g1"]) "X"
               = Ok (Some (Dense [[num 1]; [num 0]])))
    by reflexivity.
  do 3 (split; [assumption|]).
  exact (scatters_embedding_without_color ex_themes ["g1"] 0 1 None "S" "X"
           "umap" 1 None "on data" (ex_world ex_layers_dense) _ _ _ H1 H2 H3).
Defined.

(** ** phase_portraits: what stops a call *)

Ltac run_phase_portraits :=
  unfold outcome, drawn, phase_portraits, bind, get_adata, lift, ret, raise;
  cbn [fst snd].

Lemma In_str_in (s : string) (l : list string) : In s l -> str_in s l = true.
Proof. apply str_in_In. Qed.

(** X7: when 'X_' + basis is no key of [adata.obsm] although a gene of the
    call is known, [phase_portraits] raises "<basis> is not applied to
    adata." and draws nothing, whatever the other arguments. *)
Theorem phase_portraits_missing_basis (genes : list string) (x y : Z)
  (mode vkey ekey basis : string) (color : option (list string)) (w : World)
  (Hgenes : known_genes (adata w) genes <> [])
  (Hbasis : ~ In ("X_" ++ basis) (keys (obsm (adata w)))) :
  outcome (phase_portraits genes x y mode vkey ekey basis color) w
  = Raise (Exception (basis ++ " is not applied to adata."))
  /\ drawn (phase_portraits genes x y mode vkey ekey basis color) w = figure w.
Proof.
  run_phase_portraits. unfold genes_and_embedding.
  destruct (known_genes (adata w) genes) as [|g gs]; [contradiction|].
  cbn [length Nat.eqb]. rewrite (str_in_false _ _ Hbasis). cbn [negb].
  split; reflexivity.
Qed.

Lemma phase_portraits_missing_basis_witness :
  known_genes (adata (ex_world ex_layers_dense)) ["g2"] <> []
  /\ ~ In ("X_" ++ "tsne") (keys (obsm (adata (ex_world ex_layers_dense))))
  /\ outcome (phase_portraits ["g2"] 0 1 "splicing" "S" "X" "tsne" None)
             (ex_world ex_layers_dense)
     = Raise (Exception ("tsne" ++ " is not applied to adata."))
  /\ drawn (phase_portraits ["g2"] 0 1 "splicing" "S" "X" "tsne" None)
           (ex_world ex_layers_dense)
     = figure (ex_world ex_layers_dense).
Proof.
  assert (H1 : known_genes (adata (ex_world ex_layers_dense)) ["g2"] <> [])
    by discriminate.
  assert (H2 : ~ In ("X_" ++ "tsne")
                 (keys (obsm (adata (ex_world ex_layers_dense))))).
  { simpl. intros [H|[]]. discriminate H. }
  do 2 (split; [assumption|]).
  exact (phase_portraits_missing_basis ["g2"] 0 1 "splicing" "S" "X" "tsne"
           None (ex_world ex_layers_dense) H1 H2).
Defined.

(** X8: a velocity key other than 'U' and 'S' - the documented default
    'velocity' among them - makes [phase_portraits] raise "adata has no vkey
    ... in either the layers or the obsm slot" without drawing, once genes,
    embedding, mode and expression matrix were found. *)
Theorem phase_portraits_unknown_vkey (genes : list string) (x y : Z)
  (mode vkey ekey basis : string) (color : option (list string)) (w : World)
  (emb : DataFrame) (E : option matrix)
  (Hemb : genes_and_embedding (adata w) genes basis x y = Ok emb)
  (Hmode : In mode valid_modes)
  (HE : expression_matrix (adata w) (known_positions (adata w) genes) ekey = Ok E)
  (HU : vkey <> "U") (HS : vkey <> "S") :
  outcome (phase_portraits genes x y mode vkey ekey basis color) w
  = Raise (Exception ("adata has no vkey " ++ vkey
                      ++ " in either the layers or the obsm slot"))
  /\ drawn (phase_portraits genes x y mode vkey ekey basis color) w = figure w.
Proof.
  run_phase_portraits. rewrite Hemb, (In_str_in _ _ Hmode). cbn [negb fst snd].
  rewrite HE. unfold velocity_matrices.
  apply String.eqb_neq in HU, HS. rewrite HU, HS.
  split; reflexivity.
Qed.

Lemma phase_portraits_unknown_vkey_witness :
  genes_and_embedding (adata (ex_world ex_layers_dense)) ["g1"] "umap" 0 1
  = Ok (mkDF [CInt 0; CInt 1]
             [("dim_1", [CNum (num 1); CNum (num 4)]);
              ("dim_2", [CNum (num 1); CNum (num 0)])])
  /\ In "splicing" valid_modes
  /\ expression_matrix (adata (ex_world ex_layers_dense))
       (known_positions (adata (ex_world ex_layers_dense)) ["g1"]) "X"
     = Ok (Some (Dense [[num 1]; [num 0]]))
  /\ "velocity" <> "U" /\ "velocity" <> "S"
  /\ outcome (phase_portraits ["g1"] 0 1 "splicing" "velocity" "X" "umap" None)
             (ex_world ex_layers_dense)
     = Raise (Exception ("adata has no vkey " ++ "velocity"
                         ++ " in either the layers or the obsm slot"))
  /\ drawn (phase_portraits ["g1"] 0 1 "splicing" "velocity" "X" "umap" None)
           (ex_world ex_layers_dense)
     = figure (ex_world ex_layers_dense).
Proof.
  assert (H1 : genes_and_embedding (adata (ex_world ex_layers_dense)) ["g1"] "umap" 0 1
               = Ok (mkDF [CInt 0; CInt 1]
                          [("dim_1", [CNum (num 1); CNum (num 4)]);
                           ("dim_2", [CNum (num 1); CNum (num 0)])]))
    by reflexivity.
  assert (H2 : In "splicing" valid_modes) by (simpl; tauto).
  assert (H3 : expression_matrix (adata (ex_world ex_layers_dense))
                 (known_positions (adata (ex_world ex_layers_dense)) ["g1"]) "X"
               = Ok (Some (Dense [[num 1]; [num 0]])))
    by reflexivity.
  assert (H4 : "velocity" <> "U") by discriminate.
  assert (H5 : "velocity" <> "S") by discriminate.
  do 5 (split; [assumption|]).
  exact (phase_portraits_unknown_vkey ["g1"] 0 1 "splicing" "velocity" "X"
           "umap" None (ex_world ex_layers_dense) _ _ H1 H2 H3 H4 H5).
Defined.

(** X9: with vkey 'U' and a key 'velocity_P' in [adata.obsm],
    [phase_portraits] raises an [AttributeError]: line 255 asks the AnnData
    for [layer] where line 259, for 'S', asks for [layers]. *)
Theorem phase_portraits_U_with_protein_velocity (genes : list string)
  (x y : Z) (mode ekey basis : string) (color : option (list string))
  (w : World) (emb : DataFrame) (E : option matrix) (V : matrix)
  (Hemb : genes_and_embedding (adata w) genes basis x y = Ok emb)
  (Hmode : In mode valid_modes)
  (HE : expression_matrix (adata w) (known_positions (adata w) genes) ekey = Ok E)
  (HV : lookup "velocity_U" (layers (adata w)) = Some V)
  (HP : In "velocity_P" (keys (obsm (adata w)))) :
  outcome (phase_portraits genes x y mode "U" ekey basis color) w
  = Raise (AttributeError "'AnnData' object has no attribute 'layer'")
  /\ drawn (phase_portraits genes x y mode "U" ekey basis color) w = figure w.
Proof.
  run_phase_portraits. rewrite Hemb, (In_str_in _ _ Hmode). cbn [negb fst snd].
  rewrite HE. unfold velocity_matrices, gene_layer, getitem.
  cbn [String.eqb Ascii.eqb Bool.eqb]. rewrite HV. cbn [rmap rbind].
  rewrite (In_str_in _ _ HP). split; reflexivity.
Qed.

Lemma phase_portraits_U_with_protein_velocity_witness :
  genes_and_embedding ex_adata_protein_velocity ["g1"] "umap" 0 1
  = Ok ex_embedding
  /\ In "splicing" valid_modes
  /\ expression_matrix ex_adata_protein_velocity
       (known_positions ex_adata_protein_velocity ["g1"]) "X"
     = Ok (Some (Dense [[num 1]; [num 0]]))
  /\ lookup "velocity_U" (layers ex_adata_protein_velocity) = Some ex_dense_v
  /\ In "velocity_P" (keys (obsm ex_adata_protein_velocity))
  /\ outcome (phase_portraits ["g1"] 0 1 "splicing" "U" "X" "umap" None)
             (mkWorld ex_adata_protein_velocity [])
     = Raise (AttributeError "'AnnData' object has no attribute 'layer'").
Proof.
  assert (H1 : genes_and_embedding ex_adata_protein_velocity ["g1"] "umap" 0 1
               = Ok ex_embedding) by reflexivity.
  assert (H2 : In "splicing" valid_modes) by (simpl; tauto).
  assert (H3 : expression_matrix ex_adata_protein_velocity
                 (known_positions ex_adata_protein_velocity ["g1"]) "X"
               = Ok (Some (Dense [[num 1]; [num 0]])))
    by reflexivity.
  assert (H4 : lookup "velocity_U" (layers ex_adata_protein_velocity)
               = Some ex_dense_v) by reflexivity.
  assert (H5 : In "velocity_P" (keys (obsm ex_adata_protein_velocity)))
    by (simpl; tauto).
  do 5 (split; [assumption|]).
  exact (proj1 (phase_portraits_U_with_protein_velocity ["g1"] 0 1 "splicing"
                  "X" "umap" None (mkWorld ex_adata_protein_velocity [])
                  _ _ _ H1 H2 H3 H4 H5)).
Defined.

(** X10: an expression key that is neither a layer nor one of 'X',
    'protein', 'X_protein' leaves [E_vec] unassigned (lines 238-244), and
    [phase_portraits] raises the error of the unassigned local at line 263,
    once the velocity key was resolved. *)
Theorem phase_portraits_unknown_ekey (genes : list string) (x y : Z)
  (mode vkey ekey basis : string) (color : option (list string)) (w : World)
  (emb : DataFrame) (VP : matrix * option matrix)
  (Hemb : genes_and_embedding (adata w) genes basis x y = Ok emb)
  (Hmode : In mode valid_modes)
  (Hekey : ~ In ekey (keys (layers (adata w)) ++ ["X"; "protein"; "X_protein"])%list)
  (HV : velocity_matrices (adata w) (known_positions (adata w) genes) vkey "slot"
        = Ok VP) :
  outcome (phase_portraits genes x y mode vkey ekey basis color) w
  = Raise (UnboundLocalError "E_vec")
  /\ drawn (phase_portraits genes x y mode vkey ekey basis color) w = figure w.
Proof.
  run_phase_portraits. rewrite Hemb, (In_str_in _ _ Hmode). cbn [negb fst snd].
  unfold expression_matrix. rewrite (str_in_false _ _ Hekey).
  cbn [fst snd]. rewrite HV. split; reflexivity.
Qed.

Lemma phase_portraits_unknown_ekey_witness :
  genes_and_embedding (adata (ex_world ex_layers_dense)) ["g1"] "umap" 0 1
  = Ok ex_embedding
  /\ In "splicing" valid_modes
  /\ ~ In "M_s" (keys (layers (adata (ex_world ex_layers_dense)))
                 ++ ["X"; "protein"; "X_protein"])%list
  /\ velocity_matrices (adata (ex_world ex_layers_dense))
       (known_positions (adata (ex_world ex_layers_dense)) ["g1"]) "S" "slot"
     = Ok (Dense [[num (-1)]; [num 4]], None)
  /\ outcome (phase_portraits ["g1"] 0 1 "splicing" "S" "M_s" "umap" None)
             (ex_world ex_layers_dense)
     = Raise (UnboundLocalError "E_vec").
Proof.
  assert (H1 : genes_and_embedding (adata (ex_world ex_layers_dense)) ["g1"] "umap" 0 1
               = Ok ex_embedding) by reflexivity.
  assert (H2 : In "splicing" valid_modes) by (simpl; tauto).
  assert (H3 : ~ In "M_s" (keys (layers (adata (ex_world ex_layers_dense)))
                           ++ ["X"; "protein"; "X_protein"])%list).
  { simpl. intuition discriminate. }
  assert (H4 : velocity_matrices (adata (ex_world ex_layers_dense))
                 (known_positions (adata (ex_world ex_layers_dense)) ["g1"])
                 "S" "slot"
               = Ok (Dense [[num (-1)]; [num 4]], None)) by reflexivity.
  do 4 (split; [assumption|]).
  exact (proj1 (phase_portraits_unknown_ekey ["g1"] 0 1 "splicing" "S" "M_s"
                  "umap" None (ex_world ex_layers_dense) _ _ H1 H2 H3 H4)).
Defined.

(** X11: without a column 'velocity_parameter_gamma' in [adata.var],
    [phase_portraits] raises the exception that asks for a velocity
    estimation first (lines 266-272), once expression and velocity matrices
    were found; nothing is drawn. *)
Theorem phase_portraits_without_gamma (genes : list string) (x y : Z)
  (mode vkey ekey basis : string) (color : option (list string)) (w : World)
  (emb : DataFrame) (E : option matrix) (VP : matrix * option matrix)
  (EV : matrix * matrix)
  (Hemb : genes_and_embedding (adata w) genes basis x y = Ok emb)
  (Hmode : In mode valid_modes)
  (HE : expression_matrix (adata w) (known_positions (adata w) genes) ekey = Ok E)
  (HV : velocity_matrices (adata w) (known_positions (adata w) genes) vkey "slot"
        = Ok VP)
  (HD : densify_pair E (fst VP) = Ok EV)
  (Hgamma : ~ In "velocity_parameter_gamma" (keys (df_columns (var (adata w))))) :
  outcome (phase_portraits genes x y mode vkey ekey basis color) w
  = Raise (Exception gamma_msg)
  /\ drawn (phase_portraits genes x y mode vkey ekey basis color) w = figure w.
Proof.
  run_phase_portraits. rewrite Hemb, (In_str_in _ _ Hmode). cbn [negb fst snd].
  rewrite HE, HV. cbn [fst snd]. rewrite HD. cbn [fst snd].
  unfold kinetic_parameters. rewrite (str_in_false _ _ Hgamma).
  split; reflexivity.
Qed.

Lemma phase_portraits_without_gamma_witness :
  genes_and_embedding (mkAnnData ex_dense_a ex_obs (mkDF [CStr "g1"; CStr "g2"] [])
                                 [("X_umap", ex_dense_b)] ex_layers_dense [])
                      ["g1"] "umap" 0 1
  = Ok ex_embedding
  /\ In "splicing" valid_modes
  /\ ~ In "velocity_parameter_gamma" (keys (@nil (string * list cell)))
  /\ outcome (phase_portraits ["g1"] 0 1 "splicing" "S" "X" "umap" None)
             (mkWorld (mkAnnData ex_dense_a ex_obs
                                 (mkDF [CStr "g1"; CStr "g2"] [])
                                 [("X_umap", ex_dense_b)] ex_layers_dense []) [])
     = Raise (Exception gamma_msg).
Proof.
  assert (H1 : genes_and_embedding
                 (mkAnnData ex_dense_a ex_obs (mkDF [CStr "g1"; CStr "g2"] [])
                            [("X_umap", ex_dense_b)] ex_layers_dense [])
                 ["g1"] "umap" 0 1
               = Ok ex_embedding) by reflexivity.
  assert (H2 : In "splicing" valid_modes) by (simpl; tauto).
  assert (H3 : ~ In "velocity_parameter_gamma" (keys (@nil (string * list cell))))
    by (simpl; tauto).
  do 3 (split; [assumption|]).
  exact (proj1 (phase_portraits_without_gamma ["g1"] 0 1 "splicing" "S" "X"
                  "umap" None
                  (mkWorld (mkAnnData ex_dense_a ex_obs
                                      (mkDF [CStr "g1"; CStr "g2"] [])
                                      [("X_umap", ex_dense_b)] ex_layers_dense [])
                           [])
                  ex_embedding (Some (Dense [[num 1]; [num 0]]))
                  (Dense [[num (-1)]; [num 4]], None)
                  (Dense [[num 1]; [num 0]], Dense [[num (-1)]; [num 4]])
                  H1 H2 eq_refl eq_refl eq_refl H3)).
Defined.

(** X12: splicing mode tests for the layers 'spliced' and 'unspliced'
    (line 282) but reads 'X_unspliced' and 'X_spliced' (line 283): on data
    that pass the test without the normalised layers, [phase_portraits]
    raises a [KeyError] for 'X_unspliced' and draws nothing. *)
Theorem phase_portraits_splicing_needs_X_layers (genes : list string)
  (x y : Z) (vkey ekey basis : string) (color : option (list string))
  (w : World) (emb : DataFrame) (E : option matrix)
  (VP : matrix * option matrix) (EV : matrix * matrix)
  (gv : list cell * list cell)
  (Hemb : genes_and_embedding (adata w) genes basis x y = Ok emb)
  (HE : expression_matrix (adata w) (known_positions (adata w) genes) ekey = Ok E)
  (HV : velocity_matrices (adata w) (known_positions (adata w) genes) vkey "slot"
        = Ok VP)
  (HD : densify_pair E (fst VP) = Ok EV)
  (HK : kinetic_parameters (adata w) (known_genes (adata w) genes)
          "velocity_parameter_gamma" "velocity_offset" gamma_msg = Ok gv)
  (Hchecked : all_in ["spliced"; "unspliced"] (keys (layers (adata w))) = true)
  (Hmissing : lookup "X_unspliced" (layers (adata w)) = None) :
  outcome (phase_portraits genes x y "splicing" vkey ekey basis color) w
  = Raise (KeyError "X_unspliced")
  /\ drawn (phase_portraits genes x y "splicing" vkey ekey basis color) w
     = figure w.
Proof.
  run_phase_portraits. rewrite Hemb. cbn [negb fst snd str_in valid_modes
    existsb String.eqb Ascii.eqb Bool.eqb orb].
  rewrite HE, HV. cbn [fst snd]. rewrite HD. cbn [fst snd].
  rewrite HK. cbn [fst snd].
  unfold phase_frame. cbn [String.eqb Ascii.eqb Bool.eqb andb].
  rewrite Hchecked. unfold frame_two, gene_layer, getitem. rewrite Hmissing.
  split; reflexivity.
Qed.

Lemma phase_portraits_splicing_needs_X_layers_witness :
  genes_and_embedding (adata (ex_world ex_layers_raw)) ["g1"] "umap" 0 1
  = Ok ex_embedding
  /\ all_in ["spliced"; "unspliced"] (keys (layers (adata (ex_world ex_layers_raw))))
     = true
  /\ lookup "X_unspliced" (layers (adata (ex_world ex_layers_raw))) = None
  /\ outcome (phase_portraits ["g1"] 0 1 "splicing" "S" "X" "umap" None)
             (ex_world ex_layers_raw)
     = Raise (KeyError "X_unspliced").
Proof.
  assert (H1 : genes_and_embedding (adata (ex_world ex_layers_raw)) ["g1"] "umap" 0 1
               = Ok ex_embedding) by reflexivity.
  assert (H2 : all_in ["spliced"; "unspliced"]
                 (keys (layers (adata (ex_world ex_layers_raw)))) = true)
    by reflexivity.
  assert (H3 : lookup "X_unspliced" (layers (adata (ex_world ex_layers_raw))) = None)
    by reflexivity.
  do 3 (split; [assumption|]).
  exact (proj1 (phase_portraits_splicing_needs_X_layers ["g1"] 0 1 "S" "X"
                  "umap" None (ex_world ex_layers_raw)
                  ex_embedding (Some (Dense [[num 1]; [num 0]]))
                  (Dense [[num (-1)]; [num 4]], None)
                  (Dense [[num 1]; [num 0]], Dense [[num (-1)]; [num 4]])
                  ([CNum (num 2)], [CInt 0])
                  H1 eq_refl eq_refl eq_refl eq_refl H2 H3)).
Defined.

(** ** phase_portraits with a protein matrix *)

Lemma raises_raise {A} (e : exn) : raises (@raise A e).
Proof. intro w. now exists e. Qed.

Lemma raises_bind_l {A B} (m : M A) (k : A -> M B) :
  raises m -> raises (bind m k).
Proof.
  intros H w. destruct (H w) as [e He]. exists e.
  unfold outcome, bind in *. destruct (m w) as [[a|e'] w']; simpl in *.
  - discriminate He.
  - now injection He as ->.
Qed.

Lemma raises_bind_r {A B} (m : M A) (k : A -> M B) :
  (forall a, raises (k a)) -> raises (bind m k).
Proof.
  intros H w. unfold outcome, bind.
  destruct (m w) as [[a|e] w'].
  - apply (H a w').
  - now exists e.
Qed.

Lemma raises_bind_lift {A B} (r : result A) (k : A -> M B) :
  (forall a, r = Ok a -> raises (k a)) -> raises (bind (lift r) k).
Proof.
  intros H w. unfold outcome, bind, lift. destruct r as [a|e].
  - apply (H a eq_refl w).
  - now exists e.
Qed.

Lemma raises_for_each_cons {A} (x : A) (l : list A) (body : A -> M unit) :
  raises (body x) -> raises (for_each (x :: l) body).
Proof. intro H. simpl. now apply raises_bind_l. Qed.

Ltac raises_step :=
  lazymatch goal with
  | |- raises (bind (lift _) _) => apply raises_bind_lift; intros ? ?
  | |- raises (bind _ _) => apply raises_bind_r; intros ?
  | |- raises (raise _) => apply raises_raise
  | |- raises (let _ := _ in _) => cbv zeta
  end.

(** The panels of a gene end at line 375 at the latest. *)
Lemma phase_panels_raises a df embedding mode vkey ekey basis color n i gn :
  str_in "protein" (keys (obsm a)) && String.eqb mode "full"
  && all_in ["uu"; "ul"; "su"; "sl"] (keys (layers a)) = true ->
  raises (phase_panels a df embedding mode vkey ekey basis color n i gn).
Proof.
  intro H. unfold phase_panels. rewrite H. repeat raises_step.
Qed.

Lemma genes_and_embedding_known (a : AnnData) (genes : list string)
  (basis : string) (x y : Z) (emb : DataFrame) :
  genes_and_embedding a genes basis x y = Ok emb -> known_genes a genes <> [].
Proof.
  unfold genes_and_embedding. intros H Hnil. rewrite Hnil in H.
  discriminate H.
Qed.

Lemma phase_frame_full_layers a idx genes n_cells gamma offset E_vec V_vec
      P_vec color_vec df :
  phase_frame a idx genes n_cells "full" gamma offset E_vec V_vec P_vec
              color_vec = Ok df ->
  all_in ["uu"; "ul"; "su"; "sl"] (keys (layers a)) = true.
Proof.
  unfold phase_frame. cbn [String.eqb Ascii.eqb Bool.eqb andb].
  destruct (all_in ["uu"; "ul"; "su"; "sl"] (keys (layers a)));
    [reflexivity | discriminate].
Qed.

(** X13: in full mode on data with a key 'protein' in [adata.obsm],
    [phase_portraits] never returns: whatever gets past the checks and the
    frame ends in the panels of the first gene, where line 375 passes
    [hue=group], a name that is bound nowhere. *)
Theorem phase_portraits_protein_never_returns (genes : list string)
  (x y : Z) (vkey ekey basis : string) (color : option (list string))
  (w : World)
  (Hprotein : In "protein" (keys (obsm (adata w)))) :
  exists e,
    outcome (phase_portraits genes x y "full" vkey ekey basis color) w
    = Raise e.
Proof.
  apply In_str_in in Hprotein.
  unfold outcome, phase_portraits. unfold bind at 1. unfold get_adata at 1.
  cbn [fst snd].
  refine ((_ : raises _) w).
  apply raises_bind_lift. intros emb Hemb.
  apply raises_bind_r. intros _.
  apply raises_bind_lift. intros E HE.
  cbv zeta.
  apply raises_bind_lift. intros VP HV.
  apply raises_bind_lift. intros EV HD.
  apply raises_bind_lift. intros gv HK.
  apply raises_bind_lift. intros df Hdf.
  apply raises_bind_r. intros _.
  apply raises_bind_l.
  apply genes_and_embedding_known in Hemb.
  destruct (known_genes (adata w) genes) as [|g gs]; [contradiction|].
  cbn [length seq combine].
  apply raises_for_each_cons.
  apply phase_panels_raises.
  rewrite Hprotein, (phase_frame_full_layers _ _ _ _ _ _ _ _ _ _ _ Hdf).
  reflexivity.
Qed.

Lemma phase_portraits_protein_never_returns_witness :
  In "protein" (keys (obsm (adata (mkWorld ex_adata_protein []))))
  /\ exists e,
      outcome (phase_portraits ["g1"] 0 1 "full" "S" "X" "umap" None)
              (mkWorld ex_adata_protein [])
      = Raise e.
Proof.
  assert (H : In "protein" (keys (obsm (adata (mkWorld ex_adata_protein [])))))
    by (simpl; tauto).
  split; [exact H|].
  exact (phase_portraits_protein_never_returns ["g1"] 0 1 "S" "X" "umap" None
           (mkWorld ex_adata_protein []) H).
Defined.

(** ** variance_explained (preprocess.py, lines 107-134) *)

(** X14: without the key 'explained_variance_ratio_' in [adata.uns],
    [variance_explained] raises a [KeyError] for it and draws nothing. *)
Theorem variance_explained_missing (threshold : fnum) (n_pcs : option Z)
  (w : World)
  (Hmissing : lookup "explained_variance_ratio_" (uns (adata w)) = None) :
  outcome (variance_explained threshold n_pcs) w
  = Raise (KeyError "explained_variance_ratio_")
  /\ drawn (variance_explained threshold n_pcs) w = figure w.
Proof.
  unfold outcome, drawn, variance_explained, bind, get_adata, lift, getitem.
  cbn [fst snd]. rewrite Hmissing. split; reflexivity.
Qed.

Lemma variance_explained_missing_witness :
  lookup "explained_variance_ratio_" (uns (adata (ex_world ex_layers_dense))) = None
  /\ outcome (variance_explained (Fin (Q2Qc (2 # 1000))) None)
             (ex_world ex_layers_dense)
     = Raise (KeyError "explained_variance_ratio_")
  /\ drawn (variance_explained (Fin (Q2Qc (2 # 1000))) None)
           (ex_world ex_layers_dense)
     = figure (ex_world ex_layers_dense).
Proof.
  assert (H : lookup "explained_variance_ratio_"
                (uns (adata (ex_world ex_layers_dense))) = None) by reflexivity.
  split; [exact H|].
  exact (variance_explained_missing (Fin (Q2Qc (2 # 1000))) None
           (ex_world ex_layers_dense) H).
Defined.












(** ** feature_genes (preprocess.py, lines 137-182) *)

Lemma In_chars_of (k layer : string) :
  In k (chars_of layer) ->
  exists c, k = String c EmptyString /\ In c (list_ascii_of_string layer).
Proof.
  unfold chars_of. rewrite in_map_iff. intros [c [<- Hc]]. now exists c.
Qed.

(** X16: the layer argument of [feature_genes] is met, character by
    character, with the layer names and 'X'.  When it has no character 'X'
    and no layer has a one-character name, the intersection is empty and
    [feature_genes] raises [IndexError] right after [topTable], with nothing
    drawn: so for 'spliced' on an object with the layers 'spliced' and
    'unspliced'. *)
Theorem feature_genes_layer_name_raises
  (topTable : string -> M DataFrame) (layer : string) (w w' : World)
  (t : DataFrame)
  (Htop : topTable layer w = (Ok t, w'))
  (Hkeys : forall k, In k (keys (layers (adata w'))) -> String.length k <> 1%nat)
  (HX : ~ In "X"%char (list_ascii_of_string layer)) :
  outcome (feature_genes topTable layer) w
  = Raise (IndexError "list index out of range")
  /\ drawn (feature_genes topTable layer) w = figure w'.
Proof.
  unfold outcome, drawn, feature_genes, bind, get_adata.
  rewrite Htop. cbn [fst snd].
  fold (chars_of layer).
  rewrite filter_none; [split; reflexivity|].
  intros k Hk. apply str_in_false. intro Hin.
  apply In_chars_of in Hin as [c [-> Hc]].
  apply in_app_or in Hk as [Hk | [Hk | []]].
  - now apply Hkeys in Hk.
  - injection Hk as <-. contradiction.
Qed.

Lemma feature_genes_layer_name_raises_witness :
  ex_topTable "spliced" (ex_world ex_layers_raw)
  = (Ok (mkDF [CInt 0; CInt 1]
              [("gene_id", [CStr "g1"; CStr "g2"]);
               ("mean_expression", [CNum (num 1); CNum (num 2)]);
               ("dispersion_empirical", [CNum (num 3); CNum (num 4)])]),
     ex_world ex_layers_raw)
  /\ (forall k, In k (keys (layers (adata (ex_world ex_layers_raw)))) ->
                String.length k <> 1%nat)
  /\ ~ In "X"%char (list_ascii_of_string "spliced")
  /\ outcome (feature_genes ex_topTable "spliced") (ex_world ex_layers_raw)
     = Raise (IndexError "list index out of range")
  /\ drawn (feature_genes ex_topTable "spliced") (ex_world ex_layers_raw)
     = figure (ex_world ex_layers_raw).
Proof.
  assert (H1 : ex_topTable "spliced" (ex_world ex_layers_raw)
               = (Ok (mkDF [CInt 0; CInt 1]
                       [("gene_id", [CStr "g1"; CStr "g2"]);
                        ("mean_expression", [CNum (num 1); CNum (num 2)]);
                        ("dispersion_empirical", [CNum (num 3); CNum (num 4)])]),
                  ex_world ex_layers_raw)) by reflexivity.
  assert (H2 : forall k, In k (keys (layers (adata (ex_world ex_layers_raw)))) ->
                         String.length k <> 1%nat).
  { simpl. intros k [<- | [<- | [<- | []]]]; simpl; lia. }
  assert (H3 : ~ In "X"%char (list_ascii_of_string "spliced")).
  { simpl. intros [H | [H | [H | [H | [H | [H | [H | []]]]]]]]; discriminate H. }
  split; [exact H1 | split; [exact H2 | split; [exact H3|]]].
  exact (feature_genes_layer_name_raises ex_topTable "spliced"
           (ex_world ex_layers_raw) (ex_world ex_layers_raw) _ H1 H2 H3).
Defined.






(** ** The colour scale of the velocities (preprocess.py, lines 357-361;
       scatters.py, lines 412-416) *)

Ltac qc_lra :=
  unfold Qcle, Qclt in *; cbn [this Qcplus Qcmult Qcopp Q2Qc] in *;
  repeat match goal with
         | H : context [Qred ?a] |- _ => rewrite (Qred_correct a) in H
         | |- context [Qred ?a] => rewrite (Qred_correct a)
         end;
  lra.

Lemma Qc_leb_le (a b : Qc) : Qc_leb a b = true <-> (a <= b)%Qc.
Proof.
  unfold Qc_leb, Qcle, Qccompare. rewrite Qle_alt.
  destruct (a ?= b)%Q; split; intro H; congruence.
Qed.

Lemma Qc_leb_gt (a b : Qc) : Qc_leb a b = false <-> (b < a)%Qc.
Proof.
  unfold Qc_leb, Qclt, Qccompare. rewrite Qgt_alt.
  destruct (a ?= b)%Q; split; intro H; congruence.
Qed.

(** [np.clip(x, 0, 1)] of a finite number. *)
Lemma clip_Fin (x : Qc) :
  clip fzero fone (Fin x)
  = Fin (if Qc_leb 0 x then if Qc_leb x 1 then x else 1%Qc else 0%Qc).
Proof.
  unfold clip, fzero, fone, fltb, fleb. cbn [is_nan].
  destruct (Qc_leb 0 x) eqn:E0; cbn [negb]; [|reflexivity].
  destruct (Qc_leb x 1) eqn:E1; reflexivity.
Qed.

Lemma normalized_entry_Fin (l q : Qc) :
  (0 < l)%Qc ->
  normalized_entry (Fin l) (Fin q) = clip fzero fone (Fin ((q + l) / (Q2Qc 2 * l))).
Proof.
  intro Hl. unfold normalized_entry, ftwo. cbn [fadd fmul fdiv].
  rewrite Qc_eqb_neq; [reflexivity|].
  intro H. assert (Hd : (0 < Q2Qc 2 * l)%Qc) by qc_lra.
  rewrite H in Hd. now apply Qclt_not_eq in Hd.
Qed.

(** X18: when the limit [l] of a velocity vector (the larger absolute value
    of its 1st and 99th percentiles) is a positive number, the colour of a
    finite velocity [q] is [(q + l) / (2 l)] cut to the unit interval: 0 from
    [-l] downwards, 1 from [l] upwards, and 1/2 for the velocity 0, so the
    scale is centred on zero. *)
Theorem velocity_colour_scale (V_vec : vec) (l : Qc)
  (Hlimit : velocity_limit V_vec = Fin l) (Hpos : (0 < l)%Qc) :
  forall i q, nth_error V_vec i = Some (Fin q) ->
    exists c, nth_error (normalize_velocity V_vec) i = Some (Fin c)
      /\ ((q <= - l)%Qc -> c = 0%Qc)
      /\ ((l <= q)%Qc -> c = 1%Qc)
      /\ ((- l <= q)%Qc -> (q <= l)%Qc -> c = ((q + l) / (Q2Qc 2 * l))%Qc)
      /\ (q = 0%Qc -> c = Q2Qc (1 # 2)).
Proof.
  intros i q Hq.
  rewrite normalize_velocity_entries, nth_error_map, Hq, Hlimit.
  cbn [option_map]. rewrite (normalized_entry_Fin l q Hpos), clip_Fin.
  set (x := ((q + l) / (Q2Qc 2 * l))%Qc).
  assert (Hl0 : l <> 0%Qc) by (intros ->; discriminate Hpos).
  assert (Hd : (0 < Q2Qc 2 * l)%Qc) by qc_lra.
  assert (Hx : (x * (Q2Qc 2 * l) = q + l)%Qc).
  { unfold x. field. split; [exact Hl0 | discriminate]. }
  assert (Hlow : (q <= - l)%Qc -> (x <= 0)%Qc).
  { intro H. apply (Qcmult_lt_0_le_reg_r x 0 _ Hd). rewrite Hx. qc_lra. }
  assert (Hhigh : (l <= q)%Qc -> (1 <= x)%Qc).
  { intro H. apply (Qcmult_lt_0_le_reg_r 1 x _ Hd). rewrite Hx. qc_lra. }
  assert (Hge : (- l <= q)%Qc -> (0 <= x)%Qc).
  { intro H. apply (Qcmult_lt_0_le_reg_r 0 x _ Hd). rewrite Hx. qc_lra. }
  assert (Hle : (q <= l)%Qc -> (x <= 1)%Qc).
  { intro H. apply (Qcmult_lt_0_le_reg_r x 1 _ Hd). rewrite Hx. qc_lra. }
  assert (Hmid : (- l <= q)%Qc -> (q <= l)%Qc ->
                 (if Qc_leb 0 x then if Qc_leb x 1 then x else 1%Qc else 0%Qc) = x).
  { intros H1 H2.
    rewrite (proj2 (Qc_leb_le 0 x) (Hge H1)), (proj2 (Qc_leb_le x 1) (Hle H2)).
    reflexivity. }
  eexists. split; [reflexivity|]. split; [|split; [|split]].
  - intro H. destruct (Qc_leb 0 x) eqn:E0; [|reflexivity].
    apply Qc_leb_le in E0.
    assert (x = 0%Qc) as -> by (apply Qcle_antisym; [now apply Hlow | exact E0]).
    reflexivity.
  - intro H. specialize (Hhigh H).
    assert (H0 : (0 <= x)%Qc) by (apply Qcle_trans with 1%Qc; [discriminate | exact Hhigh]).
    rewrite (proj2 (Qc_leb_le 0 x) H0).
    destruct (Qc_leb x 1) eqn:E1; [|reflexivity].
    apply Qc_leb_le in E1. now apply Qcle_antisym.
  - exact Hmid.
  - intros ->. rewrite Hmid.
    + transitivity (1 / Q2Qc 2)%Qc.
      * unfold x. field. split; [discriminate | exact Hl0].
      * apply Qc_is_canon. reflexivity.
    + qc_lra.
    + qc_lra.
Qed.

Lemma velocity_colour_scale_witness :
  velocity_limit ex_velocities = Fin (Q2Qc (197 # 50))
  /\ (0 < Q2Qc (197 # 50))%Qc
  /\ nth_error ex_velocities 1 = Some (Fin 0%Qc)
  /\ exists c, nth_error (normalize_velocity ex_velocities) 1 = Some (Fin c)
       /\ ((0 <= - Q2Qc (197 # 50))%Qc -> c = 0%Qc)
       /\ ((Q2Qc (197 # 50) <= 0)%Qc -> c = 1%Qc)
       /\ ((- Q2Qc (197 # 50) <= 0)%Qc -> (0 <= Q2Qc (197 # 50))%Qc ->
           c = ((0 + Q2Qc (197 # 50)) / (Q2Qc 2 * Q2Qc (197 # 50)))%Qc)
       /\ (0%Qc = 0%Qc -> c = Q2Qc (1 # 2)).
Proof.
  assert (H1 : velocity_limit ex_velocities = Fin (Q2Qc (197 # 50))).
  { vm_compute. f_equal. apply Qc_is_canon. reflexivity. }
  assert (H2 : (0 < Q2Qc (197 # 50))%Qc) by reflexivity.
  assert (H3 : nth_error ex_velocities 1 = Some (Fin 0%Qc)) by reflexivity.
  split; [exact H1 | split; [exact H2 | split; [exact H3|]]].
  exact (velocity_colour_scale ex_velocities (Q2Qc (197 # 50)) H1 H2 1%nat 0%Qc H3).
Defined.

(** X19: with the limit 0 (so when all velocities are zero) the division is
    by zero: a zero velocity gets the colour NaN, a positive one 1 and a
    negative one 0. *)
Theorem velocity_limit_zero (V_vec : vec)
  (Hzero : velocity_limit V_vec = fzero)
  (i : nat) (q : Qc) (Hq : nth_error V_vec i = Some (Fin q)) :
  nth_error (normalize_velocity V_vec) i
  = Some (match (q ?= 0)%Qc with
          | Eq => NaN
          | Lt => fzero
          | Gt => fone
          end).
Proof.
  rewrite normalize_velocity_entries, nth_error_map, Hq, Hzero.
  cbn [option_map]. f_equal.
  unfold normalized_entry, fzero, ftwo. cbn [fadd fmul fdiv].
  assert (H0 : Qc_eqb (Q2Qc 2 * 0) 0 = true) by reflexivity.
  rewrite H0.
  assert (Hq0 : (q + 0 = q)%Qc) by ring. rewrite Hq0.
  destruct (q ?= 0)%Qc; reflexivity.
Qed.

Lemma velocity_limit_zero_witness :
  velocity_limit [num 0; num 0; num 0] = fzero
  /\ nth_error [num 0; num 0; num 0] 0 = Some (Fin 0%Qc)
  /\ nth_error (normalize_velocity [num 0; num 0; num 0]) 0 = Some NaN.
Proof.
  assert (H1 : velocity_limit [num 0; num 0; num 0] = fzero).
  { apply (f_equal Fin). apply Qc_is_canon. reflexivity. }
  assert (H2 : nth_error [num 0; num 0; num 0] 0 = Some (Fin 0%Qc)) by reflexivity.
  split; [exact H1 | split; [exact H2|]].
  exact (velocity_limit_zero [num 0; num 0; num 0] H1 0%nat 0%Qc H2).
Defined.

(** ** show_fraction in splicing mode (preprocess.py, lines 48-74) *)

(** X20: in splicing mode a sparse 'unspliced' layer beside a dense
    'spliced' layer makes [show_fraction] raise the [AttributeError] of
    [.A1] on an ndarray (line 56 takes both sums the sparse way), with
    nothing plotted. *)
Theorem show_fraction_mixed_storage (group : option string) (w : World)
  (n : nat) (entries : list (list (nat * fnum))) (rows : list vec)
  (Hun : lookup "unspliced" (layers (adata w)) = Some (Sparse n entries))
  (Hsp : lookup "spliced" (layers (adata w)) = Some (Dense rows)) :
  outcome (show_fraction "splicing" group) w = Raise A1_error
  /\ drawn (show_fraction "splicing" group) w
     = (figure w ++ [SetStyle "ticks"])%list.
Proof.
  unfold outcome, drawn, show_fraction, bind, get_adata, emit, ret, raise.
  cbn [fst snd adata figure negb str_in valid_modes existsb String.eqb
       Ascii.eqb Bool.eqb orb andb].
  rewrite !all_in_cons, !lookup_str_in, Hun, Hsp. cbn [andb all_in forallb].
  unfold fractions_splicing, bind, lift, ret, getitem.
  rewrite lookup_str_in, Hun, Hsp.
  destruct (lookup "ambiguous" (layers (adata w))); cbn; split; reflexivity.
Qed.

Lemma show_fraction_mixed_storage_witness :
  lookup "unspliced" (layers (adata (ex_world ex_layers_mixed)))
  = Some (Sparse 2 [[(0%nat, num 1); (1%nat, num 1)]; [(0%nat, num 4)]])
  /\ lookup "spliced" (layers (adata (ex_world ex_layers_mixed)))
     = Some (Dense [[num 1; num 2]; [num 0; num 3]])
  /\ outcome (show_fraction "splicing" None) (ex_world ex_layers_mixed)
     = Raise A1_error
  /\ drawn (show_fraction "splicing" None) (ex_world ex_layers_mixed)
     = (figure (ex_world ex_layers_mixed) ++ [SetStyle "ticks"])%list.
Proof.
  do 2 (split; [reflexivity|]).
  exact (show_fraction_mixed_storage None (ex_world ex_layers_mixed) 2
           [[(0%nat, num 1); (1%nat, num 1)]; [(0%nat, num 4)]]
           [[num 1; num 2]; [num 0; num 3]] eq_refl eq_refl).
Defined.

Lemma nth_error_zipWith_some {A B C} (f : A -> B -> C) (u : list A)
  (v : list B) (i : nat) (x : A) (y : B) :
  nth_error u i = Some x -> nth_error v i = Some y ->
  nth_error (zipWith f u v) i = Some (f x y).
Proof.
  revert v i. induction u as [|a u IH]; intros [|b v] [|i] Hx Hy;
    try discriminate.
  - simpl in *. congruence.
  - simpl in *. now apply IH.
Qed.

(** A part of a positive whole. *)
Lemma share_in_unit (p t : Qc) :
  (0 <= p)%Qc -> (p <= t)%Qc -> t <> 0%Qc ->
  fdiv (Fin p) (Fin t) = Fin (p / t)
  /\ (0 <= p / t)%Qc /\ (p / t <= 1)%Qc.
Proof.
  intros Hp Hpt Hnz.
  assert (Ht : (0 < t)%Qc).
  { destruct (Qcle_lt_or_eq 0 t (Qcle_trans _ _ _ Hp Hpt)) as [H | H];
      [exact H | now subst]. }
  assert (Hx : (p / t * t = p)%Qc) by (field; exact Hnz).
  split; [|split].
  - cbn [fdiv]. now rewrite Qc_eqb_neq.
  - apply (Qcmult_lt_0_le_reg_r 0 (p / t) t Ht). rewrite Hx. qc_lra.
  - apply (Qcmult_lt_0_le_reg_r (p / t) 1 t Ht). rewrite Hx. qc_lra.
Qed.

(** X21: in splicing mode, for a cell whose per-cell sums are not negative
    and whose total is a non-zero number, every plotted fraction of the cell
    is a number between 0 and 1. *)
Theorem splicing_fractions_in_unit_interval (w : World) (un sp : matrix)
  (am : option matrix) (i : nat) (t : Qc)
  (Hlayers : splicing_layers (adata w) un sp am)
  (Htotal : nth_error (splicing_totals un sp am) i = Some (Fin t))
  (Hnonzero : t <> 0%Qc)
  (Hnonneg : forall m x, In m (splicing_matrices un sp am) ->
                         nth_error (cell_sums m) i = Some x ->
                         fleb fzero x = true) :
  (exists res,
      melt (fractions_frame (df_index (obs (adata w)))
                            (splicing_fractions un sp am))
           (map fst (splicing_fractions un sp am)) [] = Ok res
      /\ outcome (show_fraction "splicing" None) w = Ok tt
      /\ drawn (show_fraction "splicing" None) w
         = (figure w ++ [SetStyle "ticks"; ViolinPlot "variable" "value" res;
                         SetLabels "Category" "Fraction"; PltShow])%list)
  /\ forall name fr, In (name, fr) (splicing_fractions un sp am) ->
       exists q, nth_error fr i = Some (Fin q) /\ (0 <= q)%Qc /\ (q <= 1)%Qc.
Proof.
  split; [now apply show_fraction_splicing_run|].
  assert (Hpos : forall m q, In m (splicing_matrices un sp am) ->
                   nth_error (cell_sums m) i = Some (Fin q) -> (0 <= q)%Qc).
  { intros m q Hm Hq. apply (Hnonneg m _ Hm) in Hq.
    now apply Qc_leb_le in Hq. }
  unfold splicing_totals in Htotal. unfold splicing_fractions, splicing_matrices in *.
  destruct am as [a|].
  - apply nth_error_zipWith in Htotal as [us [xa [Hus [Hxa Ht]]]].
    symmetry in Ht. apply fadd_Fin_inv in Ht as [qus [qa [-> [-> Ht]]]].
    apply nth_error_zipWith in Hus as [xu [xs [Hxu [Hxs Hus]]]].
    symmetry in Hus. apply fadd_Fin_inv in Hus as [qu [qs [-> [-> Hus]]]].
    subst qus.
    assert (Hu : (0 <= qu)%Qc) by (apply (Hpos un); [now left | exact Hxu]).
    assert (Hs : (0 <= qs)%Qc) by (apply (Hpos sp); [right; now left | exact Hxs]).
    assert (Ha : (0 <= qa)%Qc) by (apply (Hpos a); [right; right; now left | exact Hxa]).
    assert (Htot : nth_error (vadd (vadd (cell_sums un) (cell_sums sp)) (cell_sums a)) i
                   = Some (Fin t)).
    { unfold vadd. rewrite (nth_error_zipWith_some fadd _ _ i (Fin (qu + qs)) (Fin qa));
        [now subst | | exact Hxa].
      now rewrite (nth_error_zipWith_some fadd _ _ i (Fin qu) (Fin qs)). }
    intros name fr [H | [H | [H | []]]]; injection H as <- <-.
    + destruct (share_in_unit qu t) as [Hd [H0 H1]];
        [exact Hu | subst t; qc_lra | exact Hnonzero |].
      exists (qu / t)%Qc. split; [|split; assumption].
      unfold vdiv. now rewrite (nth_error_zipWith_some fdiv _ _ i (Fin qu) (Fin t)), Hd.
    + destruct (share_in_unit qs t) as [Hd [H0 H1]];
        [exact Hs | subst t; qc_lra | exact Hnonzero |].
      exists (qs / t)%Qc. split; [|split; assumption].
      unfold vdiv. now rewrite (nth_error_zipWith_some fdiv _ _ i (Fin qs) (Fin t)), Hd.
    + destruct (share_in_unit qa t) as [Hd [H0 H1]];
        [exact Ha | subst t; qc_lra | exact Hnonzero |].
      exists (qa / t)%Qc. split; [|split; assumption].
      unfold vdiv. now rewrite (nth_error_zipWith_some fdiv _ _ i (Fin qa) (Fin t)), Hd.
  - pose proof Htotal as Htot.
    apply nth_error_zipWith in Htotal as [xu [xs [Hxu [Hxs Hus]]]].
    symmetry in Hus. apply fadd_Fin_inv in Hus as [qu [qs [-> [-> Hus]]]].
    assert (Hu : (0 <= qu)%Qc) by (apply (Hpos un); [now left | exact Hxu]).
    assert (Hs : (0 <= qs)%Qc) by (apply (Hpos sp); [right; now left | exact Hxs]).
    intros name fr [H | [H | []]]; injection H as <- <-.
    + destruct (share_in_unit qu t) as [Hd [H0 H1]];
        [exact Hu | subst t; qc_lra | exact Hnonzero |].
      exists (qu / t)%Qc. split; [|split; assumption].
      unfold vdiv. now rewrite (nth_error_zipWith_some fdiv _ _ i (Fin qu) (Fin t)), Hd.
    + destruct (share_in_unit qs t) as [Hd [H0 H1]];
        [exact Hs | subst t; qc_lra | exact Hnonzero |].
      exists (qs / t)%Qc. split; [|split; assumption].
      unfold vdiv. now rewrite (nth_error_zipWith_some fdiv _ _ i (Fin qs) (Fin t)), Hd.
Qed.

Lemma splicing_fractions_in_unit_interval_witness :
  splicing_layers (adata (ex_world ex_layers_dense)) ex_dense_b ex_dense_a None
  /\ (exists t,
         nth_error (splicing_totals ex_dense_b ex_dense_a None) 1 = Some (Fin t)
         /\ t <> 0%Qc)
  /\ (forall m x, In m (splicing_matrices ex_dense_b ex_dense_a None) ->
                  nth_error (cell_sums m) 1 = Some x -> fleb fzero x = true)
  /\ forall name fr,
       In (name, fr) (splicing_fractions ex_dense_b ex_dense_a None) ->
       exists q, nth_error fr 1 = Some (Fin q) /\ (0 <= q)%Qc /\ (q <= 1)%Qc.
Proof.
  assert (H1 : splicing_layers (adata (ex_world ex_layers_dense))
                 ex_dense_b ex_dense_a None)
    by (repeat split; reflexivity).
  pose (t := (Q2Qc (inject_Z 4) + (Q2Qc (inject_Z 0) + 0)
              + (Q2Qc (inject_Z 0) + (Q2Qc (inject_Z 3) + 0)))%Qc).
  assert (H2 : nth_error (splicing_totals ex_dense_b ex_dense_a None) 1
               = Some (Fin t)) by reflexivity.
  assert (H3 : t <> 0%Qc) by (apply Qc_eqb_false_neq; reflexivity).
  assert (H4 : forall m x, In m (splicing_matrices ex_dense_b ex_dense_a None) ->
                 nth_error (cell_sums m) 1 = Some x -> fleb fzero x = true).
  { intros m x [<- | [<- | []]] H; injection H as <-; reflexivity. }
  split; [exact H1 | split; [exists t; split; assumption | split; [exact H4|]]].
  exact (proj2 (splicing_fractions_in_unit_interval (ex_world ex_layers_dense)
                  ex_dense_b ex_dense_a None 1 t H1 H2 H3 H4)).
Defined.

(** ** The datashader helpers of scatters.py (lines 52-73) *)

Lemma zipWith3_map {A B C D E} (f : B -> C -> D -> E)
  (g1 : A -> B) (g2 : A -> C) (g3 : A -> D) (l : list A) :
  zipWith3 f (map g1 l) (map g2 l) (map g3 l)
  = map (fun x => f (g1 x) (g2 x) (g3 x)) l.
Proof.
  induction l as [|a l IH]; [reflexivity|]. simpl. now rewrite IH.
Qed.

(** The stacked image, pixel by pixel. *)
Lemma embed_pixels (data : list (list Z)) :
  _embed_datashader_in_an_axis data
  = map (map (fun x => [_blue x; _green x; _red x])) (rev data).
Proof.
  unfold _embed_datashader_in_an_axis, dstack, vectorize.
  generalize (rev data). intro l.
  induction l as [|row l IH]; [reflexivity|].
  cbn [map zipWith3]. rewrite IH. f_equal.
  exact (zipWith3_map (fun x y z : Z => [x; y; z]) _blue _green _red row).
Qed.

Lemma pixel_of_bytes_channels (x : Z) :
  pixel_of_bytes [_blue x; _green x; _red x] = Z.land x 0xFFFFFF.
Proof.
  unfold pixel_of_bytes. rewrite red_div_mod, green_div_mod, blue_mod.
  change 0xFFFFFF with (Z.ones 24). rewrite Z.land_ones by lia.
  change (2 ^ 24) with 16777216.
  Z.div_mod_to_equations. lia.
Qed.

(** X22: the array that [_embed_datashader_in_an_axis] hands to [imshow]
    has the rows of the datashader image in reverse order and, for each
    pixel, the bytes blue, green, red in this order; reading the bytes back
    and reversing the rows again gives the low 24 bits of every pixel, so
    only the top byte of a pixel is lost. *)
Theorem embed_datashader_round_trip (data : list (list Z)) (i j : nat) (x : Z)
  (Hi : (i < length data)%nat)
  (Hx : nth_error (nth i data []) j = Some x) :
  nth_error (nth (length data - 1 - i) (_embed_datashader_in_an_axis data) []) j
  = Some [_blue x; _green x; _red x]
  /\ rev (map (map pixel_of_bytes) (_embed_datashader_in_an_axis data))
     = map (map (fun x => Z.land x 0xFFFFFF)) data.
Proof.
  rewrite embed_pixels. split.
  - rewrite map_rev.
    assert (Hrow : nth (length data - 1 - i)
                     (rev (map (map (fun x => [_blue x; _green x; _red x])) data)) []
                   = map (fun x => [_blue x; _green x; _red x]) (nth i data [])).
    { rewrite rev_nth by (rewrite length_map; lia).
      rewrite length_map.
      replace (length data - S (length data - 1 - i))%nat with i by lia.
      exact (map_nth (map (fun x => [_blue x; _green x; _red x])) data [] i). }
    rewrite Hrow, nth_error_map, Hx. reflexivity.
  - rewrite map_map, <- map_rev, rev_involutive.
    apply map_ext. intro row. rewrite map_map.
    apply map_ext. intro y. apply pixel_of_bytes_channels.
Qed.

Lemma embed_datashader_round_trip_witness :
  (0 < length ex_image)%nat
  /\ nth_error (nth 0 ex_image []) 1 = Some 0xFF0000FF
  /\ nth_error (nth 1 (_embed_datashader_in_an_axis ex_image) []) 1
     = Some [255; 0; 0]
  /\ rev (map (map pixel_of_bytes) (_embed_datashader_in_an_axis ex_image))
     = [[0x345678; 0x0000FF]; [0x00FF00; 1]].
Proof.
  assert (H1 : (0 < length ex_image)%nat) by (simpl; lia).
  assert (H2 : nth_error (nth 0 ex_image []) 1 = Some 0xFF0000FF) by reflexivity.
  split; [exact H1 | split; [exact H2|]].
  exact (embed_datashader_round_trip ex_image 0 1 0xFF0000FF H1 H2).
Defined.

(** ** _get_extent (scatters.py, lines 59-73) *)

Lemma round_half_even_floor (q : Q) :
  Qfloor q <= round_half_even q <= Qfloor q + 1.
Proof.
  unfold round_half_even.
  destruct (q - inject_Z (Qfloor q) ?= 1 # 2)%Q; [destruct (Z.even _)| |]; lia.
Qed.

Ltac order_of_compare H :=
  match type of H with
  | _ = Eq => apply (proj2 (Qeq_alt _ _)) in H
  | _ = Lt => apply (proj2 (Qlt_alt _ _)) in H
  | _ = Gt => apply (proj2 (Qgt_alt _ _)) in H
  end.

Lemma round_half_even_bounds (q : Q) :
  (inject_Z (round_half_even q) - (1 # 2) <= q)%Q
  /\ (q <= inject_Z (round_half_even q) + (1 # 2))%Q.
Proof.
  pose proof (Qfloor_le q) as Hlo. pose proof (Qlt_floor q) as Hhi.
  rewrite inject_Z_plus in Hhi. change (inject_Z 1) with 1%Q in Hhi.
  unfold round_half_even.
  destruct (q - inject_Z (Qfloor q) ?= 1 # 2)%Q eqn:E; order_of_compare E.
  - destruct (Z.even (Qfloor q)).
    + split; lra.
    + rewrite inject_Z_plus. change (inject_Z 1) with 1%Q. split; lra.
  - split; lra.
  - rewrite inject_Z_plus. change (inject_Z 1) with 1%Q. split; lra.
Qed.

Lemma round_half_even_mono (a b : Q) :
  (a <= b)%Q -> round_half_even a <= round_half_even b.
Proof.
  intro Hab.
  pose proof (Qfloor_resp_le _ _ Hab) as Hf.
  destruct (Z.eq_dec (Qfloor a) (Qfloor b)) as [Heq | Hne].
  - unfold round_half_even. rewrite Heq.
    destruct (a - inject_Z (Qfloor b) ?= 1 # 2)%Q eqn:Ea;
      destruct (b - inject_Z (Qfloor b) ?= 1 # 2)%Q eqn:Eb;
      try (destruct (Z.even (Qfloor b))); try lia;
      order_of_compare Ea; order_of_compare Eb; exfalso; lra.
  - pose proof (round_half_even_floor a). pose proof (round_half_even_floor b).
    lia.
Qed.

Lemma fmin_np_Fin (a b : Qc) :
  fmin_np (Fin a) (Fin b) = Fin (if Qc_leb a b then a else b).
Proof. unfold fmin_np. cbn [is_nan orb fleb]. now destruct (Qc_leb a b). Qed.

Lemma fmax_np_Fin (a b : Qc) :
  fmax_np (Fin a) (Fin b) = Fin (if Qc_leb a b then b else a).
Proof. unfold fmax_np. cbn [is_nan orb fleb]. now destruct (Qc_leb a b). Qed.

Lemma fold_fmin_fin (qs : list Qc) (x : Qc) :
  exists m, fold_left fmin_np (map Fin qs) (Fin x) = Fin m
            /\ (m <= x)%Qc /\ Forall (fun q => (m <= q)%Qc) qs.
Proof.
  revert x. induction qs as [|q qs IH]; intro x.
  - exists x. simpl. repeat split; [apply Qcle_refl | constructor].
  - cbn [map fold_left]. rewrite fmin_np_Fin.
    destruct (IH (if Qc_leb x q then x else q)) as [m [Hm [Hle Hall]]].
    exists m. split; [exact Hm|].
    destruct (Qc_leb x q) eqn:E.
    + apply Qc_leb_le in E. split; [exact Hle|].
      constructor; [now apply Qcle_trans with x | exact Hall].
    + apply Qc_leb_gt in E. split.
      * apply Qcle_trans with q; [exact Hle | now apply Qclt_le_weak].
      * constructor; assumption.
Qed.

Lemma fold_fmax_fin (qs : list Qc) (x : Qc) :
  exists m, fold_left fmax_np (map Fin qs) (Fin x) = Fin m
            /\ (x <= m)%Qc /\ Forall (fun q => (q <= m)%Qc) qs.
Proof.
  revert x. induction qs as [|q qs IH]; intro x.
  - exists x. simpl. repeat split; [apply Qcle_refl | constructor].
  - cbn [map fold_left]. rewrite fmax_np_Fin.
    destruct (IH (if Qc_leb x q then q else x)) as [m [Hm [Hle Hall]]].
    exists m. split; [exact Hm|].
    destruct (Qc_leb x q) eqn:E.
    + apply Qc_leb_le in E. split.
      * now apply Qcle_trans with q.
      * constructor; assumption.
    + apply Qc_leb_gt in E. split; [exact Hle|].
      constructor; [|exact Hall].
      apply Qcle_trans with x; [now apply Qclt_le_weak | exact Hle].
Qed.

(** The smallest and the largest of the finite numbers of a column. *)
Lemma np_min_max_fin (qs : list Qc) :
  qs <> [] ->
  exists lo hi,
    np_min (map Fin qs) = Ok (Fin lo) /\ np_max (map Fin qs) = Ok (Fin hi)
    /\ (lo <= hi)%Qc
    /\ Forall (fun q => (lo <= q)%Qc /\ (q <= hi)%Qc) qs.
Proof.
  destruct qs as [|x qs]; [congruence|]. intros _.
  destruct (fold_fmin_fin qs x) as [lo [Hlo [Hlx Hlall]]].
  destruct (fold_fmax_fin qs x) as [hi [Hhi [Hxh Hhall]]].
  exists lo, hi. cbn [map np_min np_max]. rewrite Hlo, Hhi.
  repeat split.
  - now apply Qcle_trans with x.
  - constructor; [now split|].
    rewrite Forall_forall in *. intros q Hq. split; auto.
Qed.

Lemma column_points_at (points : ndarray2) (pts : list (Qc * Qc)) :
  points_at points pts ->
  column points 0 = Ok (map Fin (map fst pts))
  /\ column points 1 = Ok (map Fin (map snd pts)).
Proof.
  intros [Hn Hrows]. unfold column.
  assert (H0 : (0 <? arr_ncols points)%nat = true) by (apply Nat.ltb_lt; lia).
  assert (H1 : (1 <? arr_ncols points)%nat = true) by (apply Nat.ltb_lt; lia).
  rewrite H0, H1.
  induction Hrows as [|r [a b] rows pts' [Ha Hb] _ [IH0 IH1]]; [split; reflexivity|].
  injection IH0 as IH0. injection IH1 as IH1.
  cbn [map fst snd] in *. rewrite IH0, IH1.
  destruct r as [|x [|y r]]; try discriminate.
  simpl in Ha, Hb. injection Ha as ->. injection Hb as ->.
  split; reflexivity.
Qed.

(** One side of the extent: the bounds of a column, padded and rounded. *)
Lemma padded_bounds (lo hi : Qc) :
  (lo <= hi)%Qc ->
  exists x0 x1 : Z,
    np_round (fsub (Fin lo) (fmul (Fin (Q2Qc (5 # 100))) (fsub (Fin hi) (Fin lo))))
    = fofZ x0
    /\ np_round (fadd (Fin hi) (fmul (Fin (Q2Qc (5 # 100))) (fsub (Fin hi) (Fin lo))))
       = fofZ x1
    /\ x0 <= x1
    /\ (inject_Z x0 - (1 # 2) <= lo)%Q
    /\ (hi <= inject_Z x1 + (1 # 2))%Q.
Proof.
  intro Hle.
  unfold fsub, fneg, fmul, fadd, np_round.
  set (a := (lo + - (Q2Qc (5 # 100) * (hi + - lo)))%Qc).
  set (b := (hi + Q2Qc (5 # 100) * (hi + - lo))%Qc).
  exists (round_half_even a), (round_half_even b).
  assert (Ha : (a <= lo)%Q).
  { unfold a. unfold Qcle in Hle.
    cbn [this Qcplus Qcmult Qcopp Q2Qc].
    rewrite !Qred_correct. lra. }
  assert (Hb : (hi <= b)%Q).
  { unfold b. unfold Qcle in Hle.
    cbn [this Qcplus Qcmult Qcopp Q2Qc].
    rewrite !Qred_correct. lra. }
  destruct (round_half_even_bounds a) as [Ha0 _].
  destruct (round_half_even_bounds b) as [_ Hb1].
  split; [reflexivity | split; [reflexivity|]].
  split; [|split].
  - apply round_half_even_mono. unfold Qcle in Hle. lra.
  - lra.
  - lra.
Qed.

(** X23: on points with finite coordinates, at least one of them,
    [_get_extent] returns four integers, the lower bound of each axis not
    above the upper one; every point lies in the extent widened by 1/2 on
    each side, the most that the rounding to integers can cut off. *)
Theorem get_extent_bounds (points : ndarray2) (pts : list (Qc * Qc))
  (Hpoints : points_at points pts) (Hsome : pts <> []) :
  exists x0 x1 y0 y1 : Z,
    _get_extent points = Ok (fofZ x0, fofZ x1, fofZ y0, fofZ y1)
    /\ x0 <= x1 /\ y0 <= y1
    /\ forall a b : Qc, In (a, b) pts ->
         (inject_Z x0 - (1 # 2) <= a)%Q /\ (a <= inject_Z x1 + (1 # 2))%Q
         /\ (inject_Z y0 - (1 # 2) <= b)%Q /\ (b <= inject_Z y1 + (1 # 2))%Q.
Proof.
  destruct (column_points_at points pts Hpoints) as [Hc0 Hc1].
  assert (Hx : map fst pts <> []) by (destruct pts; [congruence | discriminate]).
  assert (Hy : map snd pts <> []) by (destruct pts; [congruence | discriminate]).
  destruct (np_min_max_fin _ Hx) as [lx [hx [Hminx [Hmaxx [Hlex Hallx]]]]].
  destruct (np_min_max_fin _ Hy) as [ly [hy [Hminy [Hmaxy [Hley Hally]]]]].
  destruct (padded_bounds lx hx Hlex) as [x0 [x1 [Hx0 [Hx1 [Hx01 [Hxlo Hxhi]]]]]].
  destruct (padded_bounds ly hy Hley) as [y0 [y1 [Hy0 [Hy1 [Hy01 [Hylo Hyhi]]]]]].
  exists x0, x1, y0, y1.
  split; [|split; [exact Hx01 | split; [exact Hy01|]]].
  - unfold _get_extent. rewrite Hc0, Hc1. cbn [rbind].
    rewrite Hminx, Hmaxx, Hminy, Hmaxy. cbn [rbind].
    now rewrite Hx0, Hx1, Hy0, Hy1.
  - intros a b Hin.
    rewrite Forall_forall in Hallx, Hally.
    destruct (Hallx a) as [Ha1 Ha2]; [now apply (in_map fst) in Hin|].
    destruct (Hally b) as [Hb1 Hb2]; [now apply (in_map snd) in Hin|].
    unfold Qcle in *. repeat split; lra.
Qed.

Lemma get_extent_bounds_witness :
  points_at ex_points [(Q2Qc (6 # 10), Q2Qc 0); (Q2Qc (7 # 10), Q2Qc 10)]
  /\ [(Q2Qc (6 # 10), Q2Qc 0); (Q2Qc (7 # 10), Q2Qc 10)] <> []
  /\ exists x0 x1 y0 y1 : Z,
       _get_extent ex_points = Ok (fofZ x0, fofZ x1, fofZ y0, fofZ y1)
       /\ x0 <= x1 /\ y0 <= y1
       /\ forall a b : Qc,
            In (a, b) [(Q2Qc (6 # 10), Q2Qc 0); (Q2Qc (7 # 10), Q2Qc 10)] ->
            (inject_Z x0 - (1 # 2) <= a)%Q /\ (a <= inject_Z x1 + (1 # 2))%Q
            /\ (inject_Z y0 - (1 # 2) <= b)%Q /\ (b <= inject_Z y1 + (1 # 2))%Q.
Proof.
  assert (H1 : points_at ex_points
                 [(Q2Qc (6 # 10), Q2Qc 0); (Q2Qc (7 # 10), Q2Qc 10)]).
  { split; [simpl; lia|]. repeat constructor. }
  assert (H2 : [(Q2Qc (6 # 10), Q2Qc 0); (Q2Qc (7 # 10), Q2Qc 10)] <> [])
    by discriminate.
  split; [exact H1 | split; [exact H2|]].
  exact (get_extent_bounds ex_points _ H1 H2).
Defined.

(** X24: [_get_extent] returns exactly on the arrays that have a row and
    two columns at least; the values may be anything, NaN and the
    infinities go through the rounding. *)
Theorem get_extent_returns_iff (points : ndarray2) :
  (exists e, _get_extent points = Ok e)
  <-> (arr_rows points <> [] /\ (2 <= arr_ncols points)%nat).
Proof.
  unfold _get_extent, column.
  destruct (arr_rows points) as [|r rows] eqn:Er.
  - split.
    + destruct (0 <? arr_ncols points)%nat; cbn; intros [e He]; discriminate He.
    + intros [H _]. congruence.
  - destruct (0 <? arr_ncols points)%nat eqn:E0.
    + destruct (1 <? arr_ncols points)%nat eqn:E1.
      * cbn. split.
        -- intros _. split; [discriminate|]. apply Nat.ltb_lt in E1. lia.
        -- intros _. eexists. reflexivity.
      * cbn. split.
        -- intros [e He]. discriminate He.
        -- intros [_ H]. apply Nat.ltb_ge in E1. lia.
    + cbn. split.
      * intros [e He]. discriminate He.
      * intros [_ H]. apply Nat.ltb_ge in E0. lia.
Qed.

(** ** scatters as a whole (scatters.py, lines 94-470) *)

(** X6: [scatters] returns on no input at all.  Whatever the arguments and
    the data, the call ends in an exception, the figure is as it was (no
    panel is ever drawn) and so is the AnnData object: the types 'phase',
    'velocity' and 'expression' stop at the velocity key at the latest,
    which is never 'U' or 'S' once 'velocity_' is put before it, and
    'embedding' stops at the background colour, which only the other types
    bind. *)
Theorem scatters_never_returns
  (themes : list (string * theme_entry)) (genes : list string) (x y : Z)
  (theme : option string) (type velocity_key ekey basis : string)
  (n_columns : Z) (color : option (list string))
  (figsize : option (fnum * fnum)) (legend : string) (w : World) :
  exists e,
    outcome (scatters themes genes x y theme type velocity_key ekey basis
                      n_columns color figsize legend) w = Raise e
    /\ drawn (scatters themes genes x y theme type velocity_key ekey basis
                       n_columns color figsize legend) w
       = figure w
    /\ adata_after (scatters themes genes x y theme type velocity_key ekey
                             basis n_columns color figsize legend) w
       = adata w.
Proof.
  destruct (scatters_always_raises themes genes x y theme type velocity_key
              ekey basis n_columns color figsize legend w) as [e [He Hd]].
  exists e. split; [exact He | split; [exact Hd|]].
  apply (emits_reads_only panel_ok). apply scatters_emits.
Qed.

(** ** The colour argument of phase_portraits (preprocess.py, lines 248-250
       and 275-318) *)

Lemma rmapM_Ok_In {A B} (f : A -> result B) (l : list A) (ys : list B) (x : A) :
  rmapM f l = Ok ys -> In x l -> exists y, f x = Ok y.
Proof.
  revert ys. induction l as [|a l IH]; intros ys H Hin; [destruct Hin|].
  apply rmapM_Ok_cons in H as [y [ys' [Hy [Hys _]]]].
  destruct Hin as [<- | Hin]; [now exists y | now apply (IH ys')].
Qed.

(** A column given as cells is as long as the index of the frame. *)
Lemma DataFrame_of_columns_length (cols : list (string * colspec))
  (index : list cell) (df : DataFrame) (name : string) (l : list cell) :
  DataFrame_of_columns cols index = Ok df ->
  In (name, ColCells l) cols ->
  length l = length index.
Proof.
  unfold DataFrame_of_columns, rmap.
  destruct (rmapM _ cols) as [cs|e] eqn:E; [|discriminate].
  intros _ Hin.
  destruct (rmapM_Ok_In _ _ _ _ E Hin) as [y Hy].
  cbn [fst snd cells_of rbind] in Hy.
  destruct (Nat.eqb (length l) (length index)) eqn:En; [|discriminate Hy].
  now apply Nat.eqb_eq.
Qed.

Lemma length_repeat_each {A} (l : list A) (n : nat) :
  length (repeat_each l n) = (length l * n)%nat.
Proof.
  unfold repeat_each. induction l as [|a l IH]; [reflexivity|].
  cbn [flat_map]. rewrite length_app, repeat_length, IH. reflexivity.
Qed.

Lemma length_range_index (n : nat) : length (range_index n) = n.
Proof. unfold range_index. now rewrite length_map, length_seq. Qed.

Lemma color_column_length (color_vec : list cell) (n_cells n_genes : nat) :
  n_genes <> 0%nat ->
  length (repeat_each color_vec n_genes) = length (range_index (n_cells * n_genes)) ->
  length color_vec = n_cells.
Proof.
  rewrite length_repeat_each, length_range_index. intros Hn H.
  now apply Nat.mul_cancel_r in H.
Qed.

(** The frame of a gene set is only built when the colour vector has one
    entry per cell. *)
Lemma phase_frame_color a idx genes n_cells mode gamma offset E_vec V_vec
      P_vec color_vec df :
  genes <> [] ->
  phase_frame a idx genes n_cells mode gamma offset E_vec V_vec P_vec color_vec
  = Ok df ->
  length color_vec = n_cells.
Proof.
  intros Hg H.
  assert (Hn : length genes <> 0%nat) by (destruct genes; [congruence | discriminate]).
  apply (color_column_length color_vec n_cells (length genes) Hn).
  unfold phase_frame in H.
  repeat match type of H with
         | (if ?b then _ else _) = Ok _ => destruct b
         end; try discriminate H.
  - unfold frame_two in H. open_rbind H;
      (eapply DataFrame_of_columns_length; [exact H|]);
      do 7 right; left; reflexivity.
  - unfold frame_two in H. open_rbind H;
      (eapply DataFrame_of_columns_length; [exact H|]);
      do 7 right; left; reflexivity.
  - unfold frame_full in H. open_rbind H;
      (eapply DataFrame_of_columns_length; [exact H|]);
      first [ do 7 right; left; reflexivity | do 12 right; left; reflexivity ].
Qed.

(** X25: the colour vector of [phase_portraits] holds the names of the
    [color] argument that are columns of [adata.obs], not their values, so
    the column 'color' of the frame has one entry per name and gene.
    Unless the number of these names happens to equal the number of cells,
    a call with a [color] argument raises and draws nothing, whatever the
    other arguments and the data. *)
Theorem phase_portraits_color_breaks (genes : list string) (x y : Z)
  (mode vkey ekey basis : string) (color : list string) (w : World)
  (Hcount : length (filter (fun k => str_in k color)
                           (keys (df_columns (obs (adata w)))))
            <> length (df_index (obs (adata w)))) :
  exists e,
    outcome (phase_portraits genes x y mode vkey ekey basis (Some color)) w
    = Raise e
    /\ drawn (phase_portraits genes x y mode vkey ekey basis (Some color)) w
       = figure w.
Proof.
  run_phase_portraits.
  destruct (genes_and_embedding _ _ _ _ _) as [emb|] eqn:Hemb;
    [|eexists; split; reflexivity].
  apply genes_and_embedding_known in Hemb.
  destruct (negb (str_in mode valid_modes)); [eexists; split; reflexivity|].
  cbn [fst snd].
  destruct (expression_matrix _ _ _); [|eexists; split; reflexivity].
  destruct (velocity_matrices _ _ _ _); [|eexists; split; reflexivity].
  destruct (densify_pair _ _); [|eexists; split; reflexivity].
  destruct (kinetic_parameters _ _ _ _ _); [|eexists; split; reflexivity].
  destruct (phase_frame _ _ _ _ _ _ _ _ _ _ _) as [df|] eqn:Hdf;
    [|eexists; split; reflexivity].
  apply phase_frame_color in Hdf; [|exact Hemb].
  rewrite length_map in Hdf. contradiction.
Qed.

Lemma phase_portraits_color_breaks_witness :
  length (filter (fun k => str_in k ["cluster"])
                 (keys (df_columns (obs (adata (ex_world ex_layers_dense))))))
  <> length (df_index (obs (adata (ex_world ex_layers_dense))))
  /\ exists e,
       outcome (phase_portraits ["g1"; "g2"] 0 1 "splicing" "S" "X" "umap"
                                (Some ["cluster"]))
               (ex_world ex_layers_dense) = Raise e
       /\ drawn (phase_portraits ["g1"; "g2"] 0 1 "splicing" "S" "X" "umap"
                                 (Some ["cluster"]))
                (ex_world ex_layers_dense)
          = figure (ex_world ex_layers_dense).
Proof.
  assert (H : length (filter (fun k => str_in k ["cluster"])
                        (keys (df_columns (obs (adata (ex_world ex_layers_dense))))))
              <> length (df_index (obs (adata (ex_world ex_layers_dense)))))
    by (simpl; lia).
  split; [exact H|].
  exact (phase_portraits_color_breaks ["g1"; "g2"] 0 1 "splicing" "S" "X" "umap"
           ["cluster"] (ex_world ex_layers_dense) H).
Defined.
